(** * The XInput shim of dlls/xinput1_3/main.c

    A shallow embedding of the controller state store, the reader worker's
    frame handling, the public entry points and the keystroke synthesizer,
    followed by the properties of the specification that concern them.

    C integers are modelled in [Z] with every conversion written out; the
    64-byte datagram buffer is a [list byte]; the process-wide globals
    ([controller], [thread_running], [xinput_min_index], the one-shot start
    gate) form the record [world], threaded explicitly through every
    function that reads or writes them.  The transport (socket handles and
    the outbound datagrams) carries no state any modelled function reads,
    and is left out. *)

From Stdlib Require Import ZArith List Bool Lia.
From Stdlib Require Import Init.Byte Strings.Byte.
Import ListNotations.
Local Open Scope Z_scope.

(** ** C integer conversions *)

Module CInt.

Definition to_unsigned (bits z : Z) : Z := z mod 2 ^ bits.

Definition to_signed (bits z : Z) : Z :=
  let m := z mod 2 ^ bits in
  if m <? 2 ^ (bits - 1) then m else m - 2 ^ bits.

Definition to_BYTE : Z -> Z := to_unsigned 8.
Definition to_WORD : Z -> Z := to_unsigned 16.
Definition to_DWORD : Z -> Z := to_unsigned 32.
Definition to_UINT : Z -> Z := to_unsigned 32.
Definition to_char : Z -> Z := to_signed 8.
Definition to_SHORT : Z -> Z := to_signed 16.
Definition to_int : Z -> Z := to_signed 32.

(** C truth value of an integer expression. *)
Definition truthy (z : Z) : bool := negb (z =? 0).

End CInt.
Export CInt.

(** ** Platform headers

    The headers [xinput.h] and [winerror.h] are not part of the sources at
    hand; the definitions of this module stand for their declarations. *)

Module Headers.

(** Modelled from the spec: the return codes named in its section 6
    (SUCCESS, BAD_ARGUMENTS, DEVICE_NOT_CONNECTED, EMPTY, NOT_SUPPORTED),
    with the numeric values of the platform header winerror.h, which is
    missing from the sources. *)
Definition ERROR_SUCCESS : Z := 0.
Definition ERROR_NOT_SUPPORTED : Z := 50.
Definition ERROR_BAD_ARGUMENTS : Z := 160.
Definition ERROR_DEVICE_NOT_CONNECTED : Z := 1167.
Definition ERROR_EMPTY : Z := 4306.

(** Modelled from the spec: the index range [[0, 4)] and the wildcard
    index XUSER_INDEX_ANY of its section 4.3, with the values of the
    missing platform header xinput.h. *)
Definition XUSER_MAX_COUNT : Z := 4.
Definition XUSER_INDEX_ANY : Z := 0xFF.

(** Modelled from the spec: device class and subtype "gamepad" and the
    gamepad-only query flag, with the values of the missing header
    xinput.h. *)
Definition XINPUT_DEVTYPE_GAMEPAD : Z := 0x01.
Definition XINPUT_DEVSUBTYPE_GAMEPAD : Z := 0x01.
Definition XINPUT_FLAG_GAMEPAD : Z := 0x00000001.

(** Modelled from the spec: the logical-button flags of the pad sample's
    button mask, with the values of the missing header xinput.h. *)
Definition XINPUT_GAMEPAD_DPAD_UP : Z := 0x0001.
Definition XINPUT_GAMEPAD_DPAD_DOWN : Z := 0x0002.
Definition XINPUT_GAMEPAD_DPAD_LEFT : Z := 0x0004.
Definition XINPUT_GAMEPAD_DPAD_RIGHT : Z := 0x0008.
Definition XINPUT_GAMEPAD_START : Z := 0x0010.
Definition XINPUT_GAMEPAD_BACK : Z := 0x0020.
Definition XINPUT_GAMEPAD_LEFT_THUMB : Z := 0x0040.
Definition XINPUT_GAMEPAD_RIGHT_THUMB : Z := 0x0080.
Definition XINPUT_GAMEPAD_LEFT_SHOULDER : Z := 0x0100.
Definition XINPUT_GAMEPAD_RIGHT_SHOULDER : Z := 0x0200.
Definition XINPUT_GAMEPAD_A : Z := 0x1000.
Definition XINPUT_GAMEPAD_B : Z := 0x2000.
Definition XINPUT_GAMEPAD_X : Z := 0x4000.
Definition XINPUT_GAMEPAD_Y : Z := 0x8000.

(** Modelled from the spec: the virtual keys and event flags of the
    keystroke stream (section 4.6), with the values of the missing header
    xinput.h. *)
Definition VK_PAD_A : Z := 0x5800.
Definition VK_PAD_B : Z := 0x5801.
Definition VK_PAD_X : Z := 0x5802.
Definition VK_PAD_Y : Z := 0x5803.
Definition VK_PAD_RSHOULDER : Z := 0x5804.
Definition VK_PAD_LSHOULDER : Z := 0x5805.
Definition VK_PAD_LTRIGGER : Z := 0x5806.
Definition VK_PAD_RTRIGGER : Z := 0x5807.
Definition VK_PAD_DPAD_UP : Z := 0x5810.
Definition VK_PAD_DPAD_DOWN : Z := 0x5811.
Definition VK_PAD_DPAD_LEFT : Z := 0x5812.
Definition VK_PAD_DPAD_RIGHT : Z := 0x5813.
Definition VK_PAD_START : Z := 0x5814.
Definition VK_PAD_BACK : Z := 0x5815.
Definition VK_PAD_LTHUMB_PRESS : Z := 0x5816.
Definition VK_PAD_RTHUMB_PRESS : Z := 0x5817.
Definition VK_PAD_LTHUMB_UP : Z := 0x5820.
Definition VK_PAD_RTHUMB_UP : Z := 0x5830.
Definition XINPUT_KEYSTROKE_KEYDOWN : Z := 0x0001.
Definition XINPUT_KEYSTROKE_KEYUP : Z := 0x0002.

(** Modelled from the spec: the process-detach notification of its
    section 6, with the value of the missing platform header winnt.h. *)
Definition DLL_PROCESS_DETACH : Z := 0.

(** Modelled from the spec: the field widths of the pad sample (trigger
    bytes are u8, thumb axes are signed 16-bit), as [sizeof] sees the
    BYTE and SHORT fields declared in the missing header xinput.h. *)
Definition sizeof_BYTE : Z := 1.
Definition sizeof_SHORT : Z := 2.

End Headers.
Export Headers.

(** ** Constants of main.c *)

Definition XINPUT_GAMEPAD_GUIDE : Z := 0x0400.
Definition BUFFER_SIZE : nat := 64.

Definition REQUEST_CODE_GET_GAMEPAD : Z := 8.
Definition REQUEST_CODE_GET_GAMEPAD_STATE : Z := 9.
Definition REQUEST_CODE_RELEASE_GAMEPAD : Z := 10.

Definition IDX_BUTTON_A : Z := 0.
Definition IDX_BUTTON_B : Z := 1.
Definition IDX_BUTTON_X : Z := 2.
Definition IDX_BUTTON_Y : Z := 3.
Definition IDX_BUTTON_L1 : Z := 4.
Definition IDX_BUTTON_R1 : Z := 5.
Definition IDX_BUTTON_L2 : Z := 10.
Definition IDX_BUTTON_R2 : Z := 11.
Definition IDX_BUTTON_SELECT : Z := 6.
Definition IDX_BUTTON_START : Z := 7.
Definition IDX_BUTTON_L3 : Z := 8.
Definition IDX_BUTTON_R3 : Z := 9.

(** ** Data model *)

Record XINPUT_GAMEPAD : Set := mkGamepad {
  wButtons : Z;        (* WORD *)
  bLeftTrigger : Z;    (* BYTE *)
  bRightTrigger : Z;   (* BYTE *)
  sThumbLX : Z;        (* SHORT *)
  sThumbLY : Z;        (* SHORT *)
  sThumbRX : Z;        (* SHORT *)
  sThumbRY : Z         (* SHORT *)
}.

Record XINPUT_STATE : Set := mkState {
  dwPacketNumber : Z;  (* DWORD *)
  Gamepad : XINPUT_GAMEPAD
}.

Record XINPUT_VIBRATION : Set := mkVibration {
  wLeftMotorSpeed : Z;
  wRightMotorSpeed : Z
}.

Record XINPUT_CAPABILITIES : Set := mkCaps {
  caps_Type : Z;       (* BYTE *)
  caps_SubType : Z;    (* BYTE *)
  caps_Flags : Z;      (* WORD *)
  caps_Gamepad : XINPUT_GAMEPAD;
  caps_Vibration : XINPUT_VIBRATION
}.

Record XINPUT_CAPABILITIES_EX : Set := mkCapsEx {
  Capabilities : XINPUT_CAPABILITIES;
  VendorId : Z;
  ProductId : Z;
  VersionNumber : Z;
  unk1 : Z;
  unk2 : Z
}.

Record XINPUT_KEYSTROKE : Set := mkKeystroke {
  VirtualKey : Z;      (* WORD *)
  Unicode : Z;         (* WCHAR *)
  Flags : Z;           (* WORD *)
  UserIndex : Z;       (* BYTE *)
  HidCode : Z          (* BYTE *)
}.

(** [struct xinput_controller], without its critical section: every
    function below runs its guarded region as one step. *)
Record xinput_controller : Set := mkController {
  caps : XINPUT_CAPABILITIES;
  state : XINPUT_STATE;
  last_keystroke : XINPUT_GAMEPAD;
  enabled : bool;
  connected : bool;
  id : Z               (* int *)
}.

(** The globals of the translation unit. [init_once] is the state of the
    INIT_ONCE block of [start_read_thread]. *)
Record world : Set := mkWorld {
  controller : xinput_controller;
  thread_running : bool;
  init_once : bool;
  xinput_min_index : Z (* char *)
}.

(** Results of [memset (p, 0, sizeof ( *p))]. *)
Definition zero_gamepad : XINPUT_GAMEPAD := mkGamepad 0 0 0 0 0 0 0.
Definition zero_state : XINPUT_STATE := mkState 0 zero_gamepad.
Definition zero_caps : XINPUT_CAPABILITIES :=
  mkCaps 0 0 0 zero_gamepad (mkVibration 0 0).

(** Static initialisation: [.enabled = FALSE, .connected = FALSE, .id = 0],
    everything else zero, [thread_running = FALSE], [xinput_min_index = 3]. *)
Definition controller0 : xinput_controller :=
  mkController zero_caps zero_state zero_gamepad false false 0.

Definition world0 : world := mkWorld controller0 false false 3.

(** Field updates. *)
Definition set_caps (c : xinput_controller) (x : XINPUT_CAPABILITIES) :=
  mkController x (state c) (last_keystroke c) (enabled c) (connected c) (id c).
Definition set_state (c : xinput_controller) (x : XINPUT_STATE) :=
  mkController (caps c) x (last_keystroke c) (enabled c) (connected c) (id c).
Definition set_last_keystroke (c : xinput_controller) (x : XINPUT_GAMEPAD) :=
  mkController (caps c) (state c) x (enabled c) (connected c) (id c).
Definition set_enabled (c : xinput_controller) (x : bool) :=
  mkController (caps c) (state c) (last_keystroke c) x (connected c) (id c).
Definition set_connected (c : xinput_controller) (x : bool) :=
  mkController (caps c) (state c) (last_keystroke c) (enabled c) x (id c).
Definition set_id (c : xinput_controller) (x : Z) :=
  mkController (caps c) (state c) (last_keystroke c) (enabled c) (connected c) x.

Definition set_controller (w : world) (c : xinput_controller) :=
  mkWorld c (thread_running w) (init_once w) (xinput_min_index w).
Definition set_thread_running (w : world) (b : bool) :=
  mkWorld (controller w) b (init_once w) (xinput_min_index w).
Definition set_init_once (w : world) (b : bool) :=
  mkWorld (controller w) (thread_running w) b (xinput_min_index w).
Definition set_xinput_min_index (w : world) (i : Z) :=
  mkWorld (controller w) (thread_running w) (init_once w) i.

Definition set_wButtons (g : XINPUT_GAMEPAD) (x : Z) :=
  mkGamepad x (bLeftTrigger g) (bRightTrigger g)
            (sThumbLX g) (sThumbLY g) (sThumbRX g) (sThumbRY g).
Definition set_bLeftTrigger (g : XINPUT_GAMEPAD) (x : Z) :=
  mkGamepad (wButtons g) x (bRightTrigger g)
            (sThumbLX g) (sThumbLY g) (sThumbRX g) (sThumbRY g).
Definition set_bRightTrigger (g : XINPUT_GAMEPAD) (x : Z) :=
  mkGamepad (wButtons g) (bLeftTrigger g) x
            (sThumbLX g) (sThumbLY g) (sThumbRX g) (sThumbRY g).
Definition set_sThumbL (g : XINPUT_GAMEPAD) (x y : Z) :=
  mkGamepad (wButtons g) (bLeftTrigger g) (bRightTrigger g)
            x y (sThumbRX g) (sThumbRY g).
Definition set_sThumbR (g : XINPUT_GAMEPAD) (x y : Z) :=
  mkGamepad (wButtons g) (bLeftTrigger g) (bRightTrigger g)
            (sThumbLX g) (sThumbLY g) x y.

(** ** The datagram buffer *)

Definition byte_at (buffer : list byte) (off : nat) : Z :=
  Z.of_N (Byte.to_N (nth off buffer x00)).

(** [buffer[off]], a [char]. *)
Definition char_at (buffer : list byte) (off : nat) : Z :=
  to_char (byte_at buffer off).

(** [*(short * )(buffer + off)], little-endian. *)
Definition short_at (buffer : list byte) (off : nat) : Z :=
  to_SHORT (byte_at buffer off + 2 ^ 8 * byte_at buffer (off + 1)).

(** [*(int * )(buffer + off)], little-endian. *)
Definition int_at (buffer : list byte) (off : nat) : Z :=
  to_int (byte_at buffer off
          + 2 ^ 8 * byte_at buffer (off + 1)
          + 2 ^ 16 * byte_at buffer (off + 2)
          + 2 ^ 24 * byte_at buffer (off + 3)).

(** ** Controller state store *)

Definition controller_check_caps (c : xinput_controller) : xinput_controller :=
  let range (size : Z) : Z := to_UINT (to_UINT (Z.shiftl 1 (size + 1)) - 1) in
  set_caps c
    (mkCaps XINPUT_DEVTYPE_GAMEPAD XINPUT_DEVSUBTYPE_GAMEPAD 0
       (mkGamepad (to_WORD 0xffff)
                  (to_BYTE (range sizeof_BYTE))
                  (to_BYTE (range sizeof_BYTE))
                  (to_SHORT (range sizeof_SHORT))
                  (to_SHORT (range sizeof_SHORT))
                  (to_SHORT (range sizeof_SHORT))
                  (to_SHORT (range sizeof_SHORT)))
       (mkVibration 0 0)).

Definition controller_destroy (w : world) : world :=
  let w := set_thread_running w false in
  let w := set_xinput_min_index w 3 in
  set_controller w (set_connected (set_enabled (controller w) false) false).

Definition controller_init (c : xinput_controller) : xinput_controller :=
  let c := set_state c zero_state in
  let c := controller_check_caps c in
  let c := set_connected c true in
  set_enabled c true.

(** The [switch (i)] inside the button loop of [controller_update_state]. *)
Definition button_case (i : Z) : Z :=
  if i =? IDX_BUTTON_A then XINPUT_GAMEPAD_A
  else if i =? IDX_BUTTON_B then XINPUT_GAMEPAD_B
  else if i =? IDX_BUTTON_X then XINPUT_GAMEPAD_X
  else if i =? IDX_BUTTON_Y then XINPUT_GAMEPAD_Y
  else if i =? IDX_BUTTON_L1 then XINPUT_GAMEPAD_LEFT_SHOULDER
  else if i =? IDX_BUTTON_R1 then XINPUT_GAMEPAD_RIGHT_SHOULDER
  else if i =? IDX_BUTTON_SELECT then XINPUT_GAMEPAD_BACK
  else if i =? IDX_BUTTON_START then XINPUT_GAMEPAD_START
  else if i =? IDX_BUTTON_L3 then XINPUT_GAMEPAD_LEFT_THUMB
  else if i =? IDX_BUTTON_R3 then XINPUT_GAMEPAD_RIGHT_THUMB
  else 0.

(** [for (i = 0; i < 10; i++) if (buttons & (1 << i)) wButtons |= ...]. *)
Definition decode_buttons (buttons : Z) (w0 : Z) : Z :=
  fold_left
    (fun w i =>
       if truthy (Z.land buttons (Z.shiftl 1 i))
       then to_WORD (Z.lor w (button_case i))
       else w)
    (map Z.of_nat (seq 0 10)) w0.

(** The [switch (dpad)]. *)
Definition decode_dpad (dpad : Z) (w : Z) : Z :=
  if dpad =? 0 then to_WORD (Z.lor w XINPUT_GAMEPAD_DPAD_UP)
  else if dpad =? 1 then
    to_WORD (Z.lor w (Z.lor XINPUT_GAMEPAD_DPAD_UP XINPUT_GAMEPAD_DPAD_RIGHT))
  else if dpad =? 2 then to_WORD (Z.lor w XINPUT_GAMEPAD_DPAD_RIGHT)
  else if dpad =? 3 then
    to_WORD (Z.lor w (Z.lor XINPUT_GAMEPAD_DPAD_RIGHT XINPUT_GAMEPAD_DPAD_DOWN))
  else if dpad =? 4 then to_WORD (Z.lor w XINPUT_GAMEPAD_DPAD_DOWN)
  else if dpad =? 5 then
    to_WORD (Z.lor w (Z.lor XINPUT_GAMEPAD_DPAD_DOWN XINPUT_GAMEPAD_DPAD_LEFT))
  else if dpad =? 6 then to_WORD (Z.lor w XINPUT_GAMEPAD_DPAD_LEFT)
  else if dpad =? 7 then
    to_WORD (Z.lor w (Z.lor XINPUT_GAMEPAD_DPAD_LEFT XINPUT_GAMEPAD_DPAD_UP))
  else w.

Definition controller_update_state (c : xinput_controller) (buffer : list byte)
  : xinput_controller :=
  let gamepad_id := int_at buffer 2 in
  if negb (char_at buffer 1 =? 1) || negb (gamepad_id =? id c) then
    set_state (set_connected c false) zero_state
  else
    let buttons := short_at buffer 6 in
    let dpad := char_at buffer 8 in
    let thumb_lx := short_at buffer 9 in
    let thumb_ly := short_at buffer 11 in
    let thumb_rx := short_at buffer 13 in
    let thumb_ry := short_at buffer 15 in
    let w := decode_buttons buttons 0 in
    let lt := to_BYTE (if truthy (Z.land buttons (Z.shiftl 1 10)) then 255 else 0) in
    let rt := to_BYTE (if truthy (Z.land buttons (Z.shiftl 1 11)) then 255 else 0) in
    let w := decode_dpad dpad w in
    set_state c
      (mkState (to_DWORD (dwPacketNumber (state c) + 1))
         (mkGamepad w lt rt
            (to_SHORT thumb_lx) (to_SHORT (- thumb_ly))
            (to_SHORT thumb_rx) (to_SHORT (- thumb_ry)))).

(** ** Reader worker

    One iteration of the [while (thread_running)] loop of
    [controller_read_thread_proc] in which [recvfrom] delivered a datagram
    into [buffer]. Iterations without a datagram touch no modelled state. *)
Definition controller_read_frame (c : xinput_controller) (buffer : list byte)
  : xinput_controller :=
  if char_at buffer 0 =? REQUEST_CODE_GET_GAMEPAD then
    let gamepad_id := int_at buffer 1 in
    if gamepad_id >? 0 then
      let c := set_id c gamepad_id in
      if negb (connected c) then controller_init c else c
    else if gamepad_id =? 0 then
      set_connected (set_id c 0) false
    else c
  else if (char_at buffer 0 =? REQUEST_CODE_GET_GAMEPAD_STATE) && connected c then
    controller_update_state c buffer
  else c.

Definition controller_read_thread_iter (w : world) (buffer : list byte) : world :=
  if thread_running w
  then set_controller w (controller_read_frame (controller w) buffer)
  else w.

(** [start_read_thread]: the one-shot gate runs [start_read_thread_once],
    which sets [thread_running] and creates the worker. The bounded wait
    for the worker that ends [start_read_thread_once] is not in this
    function: what the worker does while the caller is blocked there is
    applied by [start_wait]. *)
Definition start_read_thread (w : world) : world :=
  if init_once w then w
  else set_init_once (set_thread_running w true) true.

(** The globals as [start_read_thread] leaves them to its caller: the gate
    has fired and, when this call fired it, the worker has handled the
    datagrams [wait] while the caller was blocked in
    [WaitForSingleObject (start_event, 2000)]. A call that finds the gate
    fired does not block, and the body of the entry point runs on the
    globals as they are. *)
Definition start_wait (w : world) (wait : list (list byte)) : world :=
  fold_left controller_read_thread_iter wait (start_read_thread w).

Definition controller_is_connected (c : xinput_controller) (index : Z) : bool :=
  (index =? 0) && connected c.

(** ** Public entry points

    Each entry point takes the globals and returns its return code, the
    globals afterwards and, where it has one, the object behind its out
    pointer. A pointer the code tests against NULL is an [option]. *)

Definition XInputEnable (w : world) (enable : bool) : world :=
  let w := start_read_thread w in
  if negb (connected (controller w)) then w
  else set_controller w (set_enabled (controller w) enable).

Definition XInputSetState (w : world) (index : Z) (vibration : XINPUT_VIBRATION)
  : Z * world :=
  let w := start_read_thread w in
  if index >=? XUSER_MAX_COUNT then (ERROR_BAD_ARGUMENTS, w)
  else if negb (controller_is_connected (controller w) index)
  then (ERROR_DEVICE_NOT_CONNECTED, w)
  else (ERROR_SUCCESS, w).

Definition xinput_get_state (w : world) (index : Z) (state_ : option XINPUT_STATE)
  : Z * world * option XINPUT_STATE :=
  match state_ with
  | None => (ERROR_BAD_ARGUMENTS, w, state_)
  | Some _ =>
    let w := start_read_thread w in
    if index >=? XUSER_MAX_COUNT then (ERROR_BAD_ARGUMENTS, w, state_)
    else
      let w := if index <? to_DWORD (xinput_min_index w)
               then set_xinput_min_index w (to_char index) else w in
      let index := if index =? to_DWORD (xinput_min_index w) then 0 else index in
      if negb (controller_is_connected (controller w) index)
      then (ERROR_DEVICE_NOT_CONNECTED, w, state_)
      else (ERROR_SUCCESS, w, Some (state (controller w)))
  end.

Definition strip_guide (s : XINPUT_STATE) : XINPUT_STATE :=
  mkState (dwPacketNumber s)
    (set_wButtons (Gamepad s)
       (to_WORD (Z.land (wButtons (Gamepad s)) (Z.lnot XINPUT_GAMEPAD_GUIDE)))).

Definition XInputGetState (w : world) (index : Z) (state_ : option XINPUT_STATE)
  : Z * world * option XINPUT_STATE :=
  let '(ret, w, state_) := xinput_get_state w index state_ in
  if negb (ret =? ERROR_SUCCESS) then (ret, w, state_)
  else (ERROR_SUCCESS, w, option_map strip_guide state_).

Definition XInputGetStateEx (w : world) (index : Z) (state_ : option XINPUT_STATE)
  : Z * world * option XINPUT_STATE :=
  xinput_get_state w index state_.

(** ** Keystroke synthesizer *)

Definition JS_STATE_OFF : Z := 0.
Definition JS_STATE_LOW : Z := 1.
Definition JS_STATE_HIGH : Z := 2.

Definition joystick_state (value : Z) : Z :=
  if value >? 20000 then JS_STATE_HIGH
  else if value <? -20000 then JS_STATE_LOW
  else JS_STATE_OFF.

Definition js_vk_offs (x y : Z) : Z :=
  if y =? JS_STATE_OFF then
    if x =? JS_STATE_LOW then 3 (* LEFT *)
    else 2 (* RIGHT *)
  else if y =? JS_STATE_HIGH then
    if x =? JS_STATE_OFF then 0 (* UP *)
    else if x =? JS_STATE_LOW then 4 (* UPLEFT *)
    else 5 (* UPRIGHT *)
  else
    if x =? JS_STATE_OFF then 1 (* DOWN *)
    else if x =? JS_STATE_LOW then 7 (* DOWNLEFT *)
    else 6 (* DOWNRIGHT *).

(** The virtual key [check_joystick_keystroke] computes for one stick
    position ([cur_vk], [last_vk]): 0 when both axes are OFF. *)
Definition joystick_vk (x y base_vk : Z) : Z :=
  let x_st := joystick_state x in
  let y_st := joystick_state y in
  if truthy x_st || truthy y_st
  then to_int (base_vk + js_vk_offs x_st y_st)
  else 0.

Definition keystroke_event (vk flags : Z) : XINPUT_KEYSTROKE :=
  mkKeystroke (to_WORD vk) 0 (to_WORD flags) 0 0.

(** Returns the code, the keystroke behind the out pointer, and the
    remembered axes [( *last_x, *last_y)]. *)
Definition check_joystick_keystroke (keystroke : XINPUT_KEYSTROKE)
    (cur_x cur_y last_x last_y base_vk : Z)
  : Z * XINPUT_KEYSTROKE * (Z * Z) :=
  let cur_vk := joystick_vk cur_x cur_y base_vk in
  let last_vk := joystick_vk last_x last_y base_vk in
  if negb (cur_vk =? last_vk) then
    if truthy last_vk then
      (ERROR_SUCCESS, keystroke_event last_vk XINPUT_KEYSTROKE_KEYUP, (0, 0))
    else
      (ERROR_SUCCESS, keystroke_event cur_vk XINPUT_KEYSTROKE_KEYDOWN,
       (cur_x, cur_y))
  else (ERROR_EMPTY, keystroke, (cur_x, cur_y)).

Definition trigger_is_on (value : Z) : bool := value >? 30.

(** The static table [buttons[]] of [check_for_keystroke]: (mask, vk). *)
Definition buttons : list (Z * Z) :=
  [ (XINPUT_GAMEPAD_DPAD_UP, VK_PAD_DPAD_UP);
    (XINPUT_GAMEPAD_DPAD_DOWN, VK_PAD_DPAD_DOWN);
    (XINPUT_GAMEPAD_DPAD_LEFT, VK_PAD_DPAD_LEFT);
    (XINPUT_GAMEPAD_DPAD_RIGHT, VK_PAD_DPAD_RIGHT);
    (XINPUT_GAMEPAD_START, VK_PAD_START);
    (XINPUT_GAMEPAD_BACK, VK_PAD_BACK);
    (XINPUT_GAMEPAD_LEFT_THUMB, VK_PAD_LTHUMB_PRESS);
    (XINPUT_GAMEPAD_RIGHT_THUMB, VK_PAD_RTHUMB_PRESS);
    (XINPUT_GAMEPAD_LEFT_SHOULDER, VK_PAD_LSHOULDER);
    (XINPUT_GAMEPAD_RIGHT_SHOULDER, VK_PAD_RSHOULDER);
    (XINPUT_GAMEPAD_A, VK_PAD_A);
    (XINPUT_GAMEPAD_B, VK_PAD_B);
    (XINPUT_GAMEPAD_X, VK_PAD_X);
    (XINPUT_GAMEPAD_Y, VK_PAD_Y) ].

(** Whether the button under [mask] differs between the two button words:
    [(cur & mask) ^ (last & mask)]. *)
Definition button_changed (cur_w last_w mask : Z) : bool :=
  truthy (Z.lxor (Z.land cur_w mask) (Z.land last_w mask)).

(** The button loop of [check_for_keystroke] over the entries [tbl] still
    to visit: [Some] at the [goto done], [None] when the loop runs out. *)
Fixpoint check_buttons (tbl : list (Z * Z)) (c : xinput_controller)
  : option (xinput_controller * XINPUT_KEYSTROKE) :=
  match tbl with
  | [] => None
  | (mask, vk) :: tbl' =>
    let cur := Gamepad (state c) in
    let last := last_keystroke c in
    if button_changed (wButtons cur) (wButtons last) mask then
      if truthy (Z.land (wButtons cur) mask) then
        Some (set_last_keystroke c
                (set_wButtons last (to_WORD (Z.lor (wButtons last) mask))),
              keystroke_event vk XINPUT_KEYSTROKE_KEYDOWN)
      else
        Some (set_last_keystroke c
                (set_wButtons last
                   (to_WORD (Z.land (wButtons last) (Z.lnot mask)))),
              keystroke_event vk XINPUT_KEYSTROKE_KEYUP)
    else check_buttons tbl' c
  end.

(** The part of [check_for_keystroke] under its "joysticks" heading: the
    left stick, then, if that gave no event, the right stick. *)
Definition check_joysticks (c : xinput_controller) (keystroke : XINPUT_KEYSTROKE)
  : Z * xinput_controller * XINPUT_KEYSTROKE :=
  let cur := Gamepad (state c) in
  let last := last_keystroke c in
  let '(ret, k, (lx, ly)) :=
    check_joystick_keystroke keystroke (sThumbLX cur) (sThumbLY cur)
      (sThumbLX last) (sThumbLY last) VK_PAD_LTHUMB_UP in
  let last := set_sThumbL last lx ly in
  if ret =? ERROR_SUCCESS then (ret, set_last_keystroke c last, k)
  else
    let '(ret, k, (rx, ry)) :=
      check_joystick_keystroke k (sThumbRX cur) (sThumbRY cur)
        (sThumbRX last) (sThumbRY last) VK_PAD_RTHUMB_UP in
    (ret, set_last_keystroke c (set_sThumbR last rx ry), k).

Definition check_for_keystroke (c : xinput_controller) (keystroke : XINPUT_KEYSTROKE)
  : Z * xinput_controller * XINPUT_KEYSTROKE :=
  let cur := Gamepad (state c) in
  match check_buttons buttons c with
  | Some (c', k) => (ERROR_SUCCESS, c', k)
  | None =>
    let last := last_keystroke c in
    if xorb (trigger_is_on (bLeftTrigger cur)) (trigger_is_on (bLeftTrigger last))
    then
      (ERROR_SUCCESS,
       set_last_keystroke c (set_bLeftTrigger last (bLeftTrigger cur)),
       keystroke_event VK_PAD_LTRIGGER
         (if trigger_is_on (bLeftTrigger cur)
          then XINPUT_KEYSTROKE_KEYDOWN else XINPUT_KEYSTROKE_KEYUP))
    else if xorb (trigger_is_on (bRightTrigger cur))
                 (trigger_is_on (bRightTrigger last))
    then
      (ERROR_SUCCESS,
       set_last_keystroke c (set_bRightTrigger last (bRightTrigger cur)),
       keystroke_event VK_PAD_RTRIGGER
         (if trigger_is_on (bRightTrigger cur)
          then XINPUT_KEYSTROKE_KEYDOWN else XINPUT_KEYSTROKE_KEYUP))
    else check_joysticks c keystroke
  end.

Definition XInputGetKeystroke (w : world) (index reserved : Z)
    (keystroke : XINPUT_KEYSTROKE)
  : Z * world * XINPUT_KEYSTROKE :=
  if (index >=? XUSER_MAX_COUNT) && negb (index =? XUSER_INDEX_ANY)
  then (ERROR_BAD_ARGUMENTS, w, keystroke)
  else if negb (controller_is_connected (controller w)
                  (if negb (index =? XUSER_INDEX_ANY) then index else 0))
  then (ERROR_DEVICE_NOT_CONNECTED, w, keystroke)
  else
    let '(ret, c, k) := check_for_keystroke (controller w) keystroke in
    (ret, set_controller w c, k).

(** ** Capabilities and the unsupported queries *)

Definition XInputGetCapabilitiesEx (w : world) (unk index flags : Z)
    (caps_ : XINPUT_CAPABILITIES_EX)
  : Z * world * XINPUT_CAPABILITIES_EX :=
  let w := start_read_thread w in
  if index >=? XUSER_MAX_COUNT then (ERROR_BAD_ARGUMENTS, w, caps_)
  else if negb (controller_is_connected (controller w) index)
  then (ERROR_DEVICE_NOT_CONNECTED, w, caps_)
  else if truthy (Z.land flags XINPUT_FLAG_GAMEPAD)
          && negb (caps_SubType (caps (controller w)) =? XINPUT_DEVSUBTYPE_GAMEPAD)
  then (ERROR_DEVICE_NOT_CONNECTED, w, caps_)
  else
    (ERROR_SUCCESS, w,
     mkCapsEx (caps (controller w)) (to_WORD 0x045E) (to_WORD 0x02A1)
              (VersionNumber caps_) (unk1 caps_) (unk2 caps_)).

Definition XInputGetCapabilities (w : world) (index flags : Z)
    (capabilities : XINPUT_CAPABILITIES) (caps_ex : XINPUT_CAPABILITIES_EX)
  : Z * world * XINPUT_CAPABILITIES :=
  let '(ret, w, caps_ex) := XInputGetCapabilitiesEx w 1 index flags caps_ex in
  if negb (truthy ret) then (ret, w, Capabilities caps_ex)
  else (ret, w, capabilities).

Definition XInputGetDSoundAudioDeviceGuids (w : world) (index : Z) : Z :=
  if index >=? XUSER_MAX_COUNT then ERROR_BAD_ARGUMENTS
  else if negb (controller_is_connected (controller w) index)
  then ERROR_DEVICE_NOT_CONNECTED
  else ERROR_NOT_SUPPORTED.

Definition XInputGetBatteryInformation (w : world) (index : Z) : Z :=
  if index >=? XUSER_MAX_COUNT then ERROR_BAD_ARGUMENTS
  else if negb (controller_is_connected (controller w) index)
  then ERROR_DEVICE_NOT_CONNECTED
  else ERROR_NOT_SUPPORTED.

(** [DllMain]: only DLL_PROCESS_DETACH with a null [reserved] acts. *)
Definition DllMain (w : world) (reason : Z) (reserved : bool) : world :=
  if reason =? DLL_PROCESS_DETACH then
    if reserved then w else controller_destroy w
  else w.

(** ** Runs of the process

    What can happen to the globals: the worker handles a datagram, or some
    thread calls an entry point, or the library is detached. The guard
    region serializes these, so a run is a list of events. An entry-point
    event is a call that does not wait for the worker: the start gate has
    fired before, or the call fires it and its wait passes without a
    datagram handled. A call that fires the gate while the worker handles
    datagrams is the entry point applied to [start_wait] of the globals. *)

Inductive event : Set :=
| Recv (buffer : list byte)
| Detach
| Enable (enable : bool)
| SetState (index : Z) (vibration : XINPUT_VIBRATION)
| GetState (index : Z) (state_ : option XINPUT_STATE)
| GetStateEx (index : Z) (state_ : option XINPUT_STATE)
| GetKeystroke (index reserved : Z) (keystroke : XINPUT_KEYSTROKE)
| GetCapabilitiesEx (unk index flags : Z) (caps_ : XINPUT_CAPABILITIES_EX).

(** Indices and flags arrive as DWORD arguments. *)
Definition step (w : world) (e : event) : world :=
  match e with
  | Recv buffer => controller_read_thread_iter w buffer
  | Detach => DllMain w DLL_PROCESS_DETACH false
  | Enable enable => XInputEnable w enable
  | SetState index vibration =>
      snd (XInputSetState w (to_DWORD index) vibration)
  | GetState index state_ =>
      snd (fst (XInputGetState w (to_DWORD index) state_))
  | GetStateEx index state_ =>
      snd (fst (XInputGetStateEx w (to_DWORD index) state_))
  | GetKeystroke index reserved keystroke =>
      snd (fst (XInputGetKeystroke w (to_DWORD index) (to_DWORD reserved)
                  keystroke))
  | GetCapabilitiesEx unk index flags caps_ =>
      snd (fst (XInputGetCapabilitiesEx w (to_DWORD unk) (to_DWORD index)
                  (to_DWORD flags) caps_))
  end.

Definition run (w : world) (evs : list event) : world := fold_left step evs w.

Inductive reachable : world -> Prop :=
| reach_init : reachable world0
| reach_step w e : reachable w -> reachable (step w e).

(** ** The provider's side of the wire *)

Module Provider.

(** The byte with unsigned value [z mod 256]. *)
Definition byte_of_Z (z : Z) : byte :=
  match Byte.of_N (Z.to_N (z mod 256)) with
  | Some b => b
  | None => x00
  end.

(** The [n] low bytes of [z], least significant first. *)
Fixpoint le_bytes (n : nat) (z : Z) : list byte :=
  match n with
  | O => []
  | S n' => byte_of_Z z :: le_bytes n' (z / 256)
  end.

(** A payload padded with zero bytes to the fixed frame size. *)
Definition datagram (payload : list byte) : list byte :=
  payload ++ repeat x00 (BUFFER_SIZE - length payload).

(** Modelled from the spec: the inbound GET_GAMEPAD reply of section
    4.1, [[8][int32 gamepad_id]], which the provider (not part of the
    sources) sends. *)
Definition get_gamepad_reply (gamepad_id : Z) : list byte :=
  datagram (byte_of_Z REQUEST_CODE_GET_GAMEPAD :: le_bytes 4 gamepad_id).

(** Modelled from the spec: the inbound GAMEPAD_STATE frame of section
    4.1, [[9][u8 status][int32 gamepad_id][u16 buttons][u8 dpad]
    [s16 lx][s16 ly][s16 rx][s16 ry]], which the provider (not part of
    the sources) sends. *)
Definition gamepad_state (status gamepad_id btns dpad lx ly rx ry : Z)
  : list byte :=
  datagram (byte_of_Z REQUEST_CODE_GET_GAMEPAD_STATE :: byte_of_Z status
            :: le_bytes 4 gamepad_id ++ le_bytes 2 btns ++ byte_of_Z dpad
            :: le_bytes 2 lx ++ le_bytes 2 ly ++ le_bytes 2 rx
            ++ le_bytes 2 ry).

End Provider.

(** ** Vocabulary of the properties *)

(** The capability record [controller_check_caps] stores. *)
Definition static_caps : XINPUT_CAPABILITIES :=
  Eval cbv in caps (controller_check_caps controller0).

(** A GET_GAMEPAD reply announcing a controller. *)
Definition is_handshake (buffer : list byte) : bool :=
  (char_at buffer 0 =? REQUEST_CODE_GET_GAMEPAD) && (int_at buffer 1 >? 0).

(** What holds of the globals in every reachable state. *)
Record invariant (w : world) : Prop := mkInvariant {
  inv_min_index : 0 <= xinput_min_index w <= 3;
  inv_caps : caps (controller w) = zero_caps \/ caps (controller w) = static_caps;
  inv_connected : connected (controller w) = true ->
                  caps (controller w) = static_caps
}.

(** The index a get_state event hands to the remapping step, if it gets
    that far (non-null out pointer, index below XUSER_MAX_COUNT). *)
Definition queried_index (e : event) : option Z :=
  match e with
  | GetState index (Some _) | GetStateEx index (Some _) =>
      if to_DWORD index >=? XUSER_MAX_COUNT then None else Some (to_DWORD index)
  | _ => None
  end.

(** The indices the get_state events of a run handed to the remapping
    step, in order. *)
Fixpoint queried (evs : list event) : list Z :=
  match evs with
  | [] => []
  | e :: evs' =>
    match queried_index e with
    | Some i => i :: queried evs'
    | None => queried evs'
    end
  end.

(** The event that resets [xinput_min_index]. *)
Definition is_detach (e : event) : bool :=
  match e with Detach => true | _ => false end.

(** The smallest of [m] and the indices [l]. *)
Definition min_index_of (l : list Z) (m : Z) : Z := fold_left Z.min l m.

(** Events that neither announce a controller nor detach the library. *)
Definition quiet (e : event) : bool :=
  match e with
  | Recv buffer => negb (is_handshake buffer)
  | Detach => false
  | _ => true
  end.

(** A GAMEPAD_STATE frame the update routine accepts for controller [c]. *)
Definition accepted (c : xinput_controller) (buffer : list byte) : Prop :=
  char_at buffer 0 = REQUEST_CODE_GET_GAMEPAD_STATE /\
  char_at buffer 1 = 1 /\ int_at buffer 2 = id c.

(** The pad sample an accepted frame decodes to. *)
Definition decoded_pad (buffer : list byte) : XINPUT_GAMEPAD :=
  let btns := short_at buffer 6 in
  mkGamepad
    (decode_dpad (char_at buffer 8) (decode_buttons btns 0))
    (to_BYTE (if truthy (Z.land btns (Z.shiftl 1 10)) then 255 else 0))
    (to_BYTE (if truthy (Z.land btns (Z.shiftl 1 11)) then 255 else 0))
    (to_SHORT (short_at buffer 9)) (to_SHORT (- short_at buffer 11))
    (to_SHORT (short_at buffer 13)) (to_SHORT (- short_at buffer 15)).

(** The controller after the worker handled the first [k] of [frames]. *)
Definition after_frames (c : xinput_controller) (frames : list (list byte))
    (k : nat) : xinput_controller :=
  fold_left controller_read_frame (firstn k frames) c.

(** [controller.state.dwPacketNumber]. *)
Definition packet_number (c : xinput_controller) : Z :=
  dwPacketNumber (state c).

(** The two sticks [check_for_keystroke] examines, in its order. *)
Inductive stick : Set := LeftStick | RightStick.

(** The raw axes [(x, y)] of a stick in a pad sample. *)
Definition stick_axes (s : stick) (g : XINPUT_GAMEPAD) : Z * Z :=
  match s with
  | LeftStick => (sThumbLX g, sThumbLY g)
  | RightStick => (sThumbRX g, sThumbRY g)
  end.

(** The [base_vk] argument [check_for_keystroke] passes for each stick. *)
Definition stick_base_vk (s : stick) : Z :=
  match s with
  | LeftStick => VK_PAD_LTHUMB_UP
  | RightStick => VK_PAD_RTHUMB_UP
  end.

(** The quantized position of a stick; [(OFF, OFF)] is no direction. *)
Definition direction (xy : Z * Z) : Z * Z :=
  (joystick_state (fst xy), joystick_state (snd xy)).

(** Both axes OFF. *)
Definition no_direction : Z * Z := (JS_STATE_OFF, JS_STATE_OFF).

(** The virtual key of a direction of stick [s]. *)
Definition direction_vk (s : stick) (d : Z * Z) : Z :=
  stick_base_vk s + js_vk_offs (fst d) (snd d).

(** No button of the table differs between the current and the
    last-delivered pad. *)
Definition buttons_in_sync (c : xinput_controller) : Prop :=
  Forall (fun e => button_changed (wButtons (Gamepad (state c)))
                     (wButtons (last_keystroke c)) (fst e) = false) buttons.

(** Neither trigger's on-state differs between the two pads. *)
Definition triggers_in_sync (c : xinput_controller) : Prop :=
  trigger_is_on (bLeftTrigger (Gamepad (state c))) =
  trigger_is_on (bLeftTrigger (last_keystroke c)) /\
  trigger_is_on (bRightTrigger (Gamepad (state c))) =
  trigger_is_on (bRightTrigger (last_keystroke c)).

(** The stick examined before [s], if any, shows no change of direction. *)
Definition earlier_stick_in_sync (s : stick) (c : xinput_controller) : Prop :=
  match s with
  | LeftStick => True
  | RightStick =>
      direction (stick_axes LeftStick (last_keystroke c)) =
      direction (stick_axes LeftStick (Gamepad (state c)))
  end.

(** The cases of the [switch (i)] of [controller_update_state]: wire bit
    and the flag it sets. *)
Definition button_wiring : list (Z * Z) :=
  [ (IDX_BUTTON_A, XINPUT_GAMEPAD_A); (IDX_BUTTON_B, XINPUT_GAMEPAD_B);
    (IDX_BUTTON_X, XINPUT_GAMEPAD_X); (IDX_BUTTON_Y, XINPUT_GAMEPAD_Y);
    (IDX_BUTTON_L1, XINPUT_GAMEPAD_LEFT_SHOULDER);
    (IDX_BUTTON_R1, XINPUT_GAMEPAD_RIGHT_SHOULDER);
    (IDX_BUTTON_SELECT, XINPUT_GAMEPAD_BACK);
    (IDX_BUTTON_START, XINPUT_GAMEPAD_START);
    (IDX_BUTTON_L3, XINPUT_GAMEPAD_LEFT_THUMB);
    (IDX_BUTTON_R3, XINPUT_GAMEPAD_RIGHT_THUMB) ].

(** [flag] if [b] holds, no bit otherwise. *)
Definition pick (b : bool) (flag : Z) : Z := if b then flag else 0.

(** The four d-pad flags together. *)
Definition DPAD_MASK : Z :=
  Z.lor (Z.lor XINPUT_GAMEPAD_DPAD_UP XINPUT_GAMEPAD_DPAD_DOWN)
        (Z.lor XINPUT_GAMEPAD_DPAD_LEFT XINPUT_GAMEPAD_DPAD_RIGHT).

(** A pad sample as the worker can leave it: every field within its C
    type, the GUIDE bit clear, each trigger fully released or fully
    pressed. *)
Definition pad_wellformed (s : XINPUT_STATE) : Prop :=
  let g := Gamepad s in
  0 <= dwPacketNumber s < 2 ^ 32 /\
  0 <= wButtons g < 2 ^ 16 /\ Z.land (wButtons g) XINPUT_GAMEPAD_GUIDE = 0 /\
  (bLeftTrigger g = 0 \/ bLeftTrigger g = 255) /\
  (bRightTrigger g = 0 \/ bRightTrigger g = 255) /\
  -32768 <= sThumbLX g <= 32767 /\ -32768 <= sThumbLY g <= 32767 /\
  -32768 <= sThumbRX g <= 32767 /\ -32768 <= sThumbRY g <= 32767.

(** An event that is the worker receiving a datagram. *)
Definition is_recv (e : event) : bool :=
  match e with Recv _ => true | _ => false end.

(** An event that is a call of XInputGetKeystroke. *)
Definition is_get_keystroke (e : event) : bool :=
  match e with GetKeystroke _ _ _ => true | _ => false end.

(** The virtual key [check_joystick_keystroke] computes for stick [s] of a
    pad sample (0 when the stick is centred). *)
Definition stick_vk (s : stick) (g : XINPUT_GAMEPAD) : Z :=
  joystick_vk (fst (stick_axes s g)) (snd (stick_axes s g)) (stick_base_vk s).

(** Nothing the synthesizer examines differs between the current and the
    last-delivered pad. *)
Definition in_sync (c : xinput_controller) : Prop :=
  buttons_in_sync c /\ triggers_in_sync c /\
  stick_vk LeftStick (Gamepad (state c)) = stick_vk LeftStick (last_keystroke c) /\
  stick_vk RightStick (Gamepad (state c)) = stick_vk RightStick (last_keystroke c).

(** The virtual keys the synthesizer can report. *)
Definition keystroke_keys : list Z :=
  map snd buttons ++ [VK_PAD_LTRIGGER; VK_PAD_RTRIGGER]
  ++ map (fun o => VK_PAD_LTHUMB_UP + Z.of_nat o) (seq 0 8)
  ++ map (fun o => VK_PAD_RTHUMB_UP + Z.of_nat o) (seq 0 8).

(** A keystroke as the synthesizer reports it. *)
Definition reportable (k : XINPUT_KEYSTROKE) : Prop :=
  Unicode k = 0 /\ UserIndex k = 0 /\ HidCode k = 0 /\
  (Flags k = XINPUT_KEYSTROKE_KEYDOWN \/ Flags k = XINPUT_KEYSTROKE_KEYUP) /\
  In (VirtualKey k) keystroke_keys.

(** How many entries of a button table differ between two button words. *)
Definition changed_count (cur_w last_w : Z) (tbl : list (Z * Z)) : nat :=
  length (filter (fun e => button_changed cur_w last_w (fst e)) tbl).

(** Events a trigger still owes: one if its on-state differs. *)
Definition trigger_pending (cur last : Z) : nat :=
  if xorb (trigger_is_on cur) (trigger_is_on last) then 1%nat else 0%nat.

(** Events a stick still owes, given its current and remembered virtual
    keys: a KEYUP of the old key if there is one, then a KEYDOWN of the
    new key if there is one. *)
Definition stick_cost (cur_vk last_vk : Z) : nat :=
  if cur_vk =? last_vk then 0%nat
  else if truthy last_vk then (if truthy cur_vk then 2%nat else 1%nat)
  else 1%nat.

(** The number of keystrokes the synthesizer still owes for the current
    pad sample. *)
Definition pending (c : xinput_controller) : nat :=
  let cur := Gamepad (state c) in
  let last := last_keystroke c in
  (changed_count (wButtons cur) (wButtons last) buttons
   + trigger_pending (bLeftTrigger cur) (bLeftTrigger last)
   + trigger_pending (bRightTrigger cur) (bRightTrigger last)
   + stick_cost (stick_vk LeftStick cur) (stick_vk LeftStick last)
   + stick_cost (stick_vk RightStick cur) (stick_vk RightStick last))%nat.

(** The return codes of [n] consecutive polls of the synthesizer. *)
Fixpoint poll_codes (n : nat) (c : xinput_controller) (k : XINPUT_KEYSTROKE)
  : list Z :=
  match n with
  | O => []
  | S n' =>
    let '(ret, c', k') := check_for_keystroke c k in
    ret :: poll_codes n' c' k'
  end.

(** ** Elementary facts *)

Lemma to_DWORD_small z : 0 <= z < 2 ^ 32 -> to_DWORD z = z.
Proof. intros H. unfold to_DWORD, to_unsigned. now apply Z.mod_small. Qed.

Lemma to_char_small z : 0 <= z < 2 ^ 7 -> to_char z = z.
Proof.
  intros H. unfold to_char, to_signed.
  rewrite Z.mod_small by (change (2 ^ 8) with 256; change (2 ^ 7) with 128 in H; lia).
  destruct (Z.ltb_spec z (2 ^ (8 - 1))) as [_ | Hge]; [reflexivity|].
  change (2 ^ (8 - 1)) with (2 ^ 7) in Hge. lia.
Qed.

Lemma controller_set_controller w c : controller (set_controller w c) = c.
Proof. reflexivity. Qed.

Lemma start_read_thread_controller w :
  controller (start_read_thread w) = controller w.
Proof. unfold start_read_thread. now destruct (init_once w). Qed.

Lemma start_read_thread_min_index w :
  xinput_min_index (start_read_thread w) = xinput_min_index w.
Proof. unfold start_read_thread. now destruct (init_once w). Qed.

Lemma start_read_thread_idem w :
  start_read_thread (start_read_thread w) = start_read_thread w.
Proof.
  unfold start_read_thread.
  destruct (init_once w) eqn:E; simpl; rewrite ?E; reflexivity.
Qed.

Lemma start_read_thread_fired w :
  init_once w = true -> start_read_thread w = w.
Proof. intros H. unfold start_read_thread. now rewrite H. Qed.

Lemma controller_read_thread_iter_flags w buffer :
  init_once (controller_read_thread_iter w buffer) = init_once w /\
  thread_running (controller_read_thread_iter w buffer) = thread_running w /\
  xinput_min_index (controller_read_thread_iter w buffer) = xinput_min_index w.
Proof.
  unfold controller_read_thread_iter.
  destruct (thread_running w) eqn:E; simpl; rewrite ?E; auto.
Qed.

Lemma read_frames_flags wait : forall w,
  let w' := fold_left controller_read_thread_iter wait w in
  init_once w' = init_once w /\ thread_running w' = thread_running w /\
  xinput_min_index w' = xinput_min_index w.
Proof.
  induction wait as [| buffer wait IH]; intros w; simpl; [auto|].
  destruct (IH (controller_read_thread_iter w buffer)) as (H1 & H2 & H3).
  destruct (controller_read_thread_iter_flags w buffer) as (G1 & G2 & G3).
  rewrite H1, H2, H3. auto.
Qed.

(** After [start_read_thread] returned, the gate has fired. *)
Lemma start_wait_fired w wait : init_once (start_wait w wait) = true.
Proof.
  unfold start_wait.
  destruct (read_frames_flags wait (start_read_thread w)) as (-> & _).
  unfold start_read_thread. now destruct (init_once w) eqn:E.
Qed.

Lemma start_wait_min_index w wait :
  xinput_min_index (start_wait w wait) = xinput_min_index w.
Proof.
  unfold start_wait.
  destruct (read_frames_flags wait (start_read_thread w)) as (_ & _ & ->).
  apply start_read_thread_min_index.
Qed.

Lemma controller_check_caps_caps c : caps (controller_check_caps c) = static_caps.
Proof. reflexivity. Qed.

Lemma controller_init_spec c :
  controller_init c =
  mkController static_caps zero_state (last_keystroke c) true true (id c).
Proof. reflexivity. Qed.

(** The synthesizer writes [last_keystroke] and nothing else. *)
Lemma check_buttons_frame tbl c c' k :
  check_buttons tbl c = Some (c', k) ->
  c' = set_last_keystroke c (last_keystroke c').
Proof.
  induction tbl as [| [mask vk] tbl IH]; simpl; [discriminate|].
  destruct (button_changed _ _ mask); [|exact IH].
  destruct (truthy _); intros [= <- _]; reflexivity.
Qed.

Lemma check_for_keystroke_frame c k :
  let c' := snd (fst (check_for_keystroke c k)) in
  c' = set_last_keystroke c (last_keystroke c').
Proof.
  unfold check_for_keystroke.
  destruct (check_buttons buttons c) as [[c1 k1]|] eqn:Eb.
  - simpl. eapply check_buttons_frame; eassumption.
  - destruct (xorb _ _); [reflexivity|].
    destruct (xorb _ _); [reflexivity|]. unfold check_joysticks.
    destruct (check_joystick_keystroke _ _ _ _ _ VK_PAD_LTHUMB_UP)
      as [[r1 k1] [lx ly]].
    destruct (r1 =? ERROR_SUCCESS); [reflexivity|].
    destruct (check_joystick_keystroke _ _ _ _ _ VK_PAD_RTHUMB_UP)
      as [[r2 k2] [rx ry]].
    reflexivity.
Qed.

(** How one datagram moves the capability record and the connected flag:
    only a handshake received while disconnected connects, and it stores
    the static record. *)
Lemma controller_read_frame_caps c buffer :
  let c' := controller_read_frame c buffer in
  (caps c' = caps c /\ (connected c' = true -> connected c = true))
  \/ (caps c' = static_caps /\ connected c = false
      /\ is_handshake buffer = true).
Proof.
  unfold controller_read_frame, is_handshake.
  destruct (char_at buffer 0 =? REQUEST_CODE_GET_GAMEPAD).
  - destruct (int_at buffer 1 >? 0).
    + destruct (connected c) eqn:Ec; simpl; rewrite Ec; simpl.
      * left. rewrite Ec. auto.
      * right. auto.
    + destruct (int_at buffer 1 =? 0); simpl; left; split; auto; discriminate.
  - destruct (_ && _) eqn:E; [|left; auto].
    apply andb_prop in E as [_ Ec].
    unfold controller_update_state.
    destruct (_ || _); simpl; left; split; auto; discriminate.
Qed.

Lemma step_caps w e :
  let c := controller w in
  let c' := controller (step w e) in
  (caps c' = caps c /\ (connected c' = true -> connected c = true))
  \/ (caps c' = static_caps /\ connected c = false
      /\ exists buffer, e = Recv buffer /\ is_handshake buffer = true).
Proof.
  destruct e; simpl.
  - unfold controller_read_thread_iter.
    destruct (thread_running w); [|left; auto].
    destruct (controller_read_frame_caps (controller w) buffer)
      as [H | (H1 & H2 & H3)]; [left; exact H | right; eauto].
  - left. split; [reflexivity | discriminate].
  - left. unfold XInputEnable.
    destruct (negb _); rewrite ?controller_set_controller;
      rewrite start_read_thread_controller; auto.
  - left. unfold XInputSetState.
    destruct (_ >=? _); [|destruct (negb _)]; simpl;
      rewrite start_read_thread_controller; auto.
  - left. unfold XInputGetState, xinput_get_state.
    destruct state_; [|simpl; auto].
    destruct (_ >=? _); simpl; [rewrite start_read_thread_controller; auto|].
    destruct (_ <? _); destruct (negb _); simpl;
      rewrite start_read_thread_controller; auto.
  - left. unfold XInputGetStateEx, xinput_get_state.
    destruct state_; [|simpl; auto].
    destruct (_ >=? _); simpl; [rewrite start_read_thread_controller; auto|].
    destruct (_ <? _); destruct (negb _); simpl;
      rewrite start_read_thread_controller; auto.
  - left. unfold XInputGetKeystroke.
    destruct (_ && _); [simpl; auto|].
    destruct (negb _); [simpl; auto|].
    pose proof (check_for_keystroke_frame (controller w) keystroke) as H.
    destruct (check_for_keystroke (controller w) keystroke) as [[r c1] k1].
    simpl in *. rewrite H. auto.
  - left. unfold XInputGetCapabilitiesEx.
    destruct (_ >=? _); [|destruct (negb _); [|destruct (_ && _)]]; simpl;
      rewrite start_read_thread_controller; auto.
Qed.

Lemma to_DWORD_range z : 0 <= to_DWORD z < 2 ^ 32.
Proof. unfold to_DWORD, to_unsigned. apply Z.mod_pos_bound. reflexivity. Qed.

(** The remapping step of [xinput_get_state], for an index that passed the
    range check: the new [xinput_min_index] and the index handed to
    [controller_is_connected]. *)
Lemma remap_min_index (m index : Z) :
  0 <= m <= 3 -> 0 <= index < 4 ->
  (if index <? to_DWORD m then to_char index else m) = Z.min index m.
Proof.
  intros Hm Hi. rewrite to_DWORD_small by (change (2 ^ 32) with 4294967296; lia).
  destruct (Z.ltb_spec index m).
  - rewrite to_char_small by (change (2 ^ 7) with 128; lia). lia.
  - lia.
Qed.

Lemma xinput_get_state_eq w index s0 :
  0 <= xinput_min_index w <= 3 -> 0 <= index < 4 ->
  let w1 := set_xinput_min_index (start_read_thread w)
              (Z.min index (xinput_min_index w)) in
  xinput_get_state w index (Some s0) =
  if (index <=? xinput_min_index w) && connected (controller w)
  then (ERROR_SUCCESS, w1, Some (state (controller w)))
  else (ERROR_DEVICE_NOT_CONNECTED, w1, Some s0).
Proof.
  intros Hm Hi w1. unfold xinput_get_state.
  destruct (Z.geb_spec index XUSER_MAX_COUNT) as [Hge | _];
    [unfold XUSER_MAX_COUNT in Hge; lia|].
  pose proof (remap_min_index (xinput_min_index w) index Hm Hi) as Hr.
  rewrite start_read_thread_min_index.
  assert (Hw : (if index <? to_DWORD (xinput_min_index w)
                then set_xinput_min_index (start_read_thread w) (to_char index)
                else start_read_thread w) = w1).
  { unfold w1. rewrite <- Hr.
    destruct (index <? to_DWORD (xinput_min_index w)); [reflexivity|].
    rewrite <- start_read_thread_min_index.
    now destruct (start_read_thread w). }
  rewrite Hw. unfold w1 at 1 2. cbn [xinput_min_index set_xinput_min_index].
  rewrite to_DWORD_small by (change (2 ^ 32) with 4294967296; lia).
  cbn [controller set_xinput_min_index]. rewrite start_read_thread_controller.
  unfold controller_is_connected.
  destruct (Z.leb_spec index (xinput_min_index w)) as [Hle | Hgt].
  - rewrite Z.min_l by lia. rewrite Z.eqb_refl. simpl.
    destruct (connected (controller w)); simpl;
      rewrite ?start_read_thread_controller; reflexivity.
  - rewrite Z.min_r by lia.
    destruct (Z.eqb_spec index (xinput_min_index w)) as [He | _]; [lia|].
    destruct (Z.eqb_spec index 0) as [He | _]; [lia|]. reflexivity.
Qed.

Lemma xinput_get_state_world w index state_ :
  0 <= xinput_min_index w <= 3 -> 0 <= index ->
  snd (fst (xinput_get_state w index state_)) =
  match state_ with
  | None => w
  | Some _ =>
    if index >=? XUSER_MAX_COUNT then start_read_thread w
    else set_xinput_min_index (start_read_thread w)
           (Z.min index (xinput_min_index w))
  end.
Proof.
  intros Hm Hi. destruct state_ as [s0|]; [|reflexivity].
  destruct (Z.geb_spec index XUSER_MAX_COUNT) as [Hge | Hlt].
  - unfold xinput_get_state.
    destruct (Z.geb_spec index XUSER_MAX_COUNT); [reflexivity | lia].
  - unfold XUSER_MAX_COUNT in Hlt.
    rewrite xinput_get_state_eq by lia.
    destruct (_ && _); reflexivity.
Qed.

Lemma XInputGetState_world w index state_ :
  snd (fst (XInputGetState w index state_)) =
  snd (fst (xinput_get_state w index state_)).
Proof.
  unfold XInputGetState.
  destruct (xinput_get_state w index state_) as [[r w1] s1].
  destruct (negb _); reflexivity.
Qed.

Lemma XInputGetState_code w index state_ :
  fst (fst (XInputGetState w index state_)) =
  fst (fst (xinput_get_state w index state_)).
Proof.
  unfold XInputGetState.
  destruct (xinput_get_state w index state_) as [[r w1] s1].
  destruct (Z.eqb_spec r ERROR_SUCCESS) as [-> | _]; reflexivity.
Qed.

Lemma step_min_index w e :
  0 <= xinput_min_index w <= 3 -> 0 <= xinput_min_index (step w e) <= 3.
Proof.
  intros Hm.
  assert (Hgs : forall index state_,
             0 <= xinput_min_index
                    (snd (fst (xinput_get_state w (to_DWORD index) state_))) <= 3).
  { intros index state_. pose proof (to_DWORD_range index) as Hr.
    rewrite xinput_get_state_world by lia.
    destruct state_; [|exact Hm].
    destruct (_ >=? _); cbn [xinput_min_index set_xinput_min_index];
      rewrite ?start_read_thread_min_index; lia. }
  destruct e; simpl.
  - unfold controller_read_thread_iter. now destruct (thread_running w).
  - lia.
  - unfold XInputEnable. destruct (negb _); simpl;
      now rewrite start_read_thread_min_index.
  - unfold XInputSetState.
    destruct (_ >=? _); [|destruct (negb _)]; simpl;
      now rewrite start_read_thread_min_index.
  - rewrite XInputGetState_world. apply Hgs.
  - apply Hgs.
  - unfold XInputGetKeystroke.
    destruct (_ && _); [exact Hm|]. destruct (negb _); [exact Hm|].
    destruct (check_for_keystroke _ _) as [[r c1] k1]. exact Hm.
  - unfold XInputGetCapabilitiesEx.
    destruct (_ >=? _); [|destruct (negb _); [|destruct (_ && _)]]; simpl;
      now rewrite start_read_thread_min_index.
Qed.

Lemma step_invariant w e : invariant w -> invariant (step w e).
Proof.
  intros [Hm Hc Hk]. pose proof (step_caps w e) as Hs. simpl in Hs.
  split.
  - now apply step_min_index.
  - destruct Hs as [[-> _] | [-> _]]; auto.
  - intros Hc'. destruct Hs as [[-> Hcon] | [-> _]]; auto.
Qed.

Lemma reachable_invariant w : reachable w -> invariant w.
Proof.
  induction 1 as [| w e _ IH].
  - split; simpl; [lia | auto | discriminate].
  - now apply step_invariant.
Qed.

Lemma reachable_run w evs : reachable w -> reachable (run w evs).
Proof.
  revert w. induction evs as [| e evs IH]; intros w Hw; simpl; [exact Hw|].
  apply IH. now constructor.
Qed.

Lemma read_frames_run wait : forall w,
  fold_left controller_read_thread_iter wait w = run w (map Recv wait).
Proof.
  induction wait as [| buffer wait IH]; intros w; simpl; [reflexivity|].
  apply IH.
Qed.

(** The globals a gate-firing call finds are reachable. *)
Lemma start_wait_reachable w wait : reachable w -> reachable (start_wait w wait).
Proof.
  intros Hw. unfold start_wait. rewrite read_frames_run.
  apply reachable_run.
  change (start_read_thread w) with (step w (SetState 4 (mkVibration 0 0))).
  now constructor.
Qed.

(** ** Quantizers *)

(** C8: a trigger is on exactly when its byte exceeds 30 (30 is off, 31 is
    on); an axis quantizes to OFF on [-20000, 20000], to LOW at -20001 and
    below, to HIGH at 20001 and above. *)
Theorem C8_quantizer_thresholds :
  (forall v, trigger_is_on v = true <-> 30 < v) /\
  trigger_is_on 30 = false /\ trigger_is_on 31 = true /\
  (forall v, joystick_state v = JS_STATE_OFF <-> -20000 <= v <= 20000) /\
  (forall v, joystick_state v = JS_STATE_LOW <-> v <= -20001) /\
  (forall v, joystick_state v = JS_STATE_HIGH <-> 20001 <= v).
Proof.
  assert (Hjs : forall v,
             (20001 <= v /\ joystick_state v = JS_STATE_HIGH) \/
             (v <= -20001 /\ joystick_state v = JS_STATE_LOW) \/
             (-20000 <= v <= 20000 /\ joystick_state v = JS_STATE_OFF)).
  { intros v. unfold joystick_state.
    destruct (Z.gtb_spec v 20000); [left; split; [lia | reflexivity]|].
    destruct (Z.ltb_spec v (-20000)); right; [left | right];
      (split; [lia | reflexivity]). }
  repeat split; try reflexivity.
  - unfold trigger_is_on. destruct (Z.gtb_spec v 30); [lia | discriminate].
  - unfold trigger_is_on. destruct (Z.gtb_spec v 30); [reflexivity | lia].
  - destruct (Hjs v) as [[? E] | [[? E] | [? E]]]; rewrite E in H;
      try discriminate H; lia.
  - destruct (Hjs v) as [[? E] | [[? E] | [? E]]]; rewrite E in H;
      try discriminate H; lia.
  - intros [? ?]. destruct (Hjs v) as [[? E] | [[? E] | [? E]]];
      try lia; exact E.
  - intros H. destruct (Hjs v) as [[? E] | [[? E] | [? E]]]; rewrite E in H;
      try discriminate H; lia.
  - intros H. destruct (Hjs v) as [[? E] | [[? E] | [? E]]]; try lia; exact E.
  - intros H. destruct (Hjs v) as [[? E] | [[? E] | [? E]]]; rewrite E in H;
      try discriminate H; lia.
  - intros H. destruct (Hjs v) as [[? E] | [[? E] | [? E]]]; try lia; exact E.
Qed.

(** ** Capabilities *)

(** Once the capability record has been filled it never changes again. *)
Lemma caps_constant_after_init w evs :
  caps (controller w) = static_caps ->
  caps (controller (run w evs)) = static_caps.
Proof.
  revert w. induction evs as [| e evs IH]; intros w Hw; simpl; [exact Hw|].
  apply IH. pose proof (step_caps w e) as Hs. simpl in Hs.
  destruct Hs as [[-> _] | [-> _]]; auto.
Qed.

(** C1 (defect of the code): after the first handshake the stored record
    has type and subtype gamepad and button mask 0xFFFF, but
    [controller_check_caps] shifts by [sizeof + 1] bits, so the trigger
    fields hold 3 and the thumb-axis fields hold 7, not their saturated
    values (255, and 32767 or all bits set). *)
Theorem C1_capability_ranges_not_saturated :
  let w := run world0 [Enable true; Recv (Provider.get_gamepad_reply 42)] in
  let g := caps_Gamepad (caps (controller w)) in
  connected (controller w) = true /\
  caps_Type (caps (controller w)) = XINPUT_DEVTYPE_GAMEPAD /\
  caps_SubType (caps (controller w)) = XINPUT_DEVSUBTYPE_GAMEPAD /\
  wButtons g = 0xFFFF /\
  bLeftTrigger g = 3 /\ bRightTrigger g = 3 /\
  sThumbLX g = 7 /\ sThumbLY g = 7 /\ sThumbRX g = 7 /\ sThumbRY g = 7 /\
  bLeftTrigger g <> 255 /\ sThumbLX g <> 32767 /\ sThumbLX g <> -1.
Proof. cbv. repeat split; discriminate. Qed.

(** C10: in every reachable state with the controller connected the stored
    subtype is the gamepad subtype, the flag-guarded branch of
    [XInputGetCapabilitiesEx] is not taken, and the call at index 0 returns
    SUCCESS with the stored capabilities, vendor 0x045E and product 0x02A1,
    whatever the flags. *)
Theorem C10_capabilities_query_succeeds w unk flags caps_ :
  reachable w -> connected (controller w) = true ->
  caps_SubType (caps (controller w)) = XINPUT_DEVSUBTYPE_GAMEPAD /\
  truthy (Z.land flags XINPUT_FLAG_GAMEPAD)
    && negb (caps_SubType (caps (controller w)) =? XINPUT_DEVSUBTYPE_GAMEPAD)
  = false /\
  XInputGetCapabilitiesEx w unk 0 flags caps_ =
  (ERROR_SUCCESS, start_read_thread w,
   mkCapsEx (caps (controller w)) 0x045E 0x02A1
            (VersionNumber caps_) (unk1 caps_) (unk2 caps_)).
Proof.
  intros Hr Hc. apply reachable_invariant in Hr as [_ _ Hk].
  specialize (Hk Hc).
  assert (Hsub : caps_SubType (caps (controller w)) = XINPUT_DEVSUBTYPE_GAMEPAD)
    by now rewrite Hk.
  split; [exact Hsub|]. split.
  - rewrite Hsub, Z.eqb_refl. apply andb_false_r.
  - unfold XInputGetCapabilitiesEx, controller_is_connected.
    rewrite start_read_thread_controller, Hc, Hsub, Z.eqb_refl.
    simpl. rewrite andb_false_r. reflexivity.
Qed.

(** A gamepad-only capabilities query right after the handshake. *)
Lemma C10_capabilities_query_succeeds_witness :
  let w := run world0 [Enable true; Recv (Provider.get_gamepad_reply 42)] in
  fst (fst (XInputGetCapabilitiesEx w 1 0 XINPUT_FLAG_GAMEPAD
              (mkCapsEx zero_caps 0 0 0 0 0))) = ERROR_SUCCESS.
Proof.
  intros w.
  assert (Hr : reachable w) by (apply reachable_run; constructor).
  destruct (C10_capabilities_query_succeeds w 1 XINPUT_FLAG_GAMEPAD
              (mkCapsEx zero_caps 0 0 0 0 0) Hr eq_refl) as (_ & _ & ->).
  reflexivity.
Defined.

(** ** Entry points without remapping *)

(** C9: [XInputSetState] and [XInputGetKeystroke] hand the caller's index
    to [controller_is_connected] as it is, so at indices 1, 2 and 3 they
    return DEVICE_NOT_CONNECTED in every state, also in a reachable state
    in which an earlier get_state call made that index the remapped one
    and get_state there returns SUCCESS. *)
Theorem C9_set_state_get_keystroke_not_remapped index :
  1 <= index <= 3 ->
  (forall w vibration,
      XInputSetState w index vibration =
      (ERROR_DEVICE_NOT_CONNECTED, start_read_thread w)) /\
  (forall w reserved keystroke,
      XInputGetKeystroke w index reserved keystroke =
      (ERROR_DEVICE_NOT_CONNECTED, w, keystroke)) /\
  (exists w s0,
      reachable w /\ xinput_min_index w = index /\
      fst (fst (XInputGetState w index (Some s0))) = ERROR_SUCCESS /\
      fst (fst (XInputGetStateEx w index (Some s0))) = ERROR_SUCCESS /\
      fst (XInputSetState w index (mkVibration 0 0)) =
      ERROR_DEVICE_NOT_CONNECTED /\
      fst (fst (XInputGetKeystroke w index 0 (mkKeystroke 0 0 0 0 0))) =
      ERROR_DEVICE_NOT_CONNECTED).
Proof.
  intros Hi.
  assert (Hge : (index >=? XUSER_MAX_COUNT) = false)
    by (unfold XUSER_MAX_COUNT; destruct (Z.geb_spec index 4); [lia | reflexivity]).
  assert (H0 : (index =? 0) = false)
    by (destruct (Z.eqb_spec index 0); [lia | reflexivity]).
  assert (Hany : (index =? XUSER_INDEX_ANY) = false)
    by (unfold XUSER_INDEX_ANY; destruct (Z.eqb_spec index 255); [lia | reflexivity]).
  split; [|split].
  - intros w vibration. unfold XInputSetState, controller_is_connected.
    now rewrite Hge, H0.
  - intros w reserved keystroke.
    unfold XInputGetKeystroke, controller_is_connected.
    rewrite Hge, Hany. simpl. now rewrite H0.
  - exists (run world0 [Enable true; Recv (Provider.get_gamepad_reply 42);
                        GetState index (Some zero_state)]), zero_state.
    assert (index = 1 \/ index = 2 \/ index = 3) as [-> | [-> | ->]] by lia;
      (split; [apply reachable_run; constructor|]);
      repeat split; reflexivity.
Qed.

(** Index 2 after get_state made it the remapped index. *)
Lemma C9_set_state_get_keystroke_not_remapped_witness :
  let w := run world0 [Enable true; Recv (Provider.get_gamepad_reply 42);
                       GetState 2 (Some zero_state)] in
  fst (fst (XInputGetState w 2 (Some zero_state))) = ERROR_SUCCESS /\
  XInputSetState w 2 (mkVibration 0 0) =
  (ERROR_DEVICE_NOT_CONNECTED, start_read_thread w) /\
  XInputGetKeystroke w 2 0 (mkKeystroke 0 0 0 0 0) =
  (ERROR_DEVICE_NOT_CONNECTED, w, mkKeystroke 0 0 0 0 0).
Proof.
  intros w.
  destruct (C9_set_state_get_keystroke_not_remapped 2 ltac:(lia))
    as (Hs & Hk & _).
  split; [reflexivity|]. split; [apply Hs | apply Hk].
Defined.

(** ** Index remapping *)

Lemma step_min_index_eq w e :
  0 <= xinput_min_index w <= 3 -> is_detach e = false ->
  xinput_min_index (step w e) =
  match queried_index e with
  | Some i => Z.min (xinput_min_index w) i
  | None => xinput_min_index w
  end.
Proof.
  intros Hm Hd.
  assert (Hgs : forall index state_,
             xinput_min_index
               (snd (fst (xinput_get_state w (to_DWORD index) state_))) =
             match state_ with
             | Some _ => if to_DWORD index >=? XUSER_MAX_COUNT
                         then xinput_min_index w
                         else Z.min (xinput_min_index w) (to_DWORD index)
             | None => xinput_min_index w
             end).
  { intros index state_. pose proof (to_DWORD_range index) as Hr.
    rewrite xinput_get_state_world by lia.
    destruct state_; [|reflexivity].
    destruct (_ >=? _); cbn [xinput_min_index set_xinput_min_index];
      rewrite ?start_read_thread_min_index; lia. }
  destruct e; try discriminate Hd; cbn [queried_index step].
  - unfold controller_read_thread_iter. now destruct (thread_running w).
  - unfold XInputEnable. destruct (negb _); simpl;
      now rewrite start_read_thread_min_index.
  - unfold XInputSetState.
    destruct (_ >=? _); [|destruct (negb _)]; simpl;
      now rewrite start_read_thread_min_index.
  - rewrite XInputGetState_world, Hgs. destruct state_; [|reflexivity].
    now destruct (_ >=? _).
  - unfold XInputGetStateEx. rewrite Hgs. destruct state_; [|reflexivity].
    now destruct (_ >=? _).
  - unfold XInputGetKeystroke.
    destruct (_ && _); [reflexivity|]. destruct (negb _); [reflexivity|].
    now destruct (check_for_keystroke _ _) as [[r c1] k1].
  - unfold XInputGetCapabilitiesEx.
    destruct (_ >=? _); [|destruct (negb _); [|destruct (_ && _)]]; simpl;
      now rewrite start_read_thread_min_index.
Qed.

Lemma run_min_index evs : forall w,
  0 <= xinput_min_index w <= 3 -> existsb is_detach evs = false ->
  xinput_min_index (run w evs) = min_index_of (queried evs) (xinput_min_index w).
Proof.
  induction evs as [| e evs IH]; intros w Hm Hd; [reflexivity|].
  simpl in Hd. apply orb_false_elim in Hd as [He Hd].
  simpl. rewrite IH; auto using step_min_index.
  rewrite step_min_index_eq by assumption.
  destruct (queried_index e); reflexivity.
Qed.

Lemma min_index_of_le l : forall m, min_index_of l m <= m.
Proof.
  induction l as [| i l IH]; intros m; simpl; [lia|].
  specialize (IH (Z.min m i)). unfold min_index_of in *. lia.
Qed.

Lemma min_index_of_In l i : forall m, In i l -> min_index_of l m <= i.
Proof.
  induction l as [| j l IH]; intros m; simpl; [tauto|].
  intros [-> | Hin]; [|now apply IH].
  pose proof (min_index_of_le l (Z.min m i)). unfold min_index_of in *. lia.
Qed.

(** C2 (as amended): while the library stays attached, [xinput_min_index]
    is the smallest index any get_state call has queried so far (3 before
    any); a get_state call at an index in [0..3] lowers it to that index if
    smaller and returns DEVICE_NOT_CONNECTED when its index is above the
    smallest queried so far. When its index is not above it, the call is
    served as controller 0: on the globals [start_read_thread] leaves to
    it, after whatever the worker handled while a first call waited for it,
    it returns SUCCESS if the controller is connected there and
    DEVICE_NOT_CONNECTED if not. *)
Theorem C2_smallest_queried_index_is_controller_0 evs index s0 :
  existsb is_detach evs = false -> 0 <= index < 4 ->
  let w0 := run world0 evs in
  let m := min_index_of (queried evs) 3 in
  xinput_min_index w0 = m /\
  (forall get, get = XInputGetState \/ get = XInputGetStateEx ->
     let '(ret, w', _) := get w0 index (Some s0) in
     xinput_min_index w' = Z.min index m /\
     (m < index -> ret = ERROR_DEVICE_NOT_CONNECTED) /\
     (forall j, In j (queried evs) -> j < index ->
                ret = ERROR_DEVICE_NOT_CONNECTED)) /\
  (forall wait get, get = XInputGetState \/ get = XInputGetStateEx ->
     let w := start_wait w0 wait in
     let '(ret, w', _) := get w index (Some s0) in
     init_once w = true /\
     xinput_min_index w = m /\
     xinput_min_index w' = Z.min index m /\
     controller w' = controller w /\
     (m < index -> ret = ERROR_DEVICE_NOT_CONNECTED) /\
     (index <= m ->
      ret = if connected (controller w)
            then ERROR_SUCCESS else ERROR_DEVICE_NOT_CONNECTED)).
Proof.
  intros Hd Hi w0 m.
  assert (Hm : xinput_min_index w0 = m)
    by (apply (run_min_index evs world0); simpl; [lia | exact Hd]).
  assert (Hr0 : reachable w0) by (apply reachable_run; constructor).
  assert (Hcore : forall w, xinput_min_index w = m -> reachable w ->
    let '(ret, w', _) := xinput_get_state w index (Some s0) in
    xinput_min_index w' = Z.min index m /\
    controller w' = controller w /\
    (m < index -> ret = ERROR_DEVICE_NOT_CONNECTED) /\
    (forall j, In j (queried evs) -> j < index ->
               ret = ERROR_DEVICE_NOT_CONNECTED) /\
    (index <= m ->
     ret = if connected (controller w)
           then ERROR_SUCCESS else ERROR_DEVICE_NOT_CONNECTED)).
  { intros w Hw Hr.
    assert (Hinv : 0 <= xinput_min_index w <= 3)
      by now apply reachable_invariant.
    rewrite xinput_get_state_eq by assumption. rewrite Hw.
    assert (Hgt : m < index ->
                  (index <=? m) && connected (controller w) = false).
    { intros Hlt. destruct (Z.leb_spec index m); [lia | reflexivity]. }
    destruct ((index <=? m) && connected (controller w)) eqn:E.
    - apply andb_prop in E as [Hle Hc]. apply Z.leb_le in Hle.
      split; [reflexivity|].
      split; [apply start_read_thread_controller|]. split; [lia|]. split.
      + intros j Hj Hlt. pose proof (min_index_of_In _ j 3 Hj). fold m in H. lia.
      + intros _. now rewrite Hc.
    - split; [reflexivity|].
      split; [apply start_read_thread_controller|].
      split; [reflexivity|]. split; [reflexivity|].
      intros Hle. apply Z.leb_le in Hle. rewrite Hle in E. simpl in E.
      now rewrite E. }
  assert (Hboth : forall w get, get = XInputGetState \/ get = XInputGetStateEx ->
    xinput_min_index w = m -> reachable w ->
    let '(ret, w', _) := get w index (Some s0) in
    xinput_min_index w' = Z.min index m /\
    controller w' = controller w /\
    (m < index -> ret = ERROR_DEVICE_NOT_CONNECTED) /\
    (forall j, In j (queried evs) -> j < index ->
               ret = ERROR_DEVICE_NOT_CONNECTED) /\
    (index <= m ->
     ret = if connected (controller w)
           then ERROR_SUCCESS else ERROR_DEVICE_NOT_CONNECTED)).
  { intros w get [-> | ->] Hw Hr; [|now apply Hcore].
    pose proof (XInputGetState_world w index (Some s0)) as Hw1.
    pose proof (XInputGetState_code w index (Some s0)) as Hc1.
    specialize (Hcore w Hw Hr).
    destruct (XInputGetState w index (Some s0)) as [[r1 w1] o1].
    destruct (xinput_get_state w index (Some s0)) as [[r2 w2] o2].
    simpl in Hw1, Hc1. subst. exact Hcore. }
  split; [exact Hm|]. split.
  - intros get Hget. specialize (Hboth w0 get Hget Hm Hr0).
    destruct (get w0 index (Some s0)) as [[ret w'] o].
    destruct Hboth as (H1 & _ & H2 & H3 & _). auto.
  - intros wait get Hget w.
    assert (Hw : xinput_min_index w = m)
      by (unfold w; now rewrite start_wait_min_index).
    specialize (Hboth w get Hget Hw (start_wait_reachable w0 wait Hr0)).
    destruct (get w index (Some s0)) as [[ret w'] o].
    destruct Hboth as (H1 & H2 & H3 & _ & H4).
    split; [apply start_wait_fired|]. auto 6.
Qed.

(** After a query at index 2, a query at index 3 is disconnected; a first
    call at index 2, during whose wait the worker handled the provider's
    reply, succeeds. *)
Lemma C2_smallest_queried_index_is_controller_0_witness :
  let evs := [Enable true; Recv (Provider.get_gamepad_reply 42);
              GetState 2 (Some zero_state)] in
  (xinput_min_index (run world0 evs) = 2 /\
   fst (fst (XInputGetState (run world0 evs) 3 (Some zero_state)))
   = ERROR_DEVICE_NOT_CONNECTED) /\
  fst (fst (XInputGetState
              (start_wait world0 [Provider.get_gamepad_reply 42]) 2
              (Some zero_state)))
  = ERROR_SUCCESS.
Proof.
  intros evs. split.
  - destruct (C2_smallest_queried_index_is_controller_0 evs 3 zero_state
                eq_refl ltac:(lia)) as (Hm & Hget & _).
    split; [exact Hm|].
    specialize (Hget XInputGetState (or_introl eq_refl)).
    destruct (XInputGetState (run world0 evs) 3 (Some zero_state))
      as [[ret w'] o].
    destruct Hget as (_ & Hdnc & _). apply Hdnc. vm_compute. reflexivity.
  - destruct (C2_smallest_queried_index_is_controller_0 [] 2 zero_state
                eq_refl ltac:(lia)) as (_ & _ & Hget).
    specialize (Hget [Provider.get_gamepad_reply 42] XInputGetState
                     (or_introl eq_refl)).
    cbv zeta in Hget. change (run world0 []) with world0 in Hget.
    revert Hget.
    destruct (XInputGetState
                (start_wait world0 [Provider.get_gamepad_reply 42]) 2
                (Some zero_state)) as [[ret w'] o].
    intros (_ & _ & _ & _ & _ & Hok). simpl.
    rewrite Hok by (vm_compute; discriminate). reflexivity.
Defined.

(** C2 (as stated) fails: with the controller connected, the first
    get_state query is at index 2 and succeeds; a later query at the other
    index 1 succeeds too instead of reporting DEVICE_NOT_CONNECTED, and
    index 2 is the one that is disconnected from then on. *)
Lemma C2_first_index_not_kept :
  let w := run world0 [Enable true; Recv (Provider.get_gamepad_reply 42)] in
  let r1 := XInputGetState w 2 (Some zero_state) in
  let r2 := XInputGetState (snd (fst r1)) 1 (Some zero_state) in
  let r3 := XInputGetState (snd (fst r2)) 2 (Some zero_state) in
  queried [Enable true; Recv (Provider.get_gamepad_reply 42)] = [] /\
  fst (fst r1) = ERROR_SUCCESS /\
  fst (fst r2) = ERROR_SUCCESS /\
  fst (fst r2) <> ERROR_DEVICE_NOT_CONNECTED /\
  fst (fst r3) = ERROR_DEVICE_NOT_CONNECTED.
Proof. vm_compute. repeat split; discriminate. Qed.

(** ** Disconnection by a state frame *)

Lemma step_thread_running w e :
  is_detach e = false -> thread_running w = true ->
  thread_running (step w e) = true.
Proof.
  assert (Hs : thread_running w = true ->
               thread_running (start_read_thread w) = true).
  { unfold start_read_thread. now destruct (init_once w). }
  intros Hd Ht.
  assert (Hgs : forall index state_,
             thread_running (snd (fst (xinput_get_state w index state_))) = true).
  { intros index state_. unfold xinput_get_state.
    destruct state_; [|exact Ht].
    destruct (_ >=? _); simpl; auto.
    destruct (_ <? _); destruct (negb _); simpl; auto. }
  destruct e; try discriminate Hd; simpl.
  - unfold controller_read_thread_iter. now rewrite Ht.
  - unfold XInputEnable. destruct (negb _); simpl; auto.
  - unfold XInputSetState.
    destruct (_ >=? _); [|destruct (negb _)]; simpl; auto.
  - rewrite XInputGetState_world. apply Hgs.
  - apply Hgs.
  - unfold XInputGetKeystroke.
    destruct (_ && _); [exact Ht|]. destruct (negb _); [exact Ht|].
    now destruct (check_for_keystroke _ _) as [[r c1] k1].
  - unfold XInputGetCapabilitiesEx.
    destruct (_ >=? _); [|destruct (negb _); [|destruct (_ && _)]]; simpl; auto.
Qed.

Lemma quiet_not_detach e : quiet e = true -> is_detach e = false.
Proof. now destruct e. Qed.

Lemma run_quiet evs : forall w,
  forallb quiet evs = true ->
  connected (controller w) = false -> thread_running w = true ->
  connected (controller (run w evs)) = false /\
  thread_running (run w evs) = true.
Proof.
  induction evs as [| e evs IH]; intros w Hq Hc Ht; [now split|].
  simpl in Hq. apply andb_prop in Hq as [He Hq]. simpl.
  apply IH; [exact Hq | | apply step_thread_running; auto using quiet_not_detach].
  pose proof (step_caps w e) as Hs. simpl in Hs.
  destruct Hs as [[_ Hmono] | (_ & _ & buffer & -> & Hh)].
  - destruct (connected (controller (step w e))); [|reflexivity].
    rewrite Hmono in Hc by reflexivity. discriminate.
  - simpl in He. now rewrite Hh in He.
Qed.

(** A handshake received while disconnected runs [controller_init]. *)
Lemma handshake_connects w buffer :
  thread_running w = true -> connected (controller w) = false ->
  is_handshake buffer = true ->
  controller (controller_read_thread_iter w buffer) =
  mkController static_caps zero_state (last_keystroke (controller w))
               true true (int_at buffer 1).
Proof.
  intros Ht Hc Hh. unfold is_handshake in Hh. apply andb_prop in Hh as [H8 Hid].
  unfold controller_read_thread_iter. rewrite Ht. simpl.
  unfold controller_read_frame. rewrite H8, Hid. simpl. rewrite Hc. reflexivity.
Qed.

(** C3: a GAMEPAD_STATE frame handled while connected whose status byte
    is not 1 or whose id differs from the stored one clears [connected],
    zeroes the whole pad sample with its packet counter, and changes
    nothing else; get_state then reports DEVICE_NOT_CONNECTED at every
    index in range and stays disconnected until the provider announces a
    controller again, after which get_state at the effective index 0
    returns SUCCESS with the zero pad. *)
Theorem C3_bad_state_frame_disconnects w buffer :
  reachable w -> thread_running w = true ->
  connected (controller w) = true ->
  char_at buffer 0 = REQUEST_CODE_GET_GAMEPAD_STATE ->
  char_at buffer 1 <> 1 \/ int_at buffer 2 <> id (controller w) ->
  let c := controller w in
  let w' := controller_read_thread_iter w buffer in
  w' = set_controller w
         (mkController (caps c) zero_state (last_keystroke c)
                       (enabled c) false (id c)) /\
  (forall get index s0,
      get = XInputGetState \/ get = XInputGetStateEx -> 0 <= index < 4 ->
      fst (fst (get w' index (Some s0))) = ERROR_DEVICE_NOT_CONNECTED) /\
  (forall evs hs get index s0,
      forallb quiet evs = true -> is_handshake hs = true ->
      get = XInputGetState \/ get = XInputGetStateEx ->
      let w2 := run w' evs in
      let w3 := controller_read_thread_iter w2 hs in
      0 <= index <= xinput_min_index w3 ->
      connected (controller w2) = false /\
      fst (fst (get w3 index (Some s0))) = ERROR_SUCCESS /\
      snd (get w3 index (Some s0)) = Some zero_state).
Proof.
  intros Hr Ht Hc H9 Hbad c w'. subst c.
  assert (Hw' : w' = set_controller w
                       (mkController (caps (controller w)) zero_state
                          (last_keystroke (controller w))
                          (enabled (controller w)) false (id (controller w)))).
  { unfold w', controller_read_thread_iter. rewrite Ht. f_equal.
    unfold controller_read_frame. rewrite H9. simpl. rewrite Hc.
    unfold controller_update_state.
    assert (E : negb (char_at buffer 1 =? 1)
                || negb (int_at buffer 2 =? id (controller w)) = true).
    { destruct Hbad as [Hs | Hi].
      - apply Z.eqb_neq in Hs. now rewrite Hs.
      - apply Z.eqb_neq in Hi. rewrite Hi. apply orb_true_r. }
    rewrite E. reflexivity. }
  assert (Hr' : reachable w') by (apply (reach_step w (Recv buffer)), Hr).
  assert (Hc' : connected (controller w') = false) by now rewrite Hw'.
  assert (Ht' : thread_running w' = true) by now rewrite Hw'.
  split; [exact Hw'|]. split.
  - intros get index s0 Hg Hi.
    assert (Hm : 0 <= xinput_min_index w' <= 3)
      by apply reachable_invariant, Hr'.
    destruct Hg as [-> | ->]; [rewrite XInputGetState_code | unfold XInputGetStateEx];
      rewrite xinput_get_state_eq by assumption;
      rewrite Hc', andb_false_r; reflexivity.
  - intros evs hs get index s0 Hq Hh Hg w2 w3 Hi.
    destruct (run_quiet evs w' Hq Hc' Ht') as [Hc2 Ht2]. fold w2 in Hc2, Ht2.
    split; [exact Hc2|].
    pose proof (handshake_connects w2 hs Ht2 Hc2 Hh) as Hc3. fold w3 in Hc3.
    assert (Hm3 : 0 <= xinput_min_index w3 <= 3).
    { apply reachable_invariant. apply (reach_step w2 (Recv hs)).
      now apply reachable_run. }
    assert (Hle : (index <=? xinput_min_index w3) = true) by (apply Z.leb_le; lia).
    destruct Hg as [-> | ->].
    + unfold XInputGetState. rewrite xinput_get_state_eq by lia.
      rewrite Hle, Hc3. simpl. split; reflexivity.
    + unfold XInputGetStateEx. rewrite xinput_get_state_eq by lia.
      rewrite Hle, Hc3. simpl. split; reflexivity.
Qed.

(** A state frame carrying id 43 while the stored id is 42, and the
    reconnection that follows. *)
Lemma C3_bad_state_frame_disconnects_witness :
  let w := run world0 [Enable true; Recv (Provider.get_gamepad_reply 42);
                       Recv (Provider.gamepad_state 1 42 1 4 0 30000 0 0)] in
  let w' := controller_read_thread_iter w
              (Provider.gamepad_state 1 43 1 4 0 30000 0 0) in
  let w3 := controller_read_thread_iter
              (run w' [GetState 0 (Some zero_state);
                       Recv (Provider.gamepad_state 1 42 1 4 0 30000 0 0)])
              (Provider.get_gamepad_reply 42) in
  state (controller w) <> zero_state /\
  state (controller w') = zero_state /\
  fst (fst (XInputGetState w' 0 (Some zero_state)))
  = ERROR_DEVICE_NOT_CONNECTED /\
  XInputGetState w3 0 (Some (state (controller w)))
  = (ERROR_SUCCESS, w3, Some zero_state).
Proof.
  intros w w' w3.
  assert (Hr : reachable w) by (apply reachable_run; constructor).
  assert (Ht : thread_running w = true) by (vm_compute; reflexivity).
  assert (Hc : connected (controller w) = true) by (vm_compute; reflexivity).
  assert (H9 : char_at (Provider.gamepad_state 1 43 1 4 0 30000 0 0) 0
               = REQUEST_CODE_GET_GAMEPAD_STATE) by (vm_compute; reflexivity).
  assert (Hid : int_at (Provider.gamepad_state 1 43 1 4 0 30000 0 0) 2
                <> id (controller w)) by (vm_compute; discriminate).
  destruct (C3_bad_state_frame_disconnects w
              (Provider.gamepad_state 1 43 1 4 0 30000 0 0)
              Hr Ht Hc H9 (or_intror Hid))
    as (Hw' & Hdnc & _).
  split; [vm_compute; discriminate|].
  split; [unfold w' at 1; rewrite Hw'; reflexivity|].
  split; [apply (Hdnc XInputGetState); [now left | lia]|].
  vm_compute. reflexivity.
Defined.

(** ** Accepted state frames *)

Lemma to_signed_range bits z :
  0 < bits -> - 2 ^ (bits - 1) <= to_signed bits z < 2 ^ (bits - 1).
Proof.
  intros Hb. unfold to_signed.
  assert (Hp : 2 ^ bits = 2 * 2 ^ (bits - 1)).
  { replace bits with (Z.succ (bits - 1)) at 1 by lia.
    rewrite Z.pow_succ_r by lia. reflexivity. }
  assert (Hpos : 0 < 2 ^ (bits - 1)) by (apply Z.pow_pos_nonneg; lia).
  pose proof (Z.mod_pos_bound z (2 ^ bits) ltac:(lia)) as Hm.
  simpl. destruct (Z.ltb_spec (z mod 2 ^ bits) (2 ^ (bits - 1))); lia.
Qed.

Lemma to_signed_small bits z :
  0 < bits -> - 2 ^ (bits - 1) <= z < 2 ^ (bits - 1) -> to_signed bits z = z.
Proof.
  intros Hb Hz. unfold to_signed.
  assert (Hp : 2 ^ bits = 2 * 2 ^ (bits - 1)).
  { replace bits with (Z.succ (bits - 1)) at 1 by lia.
    rewrite Z.pow_succ_r by lia. reflexivity. }
  destruct (Z.le_gt_cases 0 z) as [Hnn | Hneg]; simpl.
  - rewrite Z.mod_small by lia.
    destruct (Z.ltb_spec z (2 ^ (bits - 1))); lia.
  - replace (z mod 2 ^ bits) with (z + 2 ^ bits).
    + destruct (Z.ltb_spec (z + 2 ^ bits) (2 ^ (bits - 1))); lia.
    + apply Z.mod_unique with (q := -1); lia.
Qed.

Lemma short_at_range buffer off : -32768 <= short_at buffer off <= 32767.
Proof.
  unfold short_at, to_SHORT.
  pose proof (to_signed_range 16
                (byte_at buffer off + 2 ^ 8 * byte_at buffer (off + 1))
                ltac:(lia)) as H.
  change (2 ^ (16 - 1)) with 32768 in H. lia.
Qed.

Lemma to_SHORT_small z : -32768 <= z <= 32767 -> to_SHORT z = z.
Proof.
  intros H. apply to_signed_small; [lia|].
  change (2 ^ (16 - 1)) with 32768. lia.
Qed.

Lemma controller_read_frame_accepted c buffer :
  connected c = true -> accepted c buffer ->
  controller_read_frame c buffer =
  set_state c (mkState (to_DWORD (dwPacketNumber (state c) + 1))
                       (decoded_pad buffer)).
Proof.
  intros Hc (H9 & H1 & Hid).
  unfold controller_read_frame. rewrite H9, Hc. simpl.
  unfold controller_update_state. rewrite H1, Hid, !Z.eqb_refl. reflexivity.
Qed.

(** C4: from the just-connected all-zero state with remote id 42, the frame
    (status 1, id 42, buttons 0x0001, dpad 4, lx 0, ly 30000, rx 0, ry 0)
    makes the next get_state(0) return SUCCESS with
    [wButtons = A | DPAD_DOWN], [sThumbLY = -30000], the other axes and
    both triggers 0 and packet number 1; in general an accepted frame
    stores the horizontal axes as sent and the vertical axes negated. *)
Theorem C4_state_update_scenario w :
  reachable w -> thread_running w = true ->
  connected (controller w) = true -> id (controller w) = 42 ->
  state (controller w) = zero_state ->
  let w' := controller_read_thread_iter w
              (Provider.gamepad_state 1 42 0x0001 4 0 30000 0 0) in
  (forall get s0,
      get = XInputGetState \/ get = XInputGetStateEx ->
      fst (fst (get w' 0 (Some s0))) = ERROR_SUCCESS /\
      snd (get w' 0 (Some s0)) =
      Some (mkState 1
              (mkGamepad (Z.lor XINPUT_GAMEPAD_A XINPUT_GAMEPAD_DPAD_DOWN)
                         0 0 0 (-30000) 0 0))) /\
  (forall c buffer,
      connected c = true -> accepted c buffer ->
      let g := Gamepad (state (controller_read_frame c buffer)) in
      sThumbLX g = short_at buffer 9 /\
      sThumbRX g = short_at buffer 13 /\
      (short_at buffer 11 <> -32768 -> sThumbLY g = - short_at buffer 11) /\
      (short_at buffer 15 <> -32768 -> sThumbRY g = - short_at buffer 15)).
Proof.
  intros Hr Ht Hc Hid Hst w'. split.
  - assert (Hc' : controller w' =
                  set_state (controller w)
                    (mkState 1
                       (mkGamepad
                          (Z.lor XINPUT_GAMEPAD_A XINPUT_GAMEPAD_DPAD_DOWN)
                          0 0 0 (-30000) 0 0))).
    { unfold w', controller_read_thread_iter. rewrite Ht.
      rewrite controller_set_controller.
      rewrite controller_read_frame_accepted;
        [| exact Hc | repeat split; rewrite ?Hid; vm_compute; reflexivity].
      rewrite Hst. vm_compute (to_DWORD _). vm_compute (decoded_pad _).
      reflexivity. }
    assert (Hm : 0 <= xinput_min_index w' <= 3).
    { apply reachable_invariant. apply (reach_step w (Recv _)), Hr. }
    assert (Hle : (0 <=? xinput_min_index w') = true) by (apply Z.leb_le; lia).
    intros get s0 [-> | ->].
    + unfold XInputGetState. rewrite xinput_get_state_eq by lia.
      rewrite Hle, Hc'. simpl. rewrite Hc. simpl. split; reflexivity.
    + unfold XInputGetStateEx. rewrite xinput_get_state_eq by lia.
      rewrite Hle, Hc'. simpl. rewrite Hc. simpl. split; reflexivity.
  - intros c buffer Hc1 Hacc g. subst g.
    rewrite controller_read_frame_accepted by assumption. simpl.
    pose proof (short_at_range buffer 9). pose proof (short_at_range buffer 11).
    pose proof (short_at_range buffer 13). pose proof (short_at_range buffer 15).
    repeat split; intros; apply to_SHORT_small; lia.
Qed.

(** The scenario run from the initial globals. *)
Lemma C4_state_update_scenario_witness :
  let w := run world0 [Enable true; Recv (Provider.get_gamepad_reply 42)] in
  let w' := controller_read_thread_iter w
              (Provider.gamepad_state 1 42 0x0001 4 0 30000 0 0) in
  fst (fst (XInputGetState w' 0 (Some zero_state))) = ERROR_SUCCESS /\
  snd (XInputGetState w' 0 (Some zero_state)) =
  Some (mkState 1 (mkGamepad 0x1002 0 0 0 (-30000) 0 0)).
Proof.
  intros w w'.
  assert (Hr : reachable w) by (apply reachable_run; constructor).
  assert (Ht : thread_running w = true) by (vm_compute; reflexivity).
  assert (Hc : connected (controller w) = true) by (vm_compute; reflexivity).
  assert (Hid : id (controller w) = 42) by (vm_compute; reflexivity).
  assert (Hs : state (controller w) = zero_state) by (vm_compute; reflexivity).
  destruct (C4_state_update_scenario w Hr Ht Hc Hid Hs) as [Hget _].
  exact (Hget XInputGetState zero_state (or_introl eq_refl)).
Defined.

Lemma accepted_frames_run frames : forall c,
  connected c = true -> Forall (accepted c) frames ->
  let c' := fold_left controller_read_frame frames c in
  connected c' = true /\ id c' = id c /\
  packet_number c' =
  (packet_number c + Z.of_nat (length frames)) mod 2 ^ 32
  \/ frames = [] /\ c' = c.
Proof.
  induction frames as [| b frames IH]; intros c Hc Hall; [right; now split|].
  left. inversion Hall as [| ? ? Hb Hrest]; subst. simpl fold_left.
  rewrite controller_read_frame_accepted by assumption.
  set (c1 := set_state c _).
  assert (Hc1 : connected c1 = true) by exact Hc.
  assert (Hrest1 : Forall (accepted c1) frames) by exact Hrest.
  destruct (IH c1 Hc1 Hrest1) as [(H1 & H2 & H3) | [-> ->]].
  - split; [exact H1|]. split; [exact H2|]. rewrite H3.
    unfold c1, packet_number. simpl dwPacketNumber.
    unfold to_DWORD, to_unsigned. rewrite Z.add_mod_idemp_l by discriminate.
    f_equal. simpl length. lia.
  - split; [exact Hc1|]. split; [reflexivity|]. reflexivity.
Qed.

Lemma firstn_snoc {A} (l : list A) : forall k, (k < length l)%nat ->
  exists x, In x l /\ firstn (S k) l = firstn k l ++ [x].
Proof.
  induction l as [| a l IH]; intros k Hk; simpl in Hk; [lia|].
  destruct k as [| k].
  - exists a. split; [now left | reflexivity].
  - destruct (IH k ltac:(lia)) as (x & Hin & E).
    exists x. split; [now right|]. change (firstn (S (S k)) (a :: l))
      with (a :: firstn (S k) l). rewrite E. reflexivity.
Qed.

Lemma Forall_firstn {A} (P : A -> Prop) (l : list A) k :
  Forall P l -> Forall P (firstn k l).
Proof.
  intros H. rewrite <- (firstn_skipn k l) in H.
  now apply Forall_app in H.
Qed.

Lemma successor_mod_neq p : (p + 1) mod 2 ^ 32 <> p.
Proof.
  intros E.
  pose proof (Z.mod_pos_bound (p + 1) (2 ^ 32) eq_refl) as Hb.
  rewrite E in Hb.
  destruct (Z.eq_dec p (2 ^ 32 - 1)) as [-> | Hne]; [discriminate E|].
  rewrite Z.mod_small in E by lia. lia.
Qed.

(** C7: along any sequence of accepted GAMEPAD_STATE frames the controller
    stays connected and each frame replaces the packet number [p] by
    [(p + 1) mod 2^32]: it always changes, it is larger than before unless
    the counter wraps at 2^32 - 1, and after [k] frames it is the initial
    number plus [k], modulo 2^32. *)
Theorem C7_packet_number_increments c frames k :
  connected c = true -> Forall (accepted c) frames ->
  (k < length frames)%nat ->
  let before := after_frames c frames k in
  let after := after_frames c frames (S k) in
  connected after = true /\
  packet_number after = (packet_number before + 1) mod 2 ^ 32 /\
  packet_number after <> packet_number before /\
  (packet_number before < 2 ^ 32 - 1 ->
   packet_number before < packet_number after /\
   (0 <= packet_number before ->
    packet_number after = packet_number before + 1)) /\
  packet_number after = (packet_number c + Z.of_nat (S k)) mod 2 ^ 32.
Proof.
  intros Hc Hall Hk before after.
  destruct (firstn_snoc frames k Hk) as (x & Hin & E).
  assert (Hpre : Forall (accepted c) (firstn k frames))
    by now apply Forall_firstn.
  assert (Hb : connected before = true /\ id before = id c).
  { destruct (accepted_frames_run _ c Hc Hpre) as [(H1 & H2 & _) | [_ H]].
    - now split.
    - unfold before, after_frames. rewrite H. now split. }
  destruct Hb as [Hcb Hidb].
  assert (Hx : accepted before x).
  { pose proof (proj1 (Forall_forall _ _) Hall x Hin) as (H9 & H1 & Hid).
    repeat split; auto. now rewrite Hidb. }
  assert (Hafter : after = controller_read_frame before x).
  { unfold after, before, after_frames. rewrite E, fold_left_app. reflexivity. }
  assert (Hpn : packet_number after = (packet_number before + 1) mod 2 ^ 32).
  { rewrite Hafter, controller_read_frame_accepted by assumption. reflexivity. }
  split; [rewrite Hafter, controller_read_frame_accepted by assumption; exact Hcb|].
  split; [exact Hpn|].
  split; [rewrite Hpn; apply successor_mod_neq|].
  split.
  - intros Hlt. rewrite Hpn.
    pose proof (Z.mod_pos_bound (packet_number before + 1) (2 ^ 32) eq_refl).
    destruct (Z.le_gt_cases 0 (packet_number before)) as [Hnn | Hneg].
    + rewrite Z.mod_small by lia. split; [lia | reflexivity].
    + split; lia.
  - assert (Hall' : Forall (accepted c) (firstn (S k) frames))
      by now apply Forall_firstn.
    destruct (accepted_frames_run _ c Hc Hall') as [(_ & _ & H3) | [H _]].
    + unfold after, after_frames. rewrite H3. f_equal. f_equal.
      rewrite length_firstn. lia.
    + rewrite E in H. destruct (firstn k frames); discriminate H.
Qed.

(** Two accepted frames after the handshake: packet numbers 1 and 2. *)
Lemma C7_packet_number_increments_witness :
  let c := controller_read_frame controller0 (Provider.get_gamepad_reply 42) in
  let frames := [Provider.gamepad_state 1 42 1 4 0 30000 0 0;
                 Provider.gamepad_state 1 42 2 8 0 0 0 0] in
  packet_number (after_frames c frames 1) = 1 /\
  packet_number (after_frames c frames 2) = 2.
Proof.
  intros c frames.
  assert (Hall : Forall (accepted c) frames)
    by (repeat constructor; vm_compute; reflexivity).
  destruct (C7_packet_number_increments c frames 1 eq_refl Hall
              ltac:(simpl; lia)) as (_ & _ & _ & _ & H).
  split; [vm_compute; reflexivity | exact H].
Defined.

(** ** Button keystrokes *)

Lemma land_pow2 x b :
  0 <= b -> Z.land x (2 ^ b) = if Z.testbit x b then 2 ^ b else 0.
Proof.
  intros Hb. apply Z.bits_inj'. intros n Hn.
  rewrite Z.land_spec, Z.pow2_bits_eqb by assumption.
  destruct (Z.eqb_spec b n) as [-> | Hne].
  - rewrite andb_true_r. destruct (Z.testbit x n) eqn:E.
    + now rewrite Z.pow2_bits_true.
    + now rewrite Z.bits_0.
  - rewrite andb_false_r. destruct (Z.testbit x b).
    + now rewrite Z.pow2_bits_false.
    + now rewrite Z.bits_0.
Qed.

Lemma pow2_nonzero b : 0 <= b -> 2 ^ b <> 0.
Proof. intros Hb. pose proof (Z.pow_pos_nonneg 2 b ltac:(lia) Hb). lia. Qed.

Lemma truthy_land_pow2 x b : 0 <= b -> truthy (Z.land x (2 ^ b)) = Z.testbit x b.
Proof.
  intros Hb. rewrite land_pow2 by assumption. unfold truthy.
  destruct (Z.testbit x b); [|reflexivity].
  apply negb_true_iff, Z.eqb_neq, pow2_nonzero, Hb.
Qed.

Lemma button_changed_pow2 cur_w last_w b :
  0 <= b ->
  button_changed cur_w last_w (2 ^ b) = xorb (Z.testbit cur_w b) (Z.testbit last_w b).
Proof.
  intros Hb. unfold button_changed, truthy. rewrite !land_pow2 by assumption.
  pose proof (pow2_nonzero b Hb) as Hnz.
  destruct (Z.testbit cur_w b), (Z.testbit last_w b); simpl.
  - now rewrite Z.lxor_nilpotent.
  - rewrite ?Z.lxor_0_r. now apply negb_true_iff, Z.eqb_neq.
  - rewrite ?Z.lxor_0_l. now apply negb_true_iff, Z.eqb_neq.
  - reflexivity.
Qed.

Lemma word_high_bits x n : 0 <= x < 2 ^ 16 -> 16 <= n -> Z.testbit x n = false.
Proof.
  intros Hx Hn. rewrite <- (Z.mod_small x (2 ^ 16)) by assumption.
  apply Z.mod_pow2_bits_high. lia.
Qed.

(** The write-back of the button loop flips exactly the bit under a
    one-bit mask whose button changed. *)
Lemma write_back_flips_bit cur_w last_w b :
  0 <= b < 16 -> 0 <= last_w < 2 ^ 16 ->
  button_changed cur_w last_w (2 ^ b) = true ->
  (if truthy (Z.land cur_w (2 ^ b))
   then to_WORD (Z.lor last_w (2 ^ b))
   else to_WORD (Z.land last_w (Z.lnot (2 ^ b)))) = Z.lxor last_w (2 ^ b).
Proof.
  intros Hb Hl Hch.
  rewrite button_changed_pow2 in Hch by lia.
  rewrite truthy_land_pow2 by lia.
  unfold to_WORD, to_unsigned.
  assert (Hhigh : forall n, 16 <= n ->
             Z.testbit (Z.lxor last_w (2 ^ b)) n = false).
  { intros n Hn. rewrite Z.lxor_spec, Z.pow2_bits_eqb by lia.
    rewrite (word_high_bits last_w n) by assumption.
    destruct (Z.eqb_spec b n); [lia | reflexivity]. }
  apply Z.bits_inj'. intros n Hn.
  destruct (Z.ltb_spec n 16) as [Hlt | Hge].
  - destruct (Z.testbit cur_w b) eqn:Ec; simpl in Hch;
      rewrite Z.mod_pow2_bits_low by lia;
      rewrite ?Z.lor_spec, ?Z.land_spec, ?Z.lnot_spec, Z.lxor_spec by assumption;
      rewrite Z.pow2_bits_eqb by lia;
      destruct (Z.eqb_spec b n) as [-> | Hne]; simpl;
      try (apply negb_true_iff in Hch); rewrite ?Hch;
      destruct (Z.testbit last_w n); try reflexivity; discriminate.
  - rewrite Hhigh by assumption.
    destruct (Z.testbit cur_w b); apply Z.mod_pow2_bits_high; lia.
Qed.

(** The table entries: one-bit masks within the button word, none of them
    the GUIDE bit, with virtual keys that fit a WORD. *)
Lemma buttons_entries mask vk :
  In (mask, vk) buttons ->
  (exists b, 0 <= b < 16 /\ mask = 2 ^ b /\ b <> 10) /\ to_WORD vk = vk.
Proof.
  unfold buttons. simpl. intros H.
  repeat (destruct H as [H | H];
          [injection H as <- <-; split; [|reflexivity];
           match goal with
           | |- exists b, _ /\ ?m = _ /\ _ => exists (Z.log2 m)
           end; cbv; repeat split; try discriminate; reflexivity |]).
  contradiction.
Qed.

Lemma check_buttons_first tbl : forall pre mask vk post c,
  tbl = pre ++ (mask, vk) :: post ->
  let cur_w := wButtons (Gamepad (state c)) in
  let last := last_keystroke c in
  Forall (fun e => button_changed cur_w (wButtons last) (fst e) = false) pre ->
  button_changed cur_w (wButtons last) mask = true ->
  check_buttons tbl c =
  Some (set_last_keystroke c
          (set_wButtons last
             (if truthy (Z.land cur_w mask)
              then to_WORD (Z.lor (wButtons last) mask)
              else to_WORD (Z.land (wButtons last) (Z.lnot mask)))),
        keystroke_event vk
          (if truthy (Z.land cur_w mask)
           then XINPUT_KEYSTROKE_KEYDOWN else XINPUT_KEYSTROKE_KEYUP)).
Proof.
  intros pre. revert tbl.
  induction pre as [| [m v] pre IH]; intros tbl mask vk post c -> cur_w last Hpre Hch.
  - simpl. fold cur_w last. rewrite Hch. now destruct (truthy _).
  - inversion Hpre as [| ? ? Hm Hrest]; subst. simpl in Hm.
    simpl. fold cur_w last. rewrite Hm.
    now apply (IH _ mask vk post c eq_refl).
Qed.

Lemma check_buttons_none tbl c :
  Forall (fun e => button_changed (wButtons (Gamepad (state c)))
                     (wButtons (last_keystroke c)) (fst e) = false) tbl ->
  check_buttons tbl c = None.
Proof.
  induction 1 as [| [m v] tbl Hm _ IH]; [reflexivity|].
  simpl in *. now rewrite Hm.
Qed.

Lemma check_joystick_keystroke_same k x y base_vk :
  check_joystick_keystroke k x y x y base_vk = (ERROR_EMPTY, k, (x, y)).
Proof. unfold check_joystick_keystroke. now rewrite Z.eqb_refl. Qed.

Lemma guide_not_in_table last_w :
  Forall (fun e => button_changed (Z.lxor last_w XINPUT_GAMEPAD_GUIDE) last_w
                     (fst e) = false) buttons.
Proof.
  apply Forall_forall. intros [mask vk] Hin.
  destruct (buttons_entries mask vk Hin) as [(b & Hb & -> & Hne) _].
  simpl. rewrite button_changed_pow2, Z.lxor_spec by lia.
  change XINPUT_GAMEPAD_GUIDE with (2 ^ 10).
  rewrite Z.pow2_bits_eqb by lia.
  destruct (Z.eqb_spec 10 b) as [<- | _]; [contradiction|].
  rewrite xorb_false_r. apply xorb_nilpotent.
Qed.

(** C6: the button loop visits DPAD_UP, DPAD_DOWN, DPAD_LEFT, DPAD_RIGHT,
    START, BACK, L3, R3, L1, R1, A, B, X, Y in this order; for the first
    entry whose bit differs between the current and the last-delivered
    button word the synthesizer returns SUCCESS with one event for that
    entry's virtual key, KEYDOWN if the bit is now set and KEYUP if it is
    now clear, and flips exactly that bit of the remembered button word,
    leaving every other remembered field alone; a change of the GUIDE bit
    alone yields no event. The remembered snapshot read back from the
    controller the synthesizer returns has the entry's bit equal to the
    current one and every other bit, the triggers and the axes as they
    were remembered; the rest of the controller is untouched. *)
Theorem C6_first_changed_button c keystroke pre mask vk post :
  let cur_w := wButtons (Gamepad (state c)) in
  let last := last_keystroke c in
  buttons = pre ++ (mask, vk) :: post ->
  Forall (fun e => button_changed cur_w (wButtons last) (fst e) = false) pre ->
  button_changed cur_w (wButtons last) mask = true ->
  0 <= wButtons last < 2 ^ 16 ->
  map fst buttons =
    [XINPUT_GAMEPAD_DPAD_UP; XINPUT_GAMEPAD_DPAD_DOWN;
     XINPUT_GAMEPAD_DPAD_LEFT; XINPUT_GAMEPAD_DPAD_RIGHT;
     XINPUT_GAMEPAD_START; XINPUT_GAMEPAD_BACK;
     XINPUT_GAMEPAD_LEFT_THUMB; XINPUT_GAMEPAD_RIGHT_THUMB;
     XINPUT_GAMEPAD_LEFT_SHOULDER; XINPUT_GAMEPAD_RIGHT_SHOULDER;
     XINPUT_GAMEPAD_A; XINPUT_GAMEPAD_B; XINPUT_GAMEPAD_X; XINPUT_GAMEPAD_Y] /\
  check_for_keystroke c keystroke =
    (ERROR_SUCCESS,
     set_last_keystroke c (set_wButtons last (Z.lxor (wButtons last) mask)),
     mkKeystroke vk 0
       (if truthy (Z.land cur_w mask)
        then XINPUT_KEYSTROKE_KEYDOWN else XINPUT_KEYSTROKE_KEYUP) 0 0) /\
  Z.land (Z.lxor (wButtons last) mask) mask = Z.land cur_w mask /\
  Forall (fun e => Z.land (fst e) XINPUT_GAMEPAD_GUIDE = 0) buttons /\
  (forall c' k',
      Gamepad (state c') =
      set_wButtons (last_keystroke c')
        (Z.lxor (wButtons (last_keystroke c')) XINPUT_GAMEPAD_GUIDE) ->
      fst (fst (check_for_keystroke c' k')) = ERROR_EMPTY /\
      snd (check_for_keystroke c' k') = k' /\
      last_keystroke (snd (fst (check_for_keystroke c' k'))) = last_keystroke c') /\
  (let c' := snd (fst (check_for_keystroke c keystroke)) in
   let last' := last_keystroke c' in
   wButtons last' = Z.lxor (wButtons last) mask /\
   wButtons last' <> wButtons last /\
   (forall n, 0 <= n ->
      Z.testbit (wButtons last') n =
      if Z.testbit mask n then Z.testbit cur_w n
      else Z.testbit (wButtons last) n) /\
   bLeftTrigger last' = bLeftTrigger last /\
   bRightTrigger last' = bRightTrigger last /\
   sThumbLX last' = sThumbLX last /\ sThumbLY last' = sThumbLY last /\
   sThumbRX last' = sThumbRX last /\ sThumbRY last' = sThumbRY last /\
   caps c' = caps c /\ state c' = state c /\ enabled c' = enabled c /\
   connected c' = connected c /\ id c' = id c).
Proof.
  intros cur_w last Htbl Hpre Hch Hl.
  assert (Hin : In (mask, vk) buttons)
    by (rewrite Htbl; apply in_elt).
  destruct (buttons_entries mask vk Hin) as [(b & Hb & -> & _) Hvk].
  assert (Heq : check_for_keystroke c keystroke =
    (ERROR_SUCCESS,
     set_last_keystroke c (set_wButtons last (Z.lxor (wButtons last) (2 ^ b))),
     mkKeystroke vk 0
       (if truthy (Z.land cur_w (2 ^ b))
        then XINPUT_KEYSTROKE_KEYDOWN else XINPUT_KEYSTROKE_KEYUP) 0 0)).
  { unfold check_for_keystroke.
    rewrite (check_buttons_first buttons pre (2 ^ b) vk post c Htbl Hpre Hch).
    fold cur_w last. rewrite write_back_flips_bit by assumption.
    unfold keystroke_event. rewrite Hvk. now destruct (truthy _). }
  assert (Hbits : forall n, 0 <= n ->
            Z.testbit (Z.lxor (wButtons last) (2 ^ b)) n =
            if Z.testbit (2 ^ b) n then Z.testbit cur_w n
            else Z.testbit (wButtons last) n).
  { intros n Hn. rewrite button_changed_pow2 in Hch by lia.
    rewrite Z.lxor_spec, Z.pow2_bits_eqb by lia.
    destruct (Z.eqb_spec b n) as [<- | _]; [|apply xorb_false_r].
    destruct (Z.testbit cur_w b), (Z.testbit (wButtons last) b);
      try discriminate Hch; reflexivity. }
  split; [reflexivity|]. split; [exact Heq|]. split; [|split; [|split]].
  - rewrite button_changed_pow2 in Hch by lia.
    rewrite !land_pow2, Z.lxor_spec, Z.pow2_bits_true by lia.
    destruct (Z.testbit cur_w b), (Z.testbit (wButtons last) b);
      try discriminate Hch; reflexivity.
  - repeat constructor.
  - intros c' k' Hg. unfold check_for_keystroke.
    rewrite check_buttons_none
      by (rewrite Hg; exact (guide_not_in_table (wButtons (last_keystroke c')))).
    rewrite Hg. cbn [bLeftTrigger bRightTrigger sThumbLX sThumbLY sThumbRX
                     sThumbRY set_wButtons].
    rewrite !xorb_nilpotent. unfold check_joysticks. rewrite Hg.
    cbn [bLeftTrigger bRightTrigger sThumbLX sThumbLY sThumbRX
                     sThumbRY set_wButtons].
    rewrite check_joystick_keystroke_same.
    cbn [Z.eqb ERROR_EMPTY ERROR_SUCCESS sThumbRX sThumbRY set_sThumbL].
    rewrite check_joystick_keystroke_same. cbn.
    repeat split. now destruct (last_keystroke c').
  - rewrite Heq.
    cbn [fst snd last_keystroke set_last_keystroke wButtons set_wButtons
         bLeftTrigger bRightTrigger sThumbLX sThumbLY sThumbRX sThumbRY
         caps state enabled connected id].
    split; [reflexivity|]. split; [|split; [exact Hbits|]].
    + intros Hsame.
      pose proof (Hbits b ltac:(lia)) as Hbit.
      rewrite Hsame, Z.pow2_bits_true in Hbit by lia.
      rewrite button_changed_pow2 in Hch by lia.
      rewrite Hbit in Hch. now rewrite xorb_nilpotent in Hch.
    + repeat split; reflexivity.
Qed.

(** B and START pressed together: START comes first in the table, and the
    remembered snapshot read back afterwards holds START alone. *)
Lemma C6_first_changed_button_witness :
  let c := set_state controller0
             (mkState 1 (mkGamepad (Z.lor XINPUT_GAMEPAD_B XINPUT_GAMEPAD_START)
                                   0 0 0 0 0 0)) in
  let r := check_for_keystroke c (mkKeystroke 0 0 0 0 0) in
  r =
  (ERROR_SUCCESS,
   set_last_keystroke c (mkGamepad XINPUT_GAMEPAD_START 0 0 0 0 0 0),
   mkKeystroke VK_PAD_START 0 XINPUT_KEYSTROKE_KEYDOWN 0 0) /\
  wButtons (last_keystroke (snd (fst r))) = XINPUT_GAMEPAD_START /\
  wButtons (last_keystroke (snd (fst r))) <> wButtons (last_keystroke c) /\
  Z.testbit (wButtons (last_keystroke (snd (fst r)))) 4 = true /\
  Z.testbit (wButtons (last_keystroke (snd (fst r)))) 13 = false /\
  state (snd (fst r)) = state c.
Proof.
  intros c r.
  destruct (C6_first_changed_button c (mkKeystroke 0 0 0 0 0)
              (firstn 4 buttons) XINPUT_GAMEPAD_START VK_PAD_START
              (skipn 5 buttons) eq_refl
              ltac:(repeat constructor) eq_refl
              ltac:(split; [discriminate | reflexivity]))
    as (_ & H & _ & _ & _ & Hw & Hne & Hbits & _ & _ & _ & _ & _ & _
        & _ & Hst & _).
  split; [exact H|]. split; [exact Hw|]. split; [exact Hne|].
  split; [exact (Hbits 4 ltac:(lia))|].
  split; [exact (Hbits 13 ltac:(lia)) | exact Hst].
Defined.

(** ** Stick keystrokes *)

Lemma joystick_state_cases v :
  joystick_state v = JS_STATE_OFF \/ joystick_state v = JS_STATE_LOW
  \/ joystick_state v = JS_STATE_HIGH.
Proof.
  unfold joystick_state.
  destruct (v >? 20000); [auto|]. destruct (v <? -20000); auto.
Qed.

(** The stick stage on a transition between two distinct directions: KEYUP
    of the old one with the remembered axes reset, then, from the reset
    axes, KEYDOWN of the new one. *)
Lemma joystick_transition s cur last k0 :
  direction last <> no_direction -> direction cur <> no_direction ->
  direction last <> direction cur ->
  check_joystick_keystroke k0 (fst cur) (snd cur) (fst last) (snd last)
    (stick_base_vk s) =
  (ERROR_SUCCESS,
   mkKeystroke (direction_vk s (direction last)) 0 XINPUT_KEYSTROKE_KEYUP 0 0,
   (0, 0)) /\
  forall k1,
    check_joystick_keystroke k1 (fst cur) (snd cur) 0 0 (stick_base_vk s) =
    (ERROR_SUCCESS,
     mkKeystroke (direction_vk s (direction cur)) 0 XINPUT_KEYSTROKE_KEYDOWN 0 0,
     cur).
Proof.
  destruct cur as [cx cy], last as [lx ly].
  unfold direction, no_direction, direction_vk, check_joystick_keystroke,
    joystick_vk. cbn [fst snd].
  change (joystick_state 0) with JS_STATE_OFF.
  destruct (joystick_state_cases cx) as [-> | [-> | ->]];
    destruct (joystick_state_cases cy) as [-> | [-> | ->]];
    destruct (joystick_state_cases lx) as [-> | [-> | ->]];
    destruct (joystick_state_cases ly) as [-> | [-> | ->]];
    intros Ha Hb Hab; try (exfalso; congruence);
    destruct s; split; try intros k1; reflexivity.
Qed.

Lemma check_for_keystroke_in_sync c k :
  buttons_in_sync c -> triggers_in_sync c ->
  check_for_keystroke c k = check_joysticks c k.
Proof.
  intros Hb [Hl Hr]. unfold check_for_keystroke.
  rewrite check_buttons_none by exact Hb.
  now rewrite Hl, Hr, !xorb_nilpotent.
Qed.

Lemma check_joystick_keystroke_same_direction k cur last base_vk :
  direction last = direction cur ->
  check_joystick_keystroke k (fst cur) (snd cur) (fst last) (snd last) base_vk
  = (ERROR_EMPTY, k, cur).
Proof.
  destruct cur as [cx cy], last as [lx ly]. unfold direction. cbn [fst snd].
  intros [= Hx Hy]. unfold check_joystick_keystroke, joystick_vk.
  now rewrite Hx, Hy, Z.eqb_refl.
Qed.

(** Two polls of the stick stage across a change of direction of [s]. *)
Lemma check_joysticks_transition s c k0 :
  let cur := Gamepad (state c) in
  let a := direction (stick_axes s (last_keystroke c)) in
  let b := direction (stick_axes s cur) in
  a <> no_direction -> b <> no_direction -> a <> b ->
  earlier_stick_in_sync s c ->
  exists last1 last2,
    stick_axes s last1 = (0, 0) /\ stick_axes s last2 = stick_axes s cur /\
    wButtons last1 = wButtons (last_keystroke c) /\
    bLeftTrigger last1 = bLeftTrigger (last_keystroke c) /\
    bRightTrigger last1 = bRightTrigger (last_keystroke c) /\
    check_joysticks c k0 =
    (ERROR_SUCCESS, set_last_keystroke c last1,
     mkKeystroke (direction_vk s a) 0 XINPUT_KEYSTROKE_KEYUP 0 0) /\
    forall k1,
      check_joysticks (set_last_keystroke c last1) k1 =
      (ERROR_SUCCESS, set_last_keystroke c last2,
       mkKeystroke (direction_vk s b) 0 XINPUT_KEYSTROKE_KEYDOWN 0 0).
Proof.
  intros cur a b Ha Hb Hab Hsync.
  destruct (joystick_transition s (stick_axes s cur)
              (stick_axes s (last_keystroke c)) k0 Ha Hb Hab) as [H1 H2].
  destruct s; cbn [stick_axes fst snd stick_base_vk] in H1, H2.
  - exists (set_sThumbL (last_keystroke c) 0 0),
           (set_sThumbL (last_keystroke c) (sThumbLX cur) (sThumbLY cur)).
    repeat split.
    + unfold check_joysticks. fold cur. now rewrite H1.
    + intros k1. unfold check_joysticks.
      cbn [state last_keystroke set_last_keystroke set_sThumbL
           sThumbLX sThumbLY]. fold cur. now rewrite H2.
  - pose proof (fun k => check_joystick_keystroke_same_direction k
                  (stick_axes LeftStick cur)
                  (stick_axes LeftStick (last_keystroke c))
                  VK_PAD_LTHUMB_UP Hsync) as HL.
    cbn [stick_axes fst snd] in HL.
    exists (set_sThumbR (set_sThumbL (last_keystroke c)
                           (sThumbLX cur) (sThumbLY cur)) 0 0),
           (set_sThumbR (set_sThumbL (last_keystroke c)
                           (sThumbLX cur) (sThumbLY cur))
                        (sThumbRX cur) (sThumbRY cur)).
    repeat split.
    + unfold check_joysticks. fold cur. rewrite HL.
      cbn [Z.eqb ERROR_EMPTY ERROR_SUCCESS set_sThumbL sThumbRX sThumbRY].
      now rewrite H1.
    + intros k1. unfold check_joysticks.
      cbn [state last_keystroke set_last_keystroke set_sThumbL set_sThumbR
           sThumbLX sThumbLY sThumbRX sThumbRY]. fold cur.
      rewrite check_joystick_keystroke_same.
      cbn [Z.eqb ERROR_EMPTY ERROR_SUCCESS]. now rewrite H2.
Qed.

Lemma XInputGetKeystroke_connected w index reserved k :
  connected (controller w) = true -> index = 0 \/ index = XUSER_INDEX_ANY ->
  XInputGetKeystroke w index reserved k =
  let '(ret, c, k') := check_for_keystroke (controller w) k in
  (ret, set_controller w c, k').
Proof.
  intros Hc Hi. unfold XInputGetKeystroke, controller_is_connected.
  destruct Hi as [-> | ->]; simpl; rewrite Hc; reflexivity.
Qed.

Lemma direction_vk_injective s a b :
  a <> no_direction -> b <> no_direction -> a <> b ->
  (exists x y, a = direction (x, y)) -> (exists x y, b = direction (x, y)) ->
  direction_vk s a <> direction_vk s b.
Proof.
  intros Ha Hb Hab (ax & ay & ->) (bx & by_ & ->).
  revert Ha Hb Hab. unfold direction, no_direction, direction_vk. cbn [fst snd].
  destruct (joystick_state_cases ax) as [-> | [-> | ->]];
    destruct (joystick_state_cases ay) as [-> | [-> | ->]];
    destruct (joystick_state_cases bx) as [-> | [-> | ->]];
    destruct (joystick_state_cases by_) as [-> | [-> | ->]];
    intros Ha Hb Hab; try (exfalso; congruence);
    destruct s; discriminate.
Qed.

(** C5 (as amended): for every two positions of a stick whose
    quantizations are distinct non-null directions [a] (last delivered) and
    [b] (current), the stick stage gives exactly KEYUP of [a]'s virtual
    key, then KEYDOWN of [b]'s: it returns SUCCESS with KEYUP of [a] and
    resets the remembered axes to (0, 0), and from there returns SUCCESS
    with KEYDOWN of [b]; and two consecutive get_keystroke calls on
    snapshots holding these positions return just that pair provided
    nothing the synthesizer examines before this stick differs between
    the current and the last-delivered snapshot: no table button, no
    trigger on-state and, for the right stick, not the left stick's
    direction. *)
Theorem C5_stick_transition_keyup_then_keydown s cur last :
  let a := direction last in
  let b := direction cur in
  a <> no_direction -> b <> no_direction -> a <> b ->
  let keyup := mkKeystroke (direction_vk s a) 0 XINPUT_KEYSTROKE_KEYUP 0 0 in
  let keydown := mkKeystroke (direction_vk s b) 0 XINPUT_KEYSTROKE_KEYDOWN 0 0 in
  direction_vk s a <> direction_vk s b /\
  (forall k0,
      check_joystick_keystroke k0 (fst cur) (snd cur) (fst last) (snd last)
        (stick_base_vk s) = (ERROR_SUCCESS, keyup, (0, 0))) /\
  (forall k1,
      check_joystick_keystroke k1 (fst cur) (snd cur) 0 0 (stick_base_vk s)
      = (ERROR_SUCCESS, keydown, cur)) /\
  (forall w index reserved k0,
      let c := controller w in
      stick_axes s (Gamepad (state c)) = cur ->
      stick_axes s (last_keystroke c) = last ->
      connected c = true -> index = 0 \/ index = XUSER_INDEX_ANY ->
      buttons_in_sync c -> triggers_in_sync c -> earlier_stick_in_sync s c ->
      let p1 := XInputGetKeystroke w index reserved k0 in
      let w1 := snd (fst p1) in
      let p2 := XInputGetKeystroke w1 index reserved (snd p1) in
      let w2 := snd (fst p2) in
      fst (fst p1) = ERROR_SUCCESS /\ snd p1 = keyup /\
      stick_axes s (last_keystroke (controller w1)) = (0, 0) /\
      state (controller w1) = state c /\
      fst (fst p2) = ERROR_SUCCESS /\ snd p2 = keydown /\
      stick_axes s (last_keystroke (controller w2)) = cur).
Proof.
  intros a b Ha Hb Hab keyup keydown.
  split; [|split; [|split]].
  - apply direction_vk_injective; try assumption.
    + destruct last as [x y]. now exists x, y.
    + destruct cur as [x y]. now exists x, y.
  - intros k0. now destruct (joystick_transition s cur last k0 Ha Hb Hab).
  - intros k1.
    destruct (joystick_transition s cur last k1 Ha Hb Hab) as [_ H]. apply H.
  - intros w index reserved k0 c Hcur Hlast Hc Hi Hbtn [Htl Htr] Hearly
           p1 w1 p2 w2.
    subst cur last.
    destruct (check_joysticks_transition s c k0 Ha Hb Hab Hearly)
      as (last1 & last2 & Hl1 & Hl2 & Hw & Hlt & Hrt & E1 & E2).
    assert (Hp1 : p1 = (ERROR_SUCCESS,
                        set_controller w (set_last_keystroke c last1), keyup)).
    { unfold p1. rewrite XInputGetKeystroke_connected by assumption.
      fold c. rewrite check_for_keystroke_in_sync by (try split; assumption).
      now rewrite E1. }
    assert (Hp2 : p2 = (ERROR_SUCCESS,
                        set_controller w1 (set_last_keystroke c last2),
                        keydown)).
    { unfold p2. rewrite XInputGetKeystroke_connected;
        [| unfold w1; rewrite Hp1; exact Hc | exact Hi].
      assert (Hc1 : controller w1 = set_last_keystroke c last1)
        by (unfold w1; now rewrite Hp1).
      rewrite Hc1. rewrite check_for_keystroke_in_sync.
      - now rewrite E2.
      - unfold buttons_in_sync. cbn [state last_keystroke set_last_keystroke].
        rewrite Hw. exact Hbtn.
      - unfold triggers_in_sync. cbn [state last_keystroke set_last_keystroke].
        rewrite Hlt, Hrt. now split. }
    unfold w2. rewrite Hp2. unfold w1. rewrite Hp1. cbn [fst snd].
    repeat split; assumption.
Qed.

(** The stick rotation from UP (0, 25000) to RIGHT (25000, 0) of the left
    stick: KEYUP of VK_PAD_LTHUMB_UP, then KEYDOWN of VK_PAD_LTHUMB_RIGHT. *)
Lemma C5_stick_transition_keyup_then_keydown_witness :
  let pad x y := mkGamepad 0 0 0 x y 0 0 in
  let w := set_controller world0
             (mkController static_caps (mkState 2 (pad 25000 0))
                           (pad 0 25000) true true 42) in
  let p1 := XInputGetKeystroke w 0 0 (mkKeystroke 0 0 0 0 0) in
  let p2 := XInputGetKeystroke (snd (fst p1)) 0 0 (snd p1) in
  (fst (fst p1), snd p1) =
  (ERROR_SUCCESS, mkKeystroke 0x5820 0 XINPUT_KEYSTROKE_KEYUP 0 0) /\
  (fst (fst p2), snd p2) =
  (ERROR_SUCCESS, mkKeystroke 0x5822 0 XINPUT_KEYSTROKE_KEYDOWN 0 0).
Proof.
  intros pad w p1 p2.
  destruct (C5_stick_transition_keyup_then_keydown LeftStick
              (25000, 0) (0, 25000)
              ltac:(vm_compute; discriminate) ltac:(vm_compute; discriminate)
              ltac:(vm_compute; discriminate))
    as (_ & _ & _ & H).
  destruct (H w 0 0 (mkKeystroke 0 0 0 0 0) eq_refl eq_refl eq_refl
              (or_introl eq_refl) ltac:(repeat constructor)
              ltac:(split; reflexivity) I)
    as (H1 & H2 & _ & _ & H3 & H4 & _).
  split.
  - unfold p1. rewrite H1, H2. reflexivity.
  - unfold p2, p1. rewrite H3, H4. reflexivity.
Defined.

(** C5 (as stated) fails: the provider reports the left stick UP, the
    application polls the KEYDOWN of VK_PAD_LTHUMB_UP, and the provider
    then reports the stick RIGHT with A pressed. The last-delivered
    direction UP and the current direction RIGHT are distinct and non-null,
    but the two consecutive get_keystroke calls return KEYDOWN of VK_PAD_A
    and then KEYUP of VK_PAD_LTHUMB_UP, not KEYUP of VK_PAD_LTHUMB_UP and
    then KEYDOWN of VK_PAD_LTHUMB_RIGHT (VK_PAD_LTHUMB_UP + 2). *)
Lemma C5_pending_button_comes_first :
  let w := run world0
             [Enable true; Recv (Provider.get_gamepad_reply 42);
              Recv (Provider.gamepad_state 1 42 0 255 0 (-25000) 0 0);
              GetKeystroke 0 0 (mkKeystroke 0 0 0 0 0);
              Recv (Provider.gamepad_state 1 42 1 255 25000 0 0 0)] in
  let cur := stick_axes LeftStick (Gamepad (state (controller w))) in
  let last := stick_axes LeftStick (last_keystroke (controller w)) in
  let p1 := XInputGetKeystroke w 0 0 (mkKeystroke 0 0 0 0 0) in
  let p2 := XInputGetKeystroke (snd (fst p1)) 0 0 (snd p1) in
  last = (0, 25000) /\ cur = (25000, 0) /\
  direction last <> no_direction /\ direction cur <> no_direction /\
  direction last <> direction cur /\
  direction_vk LeftStick (direction last) = VK_PAD_LTHUMB_UP /\
  direction_vk LeftStick (direction cur) = VK_PAD_LTHUMB_UP + 2 /\
  (fst (fst p1), snd p1) =
  (ERROR_SUCCESS, mkKeystroke VK_PAD_A 0 XINPUT_KEYSTROKE_KEYDOWN 0 0) /\
  (fst (fst p2), snd p2) =
  (ERROR_SUCCESS, mkKeystroke VK_PAD_LTHUMB_UP 0 XINPUT_KEYSTROKE_KEYUP 0 0) /\
  snd p1 <> mkKeystroke (direction_vk LeftStick (direction last)) 0
              XINPUT_KEYSTROKE_KEYUP 0 0 /\
  snd p2 <> mkKeystroke (direction_vk LeftStick (direction cur)) 0
              XINPUT_KEYSTROKE_KEYDOWN 0 0.
Proof. vm_compute. repeat split; discriminate. Qed.

(** ** Decoding of state frames *)

Lemma to_WORD_land z : to_WORD z = Z.land z (Z.ones 16).
Proof. unfold to_WORD, to_unsigned. now rewrite Z.land_ones. Qed.

Lemma to_WORD_id z : 0 <= z < 2 ^ 16 -> to_WORD z = z.
Proof. intros H. unfold to_WORD, to_unsigned. now apply Z.mod_small. Qed.

Lemma to_WORD_range z : 0 <= to_WORD z < 2 ^ 16.
Proof. unfold to_WORD, to_unsigned. apply Z.mod_pos_bound. reflexivity. Qed.

Lemma to_WORD_lor a b : to_WORD (Z.lor a b) = Z.lor (to_WORD a) (to_WORD b).
Proof. rewrite !to_WORD_land. apply Z.land_lor_distr_l. Qed.

Lemma land_pick b f g : Z.land (pick b f) g = pick b (Z.land f g).
Proof. destruct b; [reflexivity | apply Z.land_0_l]. Qed.

Lemma pick_0 b : pick b 0 = 0.
Proof. now destruct b. Qed.

(** The button loop in closed form: the OR of the flags of the wire bits
    that are set. *)
Lemma decode_buttons_lor btns :
  decode_buttons btns 0 =
  fold_left (fun w e => Z.lor w (pick (Z.testbit btns (fst e)) (snd e)))
            button_wiring 0.
Proof.
  unfold decode_buttons. simpl map. cbn [fold_left button_wiring fst snd].
  change (Z.shiftl 1 0) with (2 ^ 0). change (Z.shiftl 1 1) with (2 ^ 1).
  change (Z.shiftl 1 2) with (2 ^ 2). change (Z.shiftl 1 3) with (2 ^ 3).
  change (Z.shiftl 1 4) with (2 ^ 4). change (Z.shiftl 1 5) with (2 ^ 5).
  change (Z.shiftl 1 6) with (2 ^ 6). change (Z.shiftl 1 7) with (2 ^ 7).
  change (Z.shiftl 1 8) with (2 ^ 8). change (Z.shiftl 1 9) with (2 ^ 9).
  rewrite !truthy_land_pow2 by lia.
  unfold IDX_BUTTON_A, IDX_BUTTON_B, IDX_BUTTON_X, IDX_BUTTON_Y, IDX_BUTTON_L1,
    IDX_BUTTON_R1, IDX_BUTTON_SELECT, IDX_BUTTON_START, IDX_BUTTON_L3, IDX_BUTTON_R3.
  destruct (Z.testbit btns 0), (Z.testbit btns 1), (Z.testbit btns 2),
    (Z.testbit btns 3), (Z.testbit btns 4), (Z.testbit btns 5),
    (Z.testbit btns 6), (Z.testbit btns 7), (Z.testbit btns 8),
    (Z.testbit btns 9); reflexivity.
Qed.

Ltac land_of_picks :=
  rewrite decode_buttons_lor; cbn [fold_left button_wiring fst snd];
  rewrite ?to_WORD_lor, ?Z.land_lor_distr_l, ?land_pick;
  repeat match goal with
         | |- context [pick ?b (Z.land ?f ?g)] =>
             let v := eval vm_compute in (Z.land f g) in
             change (Z.land f g) with v
         | |- context [to_WORD (pick ?b ?f)] =>
             replace (to_WORD (pick b f)) with (pick b f)
               by (now destruct b)
         end;
  rewrite ?pick_0, ?Z.lor_0_l, ?Z.lor_0_r.

Lemma decode_buttons_flags btns :
  let w := decode_buttons btns 0 in
  0 <= w < 2 ^ 16 /\
  Forall (fun e => Z.land w (snd e) = pick (Z.testbit btns (fst e)) (snd e))
         button_wiring /\
  Z.land w XINPUT_GAMEPAD_GUIDE = 0 /\ Z.land w 0x0800 = 0 /\
  Z.land w DPAD_MASK = 0.
Proof.
  intros w. subst w. split; [|split; [|split; [|split]]].
  - assert (E : to_WORD (decode_buttons btns 0) = decode_buttons btns 0).
    { rewrite decode_buttons_lor at 1. cbn [fold_left button_wiring fst snd].
      rewrite !to_WORD_lor.
      repeat match goal with
             | |- context [to_WORD (pick ?b ?f)] =>
                 replace (to_WORD (pick b f)) with (pick b f)
                   by (now destruct b)
             end.
      change (to_WORD 0) with 0.
      now rewrite decode_buttons_lor. }
    rewrite <- E. apply to_WORD_range.
  - repeat apply Forall_cons; [.. | apply Forall_nil]; cbn [fst snd];
      land_of_picks; reflexivity.
  - land_of_picks. reflexivity.
  - land_of_picks. reflexivity.
  - land_of_picks. reflexivity.
Qed.

(** The d-pad decode ORs a value-dependent subset of the d-pad flags into
    the button word. *)
Lemma decode_dpad_lor dpad w :
  0 <= w < 2 ^ 16 -> decode_dpad dpad w = Z.lor w (decode_dpad dpad 0).
Proof.
  intros Hw. unfold decode_dpad.
  repeat (match goal with
          | |- context [if ?d =? ?k then _ else _] => destruct (d =? k)
          end;
          [rewrite to_WORD_lor, (to_WORD_id w) by assumption; reflexivity|]).
  now rewrite Z.lor_0_r.
Qed.

Lemma decode_dpad_cases dpad :
  (dpad = 0 /\ decode_dpad dpad 0 = XINPUT_GAMEPAD_DPAD_UP) \/
  (dpad = 1 /\ decode_dpad dpad 0 =
               Z.lor XINPUT_GAMEPAD_DPAD_UP XINPUT_GAMEPAD_DPAD_RIGHT) \/
  (dpad = 2 /\ decode_dpad dpad 0 = XINPUT_GAMEPAD_DPAD_RIGHT) \/
  (dpad = 3 /\ decode_dpad dpad 0 =
               Z.lor XINPUT_GAMEPAD_DPAD_RIGHT XINPUT_GAMEPAD_DPAD_DOWN) \/
  (dpad = 4 /\ decode_dpad dpad 0 = XINPUT_GAMEPAD_DPAD_DOWN) \/
  (dpad = 5 /\ decode_dpad dpad 0 =
               Z.lor XINPUT_GAMEPAD_DPAD_DOWN XINPUT_GAMEPAD_DPAD_LEFT) \/
  (dpad = 6 /\ decode_dpad dpad 0 = XINPUT_GAMEPAD_DPAD_LEFT) \/
  (dpad = 7 /\ decode_dpad dpad 0 =
               Z.lor XINPUT_GAMEPAD_DPAD_LEFT XINPUT_GAMEPAD_DPAD_UP) \/
  ((dpad < 0 \/ 7 < dpad) /\ decode_dpad dpad 0 = 0).
Proof.
  unfold decode_dpad.
  destruct (Z.eqb_spec dpad 0); [left; now split|right].
  destruct (Z.eqb_spec dpad 1); [left; now split|right].
  destruct (Z.eqb_spec dpad 2); [left; now split|right].
  destruct (Z.eqb_spec dpad 3); [left; now split|right].
  destruct (Z.eqb_spec dpad 4); [left; now split|right].
  destruct (Z.eqb_spec dpad 5); [left; now split|right].
  destruct (Z.eqb_spec dpad 6); [left; now split|right].
  destruct (Z.eqb_spec dpad 7); [left; now split|right].
  split; [lia | reflexivity].
Qed.

(** The button word of a decoded pad. *)
Lemma decoded_pad_buttons buffer :
  let w := wButtons (decoded_pad buffer) in
  0 <= w < 2 ^ 16 /\
  Forall (fun e => Z.land w (snd e) =
                   pick (Z.testbit (short_at buffer 6) (fst e)) (snd e))
         button_wiring /\
  Z.land w XINPUT_GAMEPAD_GUIDE = 0 /\ Z.land w 0x0800 = 0 /\
  Z.land w DPAD_MASK = decode_dpad (char_at buffer 8) 0.
Proof.
  intros w. subst w. cbn [decoded_pad wButtons].
  destruct (decode_buttons_flags (short_at buffer 6))
    as (Hr & Hw & Hg & H11 & Hd).
  rewrite decode_dpad_lor by exact Hr.
  assert (Hdp : exists v, decode_dpad (char_at buffer 8) 0 = v /\
                          Z.land v DPAD_MASK = v /\ 0 <= v < 16 /\
                          Z.land v XINPUT_GAMEPAD_GUIDE = 0 /\
                          Z.land v 0x0800 = 0 /\
                          Forall (fun e => Z.land v (snd e) = 0) button_wiring).
  { destruct (decode_dpad_cases (char_at buffer 8))
      as [[_ ->]|[[_ ->]|[[_ ->]|[[_ ->]|[[_ ->]|[[_ ->]|[[_ ->]|[[_ ->]|[_ ->]]]]]]]]];
      eexists; (split; [reflexivity|]); cbv; repeat split; try discriminate;
      repeat constructor. }
  destruct Hdp as (v & -> & Hv1 & Hv2 & Hv3 & Hv4 & Hv5).
  split; [|split; [|split; [|split]]].
  - rewrite <- (to_WORD_id (decode_buttons (short_at buffer 6) 0)) by exact Hr.
    rewrite <- (to_WORD_id v)
      by (change (2 ^ 16) with 65536; lia).
    rewrite <- to_WORD_lor. apply to_WORD_range.
  - apply Forall_forall. intros e He.
    rewrite Z.land_lor_distr_l.
    rewrite (proj1 (Forall_forall _ _) Hw e He).
    rewrite (proj1 (Forall_forall _ _) Hv5 e He). apply Z.lor_0_r.
  - now rewrite Z.land_lor_distr_l, Hg, Hv3.
  - now rewrite Z.land_lor_distr_l, H11, Hv4.
  - now rewrite Z.land_lor_distr_l, Hd, Hv1.
Qed.

(** X1: an accepted state frame stores a button word in which every wire
    button bit 0..9 sets exactly its own flag, the GUIDE bit and bit 11
    are clear, and the d-pad flags are those the d-pad byte decodes to. *)
Theorem X1_wire_buttons_decoded c buffer :
  connected c = true -> accepted c buffer ->
  let w := wButtons (Gamepad (state (controller_read_frame c buffer))) in
  0 <= w < 2 ^ 16 /\
  Forall (fun e => Z.land w (snd e) =
                   pick (Z.testbit (short_at buffer 6) (fst e)) (snd e))
         button_wiring /\
  Z.land w XINPUT_GAMEPAD_GUIDE = 0 /\ Z.land w 0x0800 = 0 /\
  Z.land w DPAD_MASK = decode_dpad (char_at buffer 8) 0.
Proof.
  intros Hc Hacc w. subst w.
  rewrite controller_read_frame_accepted by assumption.
  exact (decoded_pad_buttons buffer).
Qed.

(** A frame with A, START and R2 held and the d-pad at Up+Right. *)
Lemma X1_wire_buttons_decoded_witness :
  let c := controller_read_frame controller0 (Provider.get_gamepad_reply 7) in
  let w := wButtons (Gamepad (state (controller_read_frame c
             (Provider.gamepad_state 1 7 0x0881 1 0 0 0 0)))) in
  Z.land w XINPUT_GAMEPAD_A = XINPUT_GAMEPAD_A /\
  Z.land w XINPUT_GAMEPAD_GUIDE = 0.
Proof.
  intros c w.
  destruct (X1_wire_buttons_decoded c
              (Provider.gamepad_state 1 7 0x0881 1 0 0 0 0) eq_refl
              ltac:(repeat split; vm_compute; reflexivity))
    as (_ & Hw & Hg & _).
  split; [|exact Hg].
  apply Forall_inv in Hw. exact Hw.
Defined.

(** X2: the d-pad byte decodes to a subset of the four d-pad flags that is
    empty exactly for values outside 0..7, differs for different values in
    0..7, and never holds two opposite directions. *)
Theorem X2_dpad_decode :
  (forall d, let v := decode_dpad d 0 in
             Z.land v DPAD_MASK = v /\
             (v = 0 <-> d < 0 \/ 7 < d) /\
             Z.land v (Z.lor XINPUT_GAMEPAD_DPAD_UP XINPUT_GAMEPAD_DPAD_DOWN)
             <> Z.lor XINPUT_GAMEPAD_DPAD_UP XINPUT_GAMEPAD_DPAD_DOWN /\
             Z.land v (Z.lor XINPUT_GAMEPAD_DPAD_LEFT XINPUT_GAMEPAD_DPAD_RIGHT)
             <> Z.lor XINPUT_GAMEPAD_DPAD_LEFT XINPUT_GAMEPAD_DPAD_RIGHT) /\
  (forall d1 d2, 0 <= d1 <= 7 -> 0 <= d2 <= 7 ->
                 decode_dpad d1 0 = decode_dpad d2 0 -> d1 = d2) /\
  (forall d w, 0 <= w < 2 ^ 16 ->
               Z.land (decode_dpad d w) (Z.lnot DPAD_MASK)
               = Z.land w (Z.lnot DPAD_MASK)).
Proof.
  split; [|split].
  - intros d v. subst v.
    destruct (decode_dpad_cases d)
      as [[-> ->]|[[-> ->]|[[-> ->]|[[-> ->]|[[-> ->]|[[-> ->]|[[-> ->]|[[-> ->]|[Hd ->]]]]]]]]];
      (split; [reflexivity|]); (split; [|split; discriminate]);
      split; try discriminate; try lia; intros _; auto.
  - intros d1 d2 H1 H2.
    destruct (decode_dpad_cases d1)
      as [[-> ->]|[[-> ->]|[[-> ->]|[[-> ->]|[[-> ->]|[[-> ->]|[[-> ->]|[[-> ->]|[Hd ->]]]]]]]]];
      destruct (decode_dpad_cases d2)
      as [[-> ->]|[[-> ->]|[[-> ->]|[[-> ->]|[[-> ->]|[[-> ->]|[[-> ->]|[[-> ->]|[Hd' ->]]]]]]]]];
      try lia; try reflexivity; discriminate.
  - intros d w Hw. rewrite decode_dpad_lor by exact Hw.
    rewrite Z.land_lor_distr_l.
    destruct (decode_dpad_cases d)
      as [[_ ->]|[[_ ->]|[[_ ->]|[[_ ->]|[[_ ->]|[[_ ->]|[[_ ->]|[[_ ->]|[_ ->]]]]]]]]];
      apply Z.lor_0_r.
Qed.

(** ** Reachable states and frame handling *)

Lemma to_SHORT_range z : -32768 <= to_SHORT z <= 32767.
Proof.
  pose proof (to_signed_range 16 z ltac:(lia)) as H.
  change (2 ^ (16 - 1)) with 32768 in H. unfold to_SHORT. lia.
Qed.

(** Triggers and axes of a decoded pad. *)
Lemma decoded_pad_triggers_axes buffer :
  let g := decoded_pad buffer in
  let btns := short_at buffer 6 in
  bLeftTrigger g = pick (Z.testbit btns IDX_BUTTON_L2) 255 /\
  bRightTrigger g = pick (Z.testbit btns IDX_BUTTON_R2) 255 /\
  trigger_is_on (bLeftTrigger g) = Z.testbit btns IDX_BUTTON_L2 /\
  trigger_is_on (bRightTrigger g) = Z.testbit btns IDX_BUTTON_R2 /\
  (short_at buffer 11 = -32768 -> sThumbLY g = -32768) /\
  (short_at buffer 15 = -32768 -> sThumbRY g = -32768) /\
  -32768 <= sThumbLX g <= 32767 /\ -32768 <= sThumbLY g <= 32767 /\
  -32768 <= sThumbRX g <= 32767 /\ -32768 <= sThumbRY g <= 32767.
Proof.
  intros g btns. subst g.
  cbn [decoded_pad bLeftTrigger bRightTrigger
       sThumbLX sThumbLY sThumbRX sThumbRY]. fold btns.
  change (Z.shiftl 1 10) with (2 ^ 10). change (Z.shiftl 1 11) with (2 ^ 11).
  rewrite !truthy_land_pow2 by lia.
  unfold IDX_BUTTON_L2, IDX_BUTTON_R2.
  repeat split; try apply to_SHORT_range;
    try (destruct (Z.testbit btns 10); reflexivity);
    try (destruct (Z.testbit btns 11); reflexivity);
    intros ->; reflexivity.
Qed.

(** X3: an accepted state frame stores binary triggers, 255 when wire bit
    10 (left) or 11 (right) is set and 0 otherwise, so a trigger is on
    exactly when its wire bit is set; and every stored axis is a SHORT,
    the vertical wire value -32768 being stored as -32768 (not negated). *)
Theorem X3_triggers_and_axis_sentinel c buffer :
  connected c = true -> accepted c buffer ->
  let g := Gamepad (state (controller_read_frame c buffer)) in
  let btns := short_at buffer 6 in
  bLeftTrigger g = pick (Z.testbit btns IDX_BUTTON_L2) 255 /\
  bRightTrigger g = pick (Z.testbit btns IDX_BUTTON_R2) 255 /\
  trigger_is_on (bLeftTrigger g) = Z.testbit btns IDX_BUTTON_L2 /\
  trigger_is_on (bRightTrigger g) = Z.testbit btns IDX_BUTTON_R2 /\
  (short_at buffer 11 = -32768 -> sThumbLY g = -32768) /\
  (short_at buffer 15 = -32768 -> sThumbRY g = -32768) /\
  -32768 <= sThumbLX g <= 32767 /\ -32768 <= sThumbLY g <= 32767 /\
  -32768 <= sThumbRX g <= 32767 /\ -32768 <= sThumbRY g <= 32767.
Proof.
  intros Hc Hacc g btns. subst g.
  rewrite controller_read_frame_accepted by assumption.
  exact (decoded_pad_triggers_axes buffer).
Qed.

(** Both triggers held, both sticks pushed to the wire minimum. *)
Lemma X3_triggers_and_axis_sentinel_witness :
  let c := controller_read_frame controller0 (Provider.get_gamepad_reply 7) in
  let g := Gamepad (state (controller_read_frame c
             (Provider.gamepad_state 1 7 0x0C00 8 0 (-32768) 0 (-32768)))) in
  (bLeftTrigger g, bRightTrigger g, sThumbLY g, sThumbRY g)
  = (255, 255, -32768, -32768).
Proof.
  intros c g.
  destruct (X3_triggers_and_axis_sentinel c
              (Provider.gamepad_state 1 7 0x0C00 8 0 (-32768) 0 (-32768))
              eq_refl ltac:(repeat split; vm_compute; reflexivity))
    as (H1 & H2 & _ & _ & H3 & H4 & _).
  fold g in H1, H2, H3, H4.
  rewrite H1, H2, (H3 ltac:(vm_compute; reflexivity)),
    (H4 ltac:(vm_compute; reflexivity)).
  reflexivity.
Defined.

(** Frames the worker drops: a GAMEPAD_STATE frame while disconnected, a
    GET_GAMEPAD reply with a negative id, and every other opcode. *)
Lemma controller_read_frame_ignored c buffer :
  (char_at buffer 0 = REQUEST_CODE_GET_GAMEPAD_STATE /\ connected c = false)
  \/ (char_at buffer 0 = REQUEST_CODE_GET_GAMEPAD /\ int_at buffer 1 < 0)
  \/ (char_at buffer 0 <> REQUEST_CODE_GET_GAMEPAD /\
      char_at buffer 0 <> REQUEST_CODE_GET_GAMEPAD_STATE) ->
  controller_read_frame c buffer = c.
Proof.
  unfold controller_read_frame.
  intros [[-> ->] | [[-> Hneg] | [H8 H9]]].
  - reflexivity.
  - simpl. destruct (Z.gtb_spec (int_at buffer 1) 0); [lia|].
    destruct (Z.eqb_spec (int_at buffer 1) 0); [lia | reflexivity].
  - apply Z.eqb_neq in H8, H9. now rewrite H8, H9.
Qed.

Lemma controller_read_frame_wellformed c buffer :
  pad_wellformed (state c) ->
  pad_wellformed (state (controller_read_frame c buffer)).
Proof.
  intros Hwf.
  assert (Hz : pad_wellformed zero_state)
    by (cbv; repeat split; try discriminate; auto).
  unfold controller_read_frame.
  destruct (char_at buffer 0 =? REQUEST_CODE_GET_GAMEPAD).
  - destruct (int_at buffer 1 >? 0).
    + destruct (connected c) eqn:Ec; simpl; rewrite Ec; simpl; assumption.
    + destruct (int_at buffer 1 =? 0); simpl; assumption.
  - destruct (Z.eqb_spec (char_at buffer 0) REQUEST_CODE_GET_GAMEPAD_STATE)
      as [H9|]; [|exact Hwf].
    destruct (connected c) eqn:Ec; [|exact Hwf]. simpl.
    unfold controller_update_state.
    destruct (Z.eqb_spec (char_at buffer 1) 1) as [H1|]; [|exact Hz].
    destruct (Z.eqb_spec (int_at buffer 2) (id c)) as [Hid|]; [|exact Hz].
    change (pad_wellformed
              (state (set_state c
                        (mkState (to_DWORD (dwPacketNumber (state c) + 1))
                                 (decoded_pad buffer))))).
    destruct (decoded_pad_buttons buffer) as (Hr & _ & Hg & _).
    destruct (decoded_pad_triggers_axes buffer)
      as (Hl & Hrt & _ & _ & _ & _ & Hx1 & Hx2 & Hx3 & Hx4).
    unfold pad_wellformed. cbn [state set_state Gamepad dwPacketNumber].
    split; [apply to_DWORD_range|]. split; [exact Hr|]. split; [exact Hg|].
    split; [rewrite Hl; destruct (Z.testbit _ IDX_BUTTON_L2); auto|].
    split; [rewrite Hrt; destruct (Z.testbit _ IDX_BUTTON_R2); auto|].
    repeat split; lia.
Qed.

(** What an event other than a received datagram can do to the
    controller: it keeps capabilities, pad and id, and never connects. *)
Lemma step_api_controller w e :
  is_recv e = false ->
  let c := controller w in
  let c' := controller (step w e) in
  caps c' = caps c /\ state c' = state c /\ id c' = id c /\
  (connected c' = true -> connected c = true).
Proof.
  intros Hr.
  assert (Hgs : forall index state_,
             controller (snd (fst (xinput_get_state w index state_)))
             = controller w).
  { intros index state_. unfold xinput_get_state.
    destruct state_; [|reflexivity].
    destruct (_ >=? _); simpl; [apply start_read_thread_controller|].
    destruct (_ <? _); destruct (negb _); simpl;
      apply start_read_thread_controller. }
  destruct e; try discriminate Hr; cbn [step].
  - simpl. repeat split; discriminate.
  - unfold XInputEnable.
    destruct (negb _); rewrite ?controller_set_controller;
      rewrite start_read_thread_controller; simpl; auto.
  - unfold XInputSetState.
    destruct (_ >=? _); [|destruct (negb _)]; simpl;
      rewrite start_read_thread_controller; auto.
  - rewrite XInputGetState_world, Hgs. auto.
  - unfold XInputGetStateEx. rewrite Hgs. auto.
  - unfold XInputGetKeystroke.
    destruct (_ && _); [simpl; auto|].
    destruct (negb _); [simpl; auto|].
    pose proof (check_for_keystroke_frame (controller w) keystroke) as H.
    destruct (check_for_keystroke (controller w) keystroke) as [[r c1] k1].
    simpl in *. rewrite H. auto.
  - unfold XInputGetCapabilitiesEx.
    destruct (_ >=? _); [|destruct (negb _); [|destruct (_ && _)]]; simpl;
      rewrite start_read_thread_controller; auto.
Qed.

Lemma controller_read_frame_id c buffer :
  0 <= id c -> (connected c = true -> 0 < id c) ->
  let c' := controller_read_frame c buffer in
  0 <= id c' /\ (connected c' = true -> 0 < id c').
Proof.
  intros H0 Hc. unfold controller_read_frame.
  destruct (char_at buffer 0 =? REQUEST_CODE_GET_GAMEPAD).
  - destruct (Z.gtb_spec (int_at buffer 1) 0).
    + destruct (connected c) eqn:Ec; simpl; rewrite Ec; simpl; split; lia.
    + destruct (int_at buffer 1 =? 0); simpl; [split; [lia|discriminate]|auto].
  - destruct (_ && _) eqn:E; [|auto].
    apply andb_prop in E as [_ Ec]. unfold controller_update_state.
    destruct (_ || _); simpl; [split; [lia | discriminate] | auto].
Qed.

Lemma step_thread_flags w e :
  (thread_running w = true -> init_once w = true) ->
  (thread_running (step w e) = true -> init_once (step w e) = true) /\
  (init_once w = true -> init_once (step w e) = true).
Proof.
  intros H.
  assert (Hs : (thread_running (start_read_thread w) = true ->
                init_once (start_read_thread w) = true) /\
               (init_once w = true -> init_once (start_read_thread w) = true)).
  { unfold start_read_thread. destruct (init_once w) eqn:E; simpl; auto. }
  assert (Hgs : forall index state_,
             let w' := snd (fst (xinput_get_state w index state_)) in
             (thread_running w' = true -> init_once w' = true) /\
             (init_once w = true -> init_once w' = true)).
  { intros index state_. unfold xinput_get_state.
    destruct state_; [|simpl; auto].
    destruct (_ >=? _); simpl; [exact Hs|].
    destruct (_ <? _); destruct (negb _); simpl; exact Hs. }
  destruct e; cbn [step].
  - unfold controller_read_thread_iter.
    destruct (thread_running w) eqn:Et; simpl; rewrite ?Et; auto.
  - simpl. split; [discriminate | auto].
  - unfold XInputEnable. destruct (negb _); simpl; exact Hs.
  - unfold XInputSetState.
    destruct (_ >=? _); [|destruct (negb _)]; simpl; exact Hs.
  - rewrite XInputGetState_world. apply Hgs.
  - apply Hgs.
  - unfold XInputGetKeystroke.
    destruct (_ && _); [simpl; auto|]. destruct (negb _); [simpl; auto|].
    destruct (check_for_keystroke _ _) as [[r c1] k1]. simpl. auto.
  - unfold XInputGetCapabilitiesEx.
    destruct (_ >=? _); [|destruct (negb _); [|destruct (_ && _)]]; simpl;
      exact Hs.
Qed.

Lemma reachable_wellformed w :
  reachable w ->
  pad_wellformed (state (controller w)) /\
  0 <= id (controller w) /\
  (connected (controller w) = true -> 0 < id (controller w)) /\
  (thread_running w = true -> init_once w = true).
Proof.
  induction 1 as [| w e Hr (Hp & H0 & Hc & Ht)].
  - split; [cbv; repeat split; try discriminate; auto|].
    split; [simpl; lia|]. split; discriminate.
  - split; [|split; [|split]]; [| | |apply step_thread_flags, Ht].
    + destruct e as [buffer| | | | | | |];
        [|match goal with
          | |- context [step w ?e] =>
              destruct (step_api_controller w e eq_refl) as (_ & -> & _)
          end; exact Hp ..].
      simpl. unfold controller_read_thread_iter.
      destruct (thread_running w); [|exact Hp].
      rewrite controller_set_controller.
      now apply controller_read_frame_wellformed.
    + destruct e as [buffer| | | | | | |];
        [|match goal with
          | |- context [step w ?e] =>
              destruct (step_api_controller w e eq_refl) as (_ & _ & -> & _)
          end; exact H0 ..].
      simpl. unfold controller_read_thread_iter.
      destruct (thread_running w); [|exact H0].
      rewrite controller_set_controller.
      now apply controller_read_frame_id.
    + destruct e as [buffer| | | | | | |];
        [|match goal with
          | |- context [step w ?e] =>
              destruct (step_api_controller w e eq_refl) as (_ & _ & -> & Hm)
          end; intros Hc'; auto ..].
      simpl. unfold controller_read_thread_iter.
      destruct (thread_running w); [|exact Hc].
      rewrite controller_set_controller.
      now apply controller_read_frame_id.
Qed.

(** X4: in every reachable state the stored pad sample is well formed
    (fields within their C types, GUIDE bit clear, triggers 0 or 255), the
    remote id is non-negative and positive while connected, and the worker
    runs only after the one-shot start gate has fired. *)
Theorem X4_reachable_state_wellformed w :
  reachable w ->
  pad_wellformed (state (controller w)) /\
  0 <= id (controller w) /\
  (connected (controller w) = true -> 0 < id (controller w)) /\
  (thread_running w = true -> init_once w = true).
Proof. exact (reachable_wellformed w). Qed.

Lemma X4_reachable_state_wellformed_witness :
  pad_wellformed
    (state (controller
              (run world0 [Enable true; Recv (Provider.get_gamepad_reply 42);
                           Recv (Provider.gamepad_state 1 42 0x0C3F 5 1 2 3 4)]))).
Proof.
  apply X4_reachable_state_wellformed. apply reachable_run. constructor.
Defined.

Lemma strip_guide_wellformed s : pad_wellformed s -> strip_guide s = s.
Proof.
  intros (_ & Hr & Hg & _). unfold strip_guide.
  destruct s as [pn g]. destruct g as [w lt rt lx ly rx ry].
  cbn [Gamepad wButtons dwPacketNumber set_wButtons bLeftTrigger bRightTrigger
       sThumbLX sThumbLY sThumbRX sThumbRY] in *.
  assert (E : Z.land w (Z.lnot XINPUT_GAMEPAD_GUIDE) = w).
  { apply Z.bits_inj'. intros n Hn.
    rewrite Z.land_spec, Z.lnot_spec by assumption.
    assert (Hb : Z.testbit (Z.land w XINPUT_GAMEPAD_GUIDE) n = false)
      by (rewrite Hg; apply Z.bits_0).
    rewrite Z.land_spec in Hb.
    destruct (Z.testbit w n), (Z.testbit XINPUT_GAMEPAD_GUIDE n);
      try reflexivity; discriminate. }
  rewrite E, to_WORD_id by assumption. reflexivity.
Qed.

(** X5: in every reachable state XInputGetState and XInputGetStateEx
    return the same code, globals and pad sample: the GUIDE bit that the
    plain variant strips is never set by the worker. *)
Theorem X5_get_state_variants_agree w index state_ :
  reachable w ->
  XInputGetState w index state_ = XInputGetStateEx w index state_.
Proof.
  intros Hr. unfold XInputGetState, XInputGetStateEx.
  destruct (xinput_get_state w index state_) as [[ret w1] o] eqn:E.
  destruct (Z.eqb_spec ret ERROR_SUCCESS) as [-> | _]; [|reflexivity].
  simpl. f_equal.
  unfold xinput_get_state in E. destruct state_ as [s0|]; [|discriminate E].
  destruct (_ >=? _); [discriminate E|].
  destruct (negb _); [discriminate E|].
  injection E as _ <-. simpl. f_equal. apply strip_guide_wellformed.
  match goal with |- context [controller ?x] =>
    assert (Hc : controller x = controller w)
      by (destruct (_ <? _); simpl; apply start_read_thread_controller)
  end.
  rewrite Hc. now apply reachable_wellformed.
Qed.

(** Every get_state pair agrees after some traffic. *)
Lemma X5_get_state_variants_agree_witness :
  let w := run world0 [Enable true; Recv (Provider.get_gamepad_reply 42);
                       Recv (Provider.gamepad_state 1 42 0x0C3F 5 1 2 3 4)] in
  XInputGetState w 0 (Some zero_state) = XInputGetStateEx w 0 (Some zero_state).
Proof.
  intros w. apply X5_get_state_variants_agree.
  apply reachable_run. constructor.
Defined.

(** X6: once the start gate has fired, so that no entry-point call waits
    for the worker any more, whatever event turns a disconnected controller
    into a connected one is the worker receiving a GET_GAMEPAD reply with a
    positive id; the controller it leaves is the one
    [controller_read_frame] computes: the static capabilities, the zero pad
    with packet number 0, the announced id and the enabled flag set, while
    the remembered keystroke pad is kept as it was. *)
Theorem X6_connect_transition w e :
  init_once w = true ->
  connected (controller w) = false ->
  connected (controller (step w e)) = true ->
  exists buffer,
    e = Recv buffer /\ is_handshake buffer = true /\
    thread_running w = true /\
    controller (step w e) = controller_read_frame (controller w) buffer /\
    controller (step w e) =
    mkController static_caps zero_state (last_keystroke (controller w))
                 true true (int_at buffer 1) /\
    0 < int_at buffer 1.
Proof.
  intros _ Hc Hc'.
  destruct e as [buffer| | | | | | |];
    [|match goal with
      | _ : context [step w ?e] |- _ =>
          destruct (step_api_controller w e eq_refl) as (_ & _ & _ & Hm)
      end; rewrite (Hm Hc') in Hc; discriminate Hc ..].
  exists buffer. split; [reflexivity|].
  simpl in *. unfold controller_read_thread_iter in *.
  destruct (thread_running w); [|rewrite Hc in Hc'; discriminate Hc'].
  rewrite controller_set_controller in *.
  destruct (controller_read_frame_caps (controller w) buffer)
    as [[_ Hm] | (_ & _ & Hh)]; [rewrite (Hm Hc') in Hc; discriminate Hc|].
  split; [exact Hh|]. split; [reflexivity|]. split; [reflexivity|].
  unfold is_handshake in Hh. apply andb_prop in Hh as [H8 Hid].
  split.
  - unfold controller_read_frame. rewrite H8, Hid. simpl. rewrite Hc. reflexivity.
  - destruct (Z.gtb_spec (int_at buffer 1) 0); [lia | discriminate].
Qed.

(** A reconnection after a state frame with a foreign id. *)
Lemma X6_connect_transition_witness :
  let w := run world0 [Enable true; Recv (Provider.get_gamepad_reply 42);
                       Recv (Provider.gamepad_state 1 42 1 4 0 30000 0 0);
                       GetKeystroke 0 0 (mkKeystroke 0 0 0 0 0);
                       Recv (Provider.gamepad_state 1 43 1 4 0 30000 0 0)] in
  init_once w = true /\ connected (controller w) = false /\
  exists buffer,
    controller (step w (Recv (Provider.get_gamepad_reply 43))) =
    mkController static_caps zero_state (last_keystroke (controller w))
                 true true (int_at buffer 1).
Proof.
  intros w.
  destruct (X6_connect_transition w (Recv (Provider.get_gamepad_reply 43))
              eq_refl eq_refl eq_refl) as (buffer & _ & _ & _ & _ & H & _).
  split; [reflexivity|]. split; [reflexivity|].
  exists buffer. exact H.
Defined.

(** X7: a GET_GAMEPAD reply with a positive id received while connected
    only replaces the stored id: the pad, its packet number, the
    capabilities and both flags stay, nothing is re-initialised; a state
    frame that still carries the previous id then disconnects. *)
Theorem X7_handshake_while_connected c hs frame :
  connected c = true -> is_handshake hs = true ->
  let c' := controller_read_frame c hs in
  c' = set_id c (int_at hs 1) /\
  (char_at frame 0 = REQUEST_CODE_GET_GAMEPAD_STATE ->
   int_at frame 2 = id c -> int_at hs 1 <> id c ->
   controller_read_frame c' frame =
   set_state (set_connected c' false) zero_state).
Proof.
  intros Hc Hh c'. unfold is_handshake in Hh. apply andb_prop in Hh as [H8 Hid].
  assert (E : c' = set_id c (int_at hs 1)).
  { unfold c', controller_read_frame. rewrite H8, Hid. simpl. now rewrite Hc. }
  split; [exact E|]. intros H9 Hold Hne. rewrite E.
  unfold controller_read_frame. rewrite H9. simpl. rewrite Hc.
  unfold controller_update_state. simpl. rewrite Hold.
  destruct (Z.eqb_spec (id c) (int_at hs 1)) as [Heq | _]; [congruence|].
  now rewrite orb_true_r.
Qed.

(** The provider re-announces under id 43 and keeps sending id 42. *)
Lemma X7_handshake_while_connected_witness :
  let c := controller_read_frame
             (controller_read_frame controller0 (Provider.get_gamepad_reply 42))
             (Provider.gamepad_state 1 42 1 4 0 30000 0 0) in
  let c' := controller_read_frame c (Provider.get_gamepad_reply 43) in
  state c' = state c /\
  connected (controller_read_frame c'
               (Provider.gamepad_state 1 42 1 4 0 30000 0 0)) = false.
Proof.
  intros c c'.
  destruct (X7_handshake_while_connected c (Provider.get_gamepad_reply 43)
              (Provider.gamepad_state 1 42 1 4 0 30000 0 0) eq_refl eq_refl)
    as [E H].
  fold c' in E, H. split; [rewrite E; reflexivity|].
  rewrite H; [reflexivity | reflexivity | reflexivity
              | vm_compute; discriminate].
Defined.

(** X8: the worker drops a GAMEPAD_STATE frame received while
    disconnected, a GET_GAMEPAD reply with a negative id, and every frame
    with another opcode; a GET_GAMEPAD reply with id 0 clears the id and
    the connected flag but, unlike a rejected state frame, keeps the pad. *)
Theorem X8_dropped_and_disconnecting_frames c buffer :
  ((char_at buffer 0 = REQUEST_CODE_GET_GAMEPAD_STATE /\ connected c = false)
   \/ (char_at buffer 0 = REQUEST_CODE_GET_GAMEPAD /\ int_at buffer 1 < 0)
   \/ (char_at buffer 0 <> REQUEST_CODE_GET_GAMEPAD /\
       char_at buffer 0 <> REQUEST_CODE_GET_GAMEPAD_STATE) ->
   controller_read_frame c buffer = c) /\
  (char_at buffer 0 = REQUEST_CODE_GET_GAMEPAD -> int_at buffer 1 = 0 ->
   controller_read_frame c buffer =
   mkController (caps c) (state c) (last_keystroke c) (enabled c) false 0).
Proof.
  split; [apply controller_read_frame_ignored|].
  intros H8 H0. unfold controller_read_frame. now rewrite H8, H0.
Qed.

(** A disconnect announcement after a state update keeps the pad. *)
Lemma X8_dropped_and_disconnecting_frames_witness :
  let c := controller_read_frame
             (controller_read_frame controller0 (Provider.get_gamepad_reply 42))
             (Provider.gamepad_state 1 42 1 4 0 30000 0 0) in
  let c' := controller_read_frame c (Provider.get_gamepad_reply 0) in
  connected c' = false /\ state c' = state c /\ state c <> zero_state /\
  controller_read_frame c' (Provider.gamepad_state 1 42 2 0 0 0 0 0) = c'.
Proof.
  intros c c'.
  destruct (X8_dropped_and_disconnecting_frames c (Provider.get_gamepad_reply 0))
    as [_ H0].
  specialize (H0 eq_refl eq_refl). fold c' in H0.
  destruct (X8_dropped_and_disconnecting_frames c'
              (Provider.gamepad_state 1 42 2 0 0 0 0 0)) as [Hd _].
  split; [rewrite H0; reflexivity|]. split; [rewrite H0; reflexivity|].
  split; [vm_compute; discriminate|].
  apply Hd. left. split; [reflexivity | rewrite H0; reflexivity].
Defined.

(** ** Entry points: errors, remapping, detach *)

(** X9: called with the start gate fired, XInputEnable changes nothing
    but the enabled flag; the flag is stored only while connected, and a
    call on a disconnected controller changes nothing at all; of two calls
    in a row the second one wins, so enable(false) followed by enable(true)
    leaves every other field as a single enable(true) would. *)
Theorem X9_enable_last_write_wins w b1 b2 :
  init_once w = true ->
  XInputEnable (XInputEnable w b1) b2 = XInputEnable w b2 /\
  XInputEnable w b1 =
  set_controller w
    (set_enabled (controller w)
       (if connected (controller w) then b1 else enabled (controller w))) /\
  enabled (controller (XInputEnable w b1)) =
  (if connected (controller w) then b1 else enabled (controller w)) /\
  (connected (controller w) = false -> XInputEnable w b1 = w).
Proof.
  destruct w as [[cp st lk en cn i'] t i m]. simpl. intros ->.
  unfold XInputEnable, start_read_thread. simpl.
  destruct cn; simpl; repeat split; try reflexivity; discriminate.
Qed.

(** X10: XInputSetState, XInputGetBatteryInformation and
    XInputGetDSoundAudioDeviceGuids validate alike: BAD_ARGUMENTS exactly
    for an index of 4 or more, otherwise DEVICE_NOT_CONNECTED unless the
    index is 0 and the controller is connected, where the first returns
    SUCCESS and the other two NOT_SUPPORTED. The two queries never fire the
    start gate, so this holds of them in every state; it holds of
    XInputSetState when the gate has fired before the call, and the call
    then ignores the vibration and changes nothing. XInputSetState never
    touches the index remapping. *)
Theorem X10_stub_entry_points w index vibration :
  let ok := (index =? 0) && connected (controller w) in
  let code good :=
    if index >=? XUSER_MAX_COUNT then ERROR_BAD_ARGUMENTS
    else if ok then good else ERROR_DEVICE_NOT_CONNECTED in
  (init_once w = true ->
   XInputSetState w index vibration = (code ERROR_SUCCESS, w)) /\
  xinput_min_index (snd (XInputSetState w index vibration)) = xinput_min_index w /\
  XInputGetBatteryInformation w index = code ERROR_NOT_SUPPORTED /\
  XInputGetDSoundAudioDeviceGuids w index = code ERROR_NOT_SUPPORTED.
Proof.
  intros ok code. subst ok code.
  split.
  - intros Hi. unfold XInputSetState, controller_is_connected.
    rewrite (start_read_thread_fired w Hi).
    destruct (index >=? XUSER_MAX_COUNT); simpl; [reflexivity|].
    destruct ((index =? 0) && connected (controller w)); reflexivity.
  - unfold XInputSetState, XInputGetBatteryInformation,
      XInputGetDSoundAudioDeviceGuids, controller_is_connected.
    rewrite start_read_thread_controller.
    destruct (index >=? XUSER_MAX_COUNT); simpl;
      [|destruct ((index =? 0) && connected (controller w)); simpl];
      rewrite ?start_read_thread_min_index; repeat split.
Qed.

(** A first XInputSetState call during whose wait the worker handled the
    provider's reply runs on a connected controller and succeeds. *)
Lemma X10_stub_entry_points_witness :
  let w := start_wait world0 [Provider.get_gamepad_reply 42] in
  init_once w = true /\
  XInputSetState w 0 (mkVibration 1 2) = (ERROR_SUCCESS, w) /\
  XInputGetBatteryInformation w 0 = ERROR_NOT_SUPPORTED.
Proof.
  intros w.
  destruct (X10_stub_entry_points w 0 (mkVibration 1 2)) as (H & _ & Hb & _).
  split; [reflexivity|]. split; [exact (H eq_refl) | exact Hb].
Defined.

Lemma xinput_get_state_controller w index state_ :
  controller (snd (fst (xinput_get_state w index state_))) = controller w.
Proof.
  unfold xinput_get_state. destruct state_; [|reflexivity].
  destruct (_ >=? _); simpl; [apply start_read_thread_controller|].
  destruct (_ <? _); destruct (negb _); simpl;
    apply start_read_thread_controller.
Qed.

(** X11: get_state returns SUCCESS, BAD_ARGUMENTS or DEVICE_NOT_CONNECTED;
    with a code other than SUCCESS the caller's buffer is untouched; a null
    buffer gives BAD_ARGUMENTS without firing the start gate or touching
    the remapping, and an index of 4 or more gives BAD_ARGUMENTS without
    touching the remapping. Called with the start gate fired, it never
    modifies the controller or the worker's flags, returns SUCCESS only
    while connected, and then hands out the stored sample. *)
Theorem X11_get_state_error_behaviour w index state_ :
  let r := xinput_get_state w index state_ in
  let ret := fst (fst r) in
  let w' := snd (fst r) in
  (ret = ERROR_SUCCESS \/ ret = ERROR_BAD_ARGUMENTS
   \/ ret = ERROR_DEVICE_NOT_CONNECTED) /\
  (ret <> ERROR_SUCCESS -> snd r = state_) /\
  (state_ = None -> ret = ERROR_BAD_ARGUMENTS /\ w' = w) /\
  (index >= XUSER_MAX_COUNT ->
   ret = ERROR_BAD_ARGUMENTS /\ xinput_min_index w' = xinput_min_index w) /\
  (init_once w = true ->
   controller w' = controller w /\
   thread_running w' = thread_running w /\ init_once w' = true /\
   (ret = ERROR_SUCCESS ->
    connected (controller w) = true /\ snd r = Some (state (controller w)))).
Proof.
  intros r ret w'. subst ret w' r.
  assert (Hfired : init_once w = true ->
            controller (snd (fst (xinput_get_state w index state_)))
            = controller w /\
            thread_running (snd (fst (xinput_get_state w index state_)))
            = thread_running w /\
            init_once (snd (fst (xinput_get_state w index state_))) = true).
  { intros Hi. unfold xinput_get_state. destruct state_; [|simpl; auto].
    rewrite (start_read_thread_fired w Hi).
    destruct (_ >=? _); simpl; [auto|].
    destruct (_ <? _); destruct (negb _); simpl; auto. }
  unfold xinput_get_state in *.
  destruct state_ as [s0|];
    [|simpl; repeat split; auto; try discriminate; apply Hfired; assumption].
  destruct (Z.geb_spec index XUSER_MAX_COUNT) as [Hge | Hlt]; simpl.
  - rewrite start_read_thread_min_index.
    repeat split; auto; try discriminate; try (apply Hfired; assumption).
  - simpl in Hfired.
    match goal with
    | |- context [controller_is_connected (controller ?x) ?i] =>
        assert (Hc : controller x = controller w)
          by (destruct (_ <? _); simpl; apply start_read_thread_controller);
        rewrite Hc in *;
        destruct (controller_is_connected (controller w) i) eqn:Ecc
    end; simpl in *.
    + rewrite ?Hc. unfold controller_is_connected in Ecc.
      apply andb_prop in Ecc as [_ Ecc].
      repeat split; auto; try discriminate; try lia;
        apply Hfired; assumption.
    + repeat split; auto; try discriminate; try lia;
        apply Hfired; assumption.
Qed.

(** X12: while the library stays attached, [xinput_min_index] stays
    within 0..3 and never increases; once index 0 has been queried it is 0
    for good, and from then on get_state at the indices 1, 2 and 3
    reports DEVICE_NOT_CONNECTED whatever else happens. *)
Theorem X12_min_index_never_increases w evs :
  reachable w -> existsb is_detach evs = false ->
  0 <= xinput_min_index (run w evs) <= xinput_min_index w /\
  xinput_min_index w <= 3 /\
  (xinput_min_index w = 0 ->
   forall get index s0,
     get = XInputGetState \/ get = XInputGetStateEx -> 1 <= index <= 3 ->
     fst (fst (get (run w evs) index (Some s0))) = ERROR_DEVICE_NOT_CONNECTED).
Proof.
  intros Hr Hd.
  pose proof (reachable_invariant w Hr) as [Hm _ _].
  pose proof (reachable_invariant _ (reachable_run w evs Hr)) as [Hm' _ _].
  pose proof (run_min_index evs w Hm Hd) as E.
  pose proof (min_index_of_le (queried evs) (xinput_min_index w)) as Hle.
  split; [lia|]. split; [lia|].
  intros H0 get index s0 Hg Hi.
  assert (Hz : xinput_min_index (run w evs) = 0) by lia.
  destruct Hg as [-> | ->];
    [rewrite XInputGetState_code | unfold XInputGetStateEx];
    rewrite xinput_get_state_eq by lia; rewrite Hz;
    (destruct (Z.leb_spec index 0); [lia | reflexivity]).
Qed.

(** After a query at index 0, index 1 stays disconnected. *)
Lemma X12_min_index_never_increases_witness :
  let w := run world0 [Enable true; Recv (Provider.get_gamepad_reply 42);
                       GetState 0 (Some zero_state)] in
  fst (fst (XInputGetState
              (run w [GetState 1 (Some zero_state);
                      Recv (Provider.gamepad_state 1 42 1 4 0 0 0 0)])
              1 (Some zero_state))) = ERROR_DEVICE_NOT_CONNECTED.
Proof.
  intros w.
  assert (Hr : reachable w) by (apply reachable_run; constructor).
  destruct (X12_min_index_never_increases w
              [GetState 1 (Some zero_state);
               Recv (Provider.gamepad_state 1 42 1 4 0 0 0 0)] Hr eq_refl)
    as (_ & _ & H).
  apply (H eq_refl XInputGetState); [now left | lia].
Defined.

(** X13: in every reachable state in which the start gate has fired, the
    capabilities queries depend on the index and the connection only, not
    on the flags or the first argument: BAD_ARGUMENTS for an index of 4 or
    more, SUCCESS with the static record (and vendor 0x045E, product 0x02A1
    in the extended form) at index 0 while connected, DEVICE_NOT_CONNECTED
    otherwise; the plain query returns the code of the extended one and
    leaves the caller's record alone unless that code is SUCCESS; neither
    changes the globals. *)
Theorem X13_capabilities_queries w unk index flags caps_ capabilities caps_ex :
  reachable w -> init_once w = true ->
  let ok := (index =? 0) && connected (controller w) in
  let code :=
    if index >=? XUSER_MAX_COUNT then ERROR_BAD_ARGUMENTS
    else if ok then ERROR_SUCCESS else ERROR_DEVICE_NOT_CONNECTED in
  XInputGetCapabilitiesEx w unk index flags caps_ =
  (code, w,
   if code =? ERROR_SUCCESS
   then mkCapsEx static_caps 0x045E 0x02A1
                 (VersionNumber caps_) (unk1 caps_) (unk2 caps_)
   else caps_) /\
  XInputGetCapabilities w index flags capabilities caps_ex =
  (code, w,
   if code =? ERROR_SUCCESS then static_caps else capabilities).
Proof.
  intros Hr Hi ok code.
  assert (E : forall u c0,
             XInputGetCapabilitiesEx w u index flags c0 =
             (code, w,
              if code =? ERROR_SUCCESS
              then mkCapsEx static_caps 0x045E 0x02A1
                            (VersionNumber c0) (unk1 c0) (unk2 c0)
              else c0)).
  { intros u c0. subst code ok.
    unfold XInputGetCapabilitiesEx, controller_is_connected.
    rewrite (start_read_thread_fired w Hi).
    destruct (index >=? XUSER_MAX_COUNT); [reflexivity|].
    destruct ((index =? 0) && connected (controller w)) eqn:Eok;
      [|reflexivity].
    apply andb_prop in Eok as [_ Hc].
    apply reachable_invariant in Hr as [_ _ Hk]. rewrite (Hk Hc).
    simpl. rewrite andb_false_r. reflexivity. }
  split; [apply E|].
  unfold XInputGetCapabilities. rewrite E.
  subst code ok.
  destruct (index >=? XUSER_MAX_COUNT); [reflexivity|].
  destruct ((index =? 0) && connected (controller w)); reflexivity.
Qed.

(** A gamepad-only query at index 1 and a plain query at index 0, each as
    a first call during whose wait the worker handled the provider's
    reply. *)
Lemma X13_capabilities_queries_witness :
  let w := start_wait world0 [Provider.get_gamepad_reply 42] in
  fst (fst (XInputGetCapabilitiesEx w 1 1 XINPUT_FLAG_GAMEPAD
              (mkCapsEx zero_caps 0 0 0 0 0))) = ERROR_DEVICE_NOT_CONNECTED /\
  XInputGetCapabilities w 0 0 zero_caps (mkCapsEx zero_caps 0 0 0 0 0)
  = (ERROR_SUCCESS, w, static_caps).
Proof.
  intros w.
  assert (Hr : reachable w) by (apply start_wait_reachable; constructor).
  destruct (X13_capabilities_queries w 1 1 XINPUT_FLAG_GAMEPAD
              (mkCapsEx zero_caps 0 0 0 0 0) zero_caps
              (mkCapsEx zero_caps 0 0 0 0 0) Hr eq_refl) as [H1 _].
  destruct (X13_capabilities_queries w 1 0 0
              (mkCapsEx zero_caps 0 0 0 0 0) zero_caps
              (mkCapsEx zero_caps 0 0 0 0 0) Hr eq_refl) as [_ H2].
  split; [rewrite H1; reflexivity | rewrite H2; reflexivity].
Defined.

Lemma check_joystick_keystroke_code k cx cy lx ly base_vk :
  let r := check_joystick_keystroke k cx cy lx ly base_vk in
  (fst (fst r) = ERROR_SUCCESS) \/
  (fst (fst r) = ERROR_EMPTY /\ snd (fst r) = k).
Proof.
  unfold check_joystick_keystroke.
  destruct (negb _); [destruct (truthy _); left; reflexivity|].
  right. split; reflexivity.
Qed.

(** The synthesizer returns SUCCESS or EMPTY, and with EMPTY leaves the
    caller's keystroke alone. *)
Lemma check_for_keystroke_code c k :
  let r := check_for_keystroke c k in
  fst (fst r) = ERROR_SUCCESS \/ (fst (fst r) = ERROR_EMPTY /\ snd r = k).
Proof.
  unfold check_for_keystroke.
  destruct (check_buttons buttons c) as [[c1 k1]|]; [left; reflexivity|].
  destruct (xorb _ _); [left; reflexivity|].
  destruct (xorb _ _); [left; reflexivity|]. unfold check_joysticks.
  pose proof (check_joystick_keystroke_code k
                (sThumbLX (Gamepad (state c))) (sThumbLY (Gamepad (state c)))
                (sThumbLX (last_keystroke c)) (sThumbLY (last_keystroke c))
                VK_PAD_LTHUMB_UP) as HL.
  destruct (check_joystick_keystroke k _ _ _ _ VK_PAD_LTHUMB_UP)
    as [[r1 k1] [lx ly]].
  simpl in HL. destruct HL as [-> | [-> ->]]; [left; reflexivity|].
  simpl.
  match goal with
  | |- context [check_joystick_keystroke k ?a ?b ?c0 ?d VK_PAD_RTHUMB_UP] =>
      pose proof (check_joystick_keystroke_code k a b c0 d VK_PAD_RTHUMB_UP)
        as HR;
      destruct (check_joystick_keystroke k a b c0 d VK_PAD_RTHUMB_UP)
        as [[r2 k2] [rx ry]]
  end.
  simpl in HR. destruct HR as [-> | [-> ->]]; [left | right]; auto.
Qed.

(** X14: XInputGetKeystroke never fires the start gate and never touches
    anything but the remembered keystroke pad; it returns BAD_ARGUMENTS for
    an index of 4 or more other than XUSER_INDEX_ANY, treats
    XUSER_INDEX_ANY as index 0, ignores its reserved argument, and with
    BAD_ARGUMENTS, DEVICE_NOT_CONNECTED or EMPTY leaves the caller's
    keystroke as it was; polled alone from the initial state it reports
    DEVICE_NOT_CONNECTED forever, because nothing starts the worker. *)
Theorem X14_get_keystroke_error_behaviour w index reserved k :
  let r := XInputGetKeystroke w index reserved k in
  let ret := fst (fst r) in
  let w' := snd (fst r) in
  w' = set_controller w
         (set_last_keystroke (controller w) (last_keystroke (controller w'))) /\
  (ret = ERROR_SUCCESS \/ ret = ERROR_EMPTY \/ ret = ERROR_BAD_ARGUMENTS
   \/ ret = ERROR_DEVICE_NOT_CONNECTED) /\
  (ret <> ERROR_SUCCESS -> snd r = k) /\
  (ret = ERROR_BAD_ARGUMENTS \/ ret = ERROR_DEVICE_NOT_CONNECTED -> w' = w) /\
  (index >= XUSER_MAX_COUNT -> index <> XUSER_INDEX_ANY ->
   ret = ERROR_BAD_ARGUMENTS) /\
  XInputGetKeystroke w XUSER_INDEX_ANY reserved k =
  XInputGetKeystroke w 0 0 k /\
  (forall evs, forallb is_get_keystroke evs = true ->
               run world0 evs = world0).
Proof.
  intros r ret w'. subst ret w' r.
  assert (Hsame : forall x : world,
             x = set_controller x
                   (set_last_keystroke (controller x)
                      (last_keystroke (controller x))))
    by (intros [[? ? ? ? ? ?] ? ? ?]; reflexivity).
  split; [|split; [|split; [|split; [|split; [|split]]]]].
  - unfold XInputGetKeystroke.
    destruct (_ && _); [apply Hsame|]. destruct (negb _); [apply Hsame|].
    pose proof (check_for_keystroke_frame (controller w) k) as H.
    destruct (check_for_keystroke (controller w) k) as [[r c1] k1].
    simpl in *. now rewrite H at 1.
  - unfold XInputGetKeystroke.
    destruct (_ && _); [simpl; auto|]. destruct (negb _); [simpl; auto|].
    pose proof (check_for_keystroke_code (controller w) k) as H.
    destruct (check_for_keystroke (controller w) k) as [[r c1] k1].
    simpl in *. destruct H as [-> | [-> _]]; auto.
  - unfold XInputGetKeystroke.
    destruct (_ && _); [reflexivity|]. destruct (negb _); [reflexivity|].
    pose proof (check_for_keystroke_code (controller w) k) as H.
    destruct (check_for_keystroke (controller w) k) as [[r c1] k1].
    simpl in *. destruct H as [-> | [_ ->]]; [congruence | reflexivity].
  - unfold XInputGetKeystroke.
    destruct (_ && _); [reflexivity|]. destruct (negb _); [reflexivity|].
    pose proof (check_for_keystroke_code (controller w) k) as H.
    destruct (check_for_keystroke (controller w) k) as [[r c1] k1].
    simpl in *. destruct H as [-> | [-> _]]; intros [H | H]; discriminate H.
  - intros Hge Hne. unfold XInputGetKeystroke.
    destruct (Z.geb_spec index XUSER_MAX_COUNT); [|lia].
    destruct (Z.eqb_spec index XUSER_INDEX_ANY); [contradiction | reflexivity].
  - reflexivity.
  - induction evs as [| e evs IH]; [reflexivity|].
    simpl. intros H. apply andb_prop in H as [He Hevs].
    destruct e; try discriminate He. cbn [step].
    unfold XInputGetKeystroke, controller_is_connected.
    destruct (_ && _); [now apply IH|].
    change (connected (controller world0)) with false.
    rewrite andb_false_r. now apply IH.
Qed.





(** ** Synthesizer: silence, reported keys, triggers, sticks *)

Lemma check_buttons_none_inv tbl c :
  check_buttons tbl c = None ->
  Forall (fun e => button_changed (wButtons (Gamepad (state c)))
                     (wButtons (last_keystroke c)) (fst e) = false) tbl.
Proof.
  induction tbl as [| [m v] tbl IH]; [constructor|].
  simpl. destruct (button_changed _ _ m) eqn:E.
  - destruct (truthy _); discriminate.
  - intros H. constructor; [exact E | now apply IH].
Qed.

Lemma check_joystick_keystroke_empty k cx cy lx ly base_vk :
  fst (fst (check_joystick_keystroke k cx cy lx ly base_vk)) = ERROR_EMPTY <->
  joystick_vk cx cy base_vk = joystick_vk lx ly base_vk.
Proof.
  unfold check_joystick_keystroke.
  destruct (Z.eqb_spec (joystick_vk cx cy base_vk) (joystick_vk lx ly base_vk));
    simpl.
  - tauto.
  - destruct (truthy _); simpl; split; [discriminate | contradiction
                                       | discriminate | contradiction].
Qed.

Lemma check_joystick_keystroke_in_sync k cx cy lx ly base_vk :
  joystick_vk cx cy base_vk = joystick_vk lx ly base_vk ->
  check_joystick_keystroke k cx cy lx ly base_vk = (ERROR_EMPTY, k, (cx, cy)).
Proof.
  intros E. unfold check_joystick_keystroke. now rewrite E, Z.eqb_refl.
Qed.

(** The outcome of a poll that finds nothing to report. *)
Lemma check_for_keystroke_empty c k :
  in_sync c ->
  check_for_keystroke c k =
  (ERROR_EMPTY,
   set_last_keystroke c
     (set_sThumbR
        (set_sThumbL (last_keystroke c)
           (sThumbLX (Gamepad (state c))) (sThumbLY (Gamepad (state c))))
        (sThumbRX (Gamepad (state c))) (sThumbRY (Gamepad (state c)))),
   k).
Proof.
  intros (Hb & Ht & Hl & Hr).
  rewrite check_for_keystroke_in_sync by assumption.
  unfold check_joysticks. unfold stick_vk in Hl, Hr.
  cbn [stick_axes fst snd stick_base_vk] in Hl, Hr.
  rewrite (check_joystick_keystroke_in_sync _ _ _ _ _ _ Hl).
  cbn [Z.eqb ERROR_EMPTY ERROR_SUCCESS set_sThumbL sThumbRX sThumbRY].
  now rewrite (check_joystick_keystroke_in_sync _ _ _ _ _ _ Hr).
Qed.

Lemma check_for_keystroke_empty_inv c k :
  fst (fst (check_for_keystroke c k)) = ERROR_EMPTY -> in_sync c.
Proof.
  unfold check_for_keystroke.
  destruct (check_buttons buttons c) as [[c1 k1]|] eqn:Eb; [discriminate|].
  apply check_buttons_none_inv in Eb.
  destruct (xorb (trigger_is_on (bLeftTrigger (Gamepad (state c))))
                 (trigger_is_on (bLeftTrigger (last_keystroke c)))) eqn:El;
    [discriminate|].
  destruct (xorb (trigger_is_on (bRightTrigger (Gamepad (state c))))
                 (trigger_is_on (bRightTrigger (last_keystroke c)))) eqn:Er;
    [discriminate|].
  apply xorb_eq in El. apply xorb_eq in Er. unfold check_joysticks.
  pose proof (check_joystick_keystroke_empty k
                (sThumbLX (Gamepad (state c))) (sThumbLY (Gamepad (state c)))
                (sThumbLX (last_keystroke c)) (sThumbLY (last_keystroke c))
                VK_PAD_LTHUMB_UP) as HL.
  pose proof (check_joystick_keystroke_code k
                (sThumbLX (Gamepad (state c))) (sThumbLY (Gamepad (state c)))
                (sThumbLX (last_keystroke c)) (sThumbLY (last_keystroke c))
                VK_PAD_LTHUMB_UP) as HLc.
  destruct (check_joystick_keystroke k _ _ _ _ VK_PAD_LTHUMB_UP)
    as [[r1 k1] [lx ly]].
  simpl in HL, HLc. destruct HLc as [-> | [-> ->]]; [discriminate|].
  cbn [Z.eqb ERROR_EMPTY ERROR_SUCCESS set_sThumbL sThumbRX sThumbRY].
  pose proof (check_joystick_keystroke_empty k
                (sThumbRX (Gamepad (state c))) (sThumbRY (Gamepad (state c)))
                (sThumbRX (last_keystroke c)) (sThumbRY (last_keystroke c))
                VK_PAD_RTHUMB_UP) as HR.
  destruct (check_joystick_keystroke k _ _ _ _ VK_PAD_RTHUMB_UP)
    as [[r2 k2] [rx ry]].
  simpl in HR. simpl. intros ->.
  repeat split; try assumption.
  - apply HL. reflexivity.
  - apply HR. reflexivity.
Qed.

(** X16: the synthesizer returns EMPTY exactly when no table button, no
    trigger on-state and no stick virtual key differs between the current
    and the last-delivered pad; it then leaves the caller's keystroke and
    the remembered buttons and trigger bytes alone, copies the raw stick
    axes into the remembered pad, and the next poll is EMPTY again and
    changes nothing. *)
Theorem X16_empty_iff_in_sync c k :
  let r := check_for_keystroke c k in
  let c' := snd (fst r) in
  (fst (fst r) = ERROR_EMPTY <-> in_sync c) /\
  (in_sync c ->
   snd r = k /\
   wButtons (last_keystroke c') = wButtons (last_keystroke c) /\
   bLeftTrigger (last_keystroke c') = bLeftTrigger (last_keystroke c) /\
   bRightTrigger (last_keystroke c') = bRightTrigger (last_keystroke c) /\
   stick_axes LeftStick (last_keystroke c')
   = stick_axes LeftStick (Gamepad (state c)) /\
   stick_axes RightStick (last_keystroke c')
   = stick_axes RightStick (Gamepad (state c)) /\
   forall k', check_for_keystroke c' k' = (ERROR_EMPTY, c', k')).
Proof.
  intros r c'. subst c' r. split.
  - split; [apply check_for_keystroke_empty_inv|].
    intros H. now rewrite check_for_keystroke_empty.
  - intros H. rewrite check_for_keystroke_empty by assumption.
    cbn [fst snd]. repeat split.
    intros k'. rewrite check_for_keystroke_empty.
    + destruct c as [cp st lk en cn i']. reflexivity.
    + destruct H as (Hb & Ht & _ & _).
      destruct c as [cp st lk en cn i'].
      split; [exact Hb|]. split; [exact Ht|]. split; reflexivity.
Qed.

Lemma check_buttons_reportable tbl c c' k :
  incl tbl buttons -> check_buttons tbl c = Some (c', k) -> reportable k.
Proof.
  induction tbl as [| [m v] tbl IH]; intros Hi; [discriminate|].
  simpl. destruct (button_changed _ _ m).
  - assert (Hin : In (m, v) buttons) by (apply Hi; now left).
    destruct (buttons_entries m v Hin) as [_ Hv].
    assert (Hk : In v keystroke_keys).
    { unfold keystroke_keys. apply in_or_app. left.
      change v with (snd (m, v)). now apply in_map. }
    destruct (truthy _); intros [= _ <-]; unfold reportable, keystroke_event;
      cbn [Unicode UserIndex HidCode Flags VirtualKey]; rewrite Hv;
      repeat split; auto.
  - apply IH. intros x Hx. apply Hi. now right.
Qed.

Lemma joystick_vk_keys s x y :
  let vk := joystick_vk x y (stick_base_vk s) in
  vk = 0 \/ (truthy vk = true /\ to_WORD vk = vk /\ In vk keystroke_keys).
Proof.
  unfold joystick_vk, keystroke_keys.
  destruct (joystick_state_cases x) as [-> | [-> | ->]];
    destruct (joystick_state_cases y) as [-> | [-> | ->]];
    destruct s;
    first [left; reflexivity
          | right; split; [reflexivity|]; split; [reflexivity|];
            cbn; repeat (first [left; reflexivity | right])].
Qed.

Lemma check_joystick_keystroke_reportable s k cx cy lx ly :
  let r := check_joystick_keystroke k cx cy lx ly (stick_base_vk s) in
  fst (fst r) = ERROR_SUCCESS -> reportable (snd (fst r)).
Proof.
  unfold check_joystick_keystroke.
  pose proof (joystick_vk_keys s cx cy) as Hc.
  pose proof (joystick_vk_keys s lx ly) as Hl. simpl in Hc, Hl.
  destruct (Z.eqb_spec (joystick_vk cx cy (stick_base_vk s))
                       (joystick_vk lx ly (stick_base_vk s))) as [E | Hne];
    [discriminate|].
  simpl.
  destruct Hl as [El | (Ht & Hw & Hin)].
  - rewrite El in *. simpl.
    destruct Hc as [Ec | (_ & Hw & Hin)]; [congruence|].
    intros _. unfold reportable, keystroke_event.
    cbn [Unicode UserIndex HidCode Flags VirtualKey fst snd]. rewrite Hw.
    repeat split; auto.
  - rewrite Ht. intros _. unfold reportable, keystroke_event.
    cbn [Unicode UserIndex HidCode Flags VirtualKey fst snd]. rewrite Hw.
    repeat split; auto.
Qed.

(** X17: every keystroke the synthesizer reports has Unicode, UserIndex
    and HidCode 0, the flag KEYDOWN or KEYUP (never both, never REPEAT),
    and one of the 14 button keys, the two trigger keys or the 16 stick
    direction keys as its virtual key. *)
Theorem X17_reported_keystrokes c k :
  fst (fst (check_for_keystroke c k)) = ERROR_SUCCESS ->
  reportable (snd (check_for_keystroke c k)).
Proof.
  unfold check_for_keystroke.
  destruct (check_buttons buttons c) as [[c1 k1]|] eqn:Eb.
  - intros _. eapply check_buttons_reportable; [apply incl_refl | exact Eb].
  - destruct (xorb _ _).
    { intros _. unfold reportable, keystroke_keys.
      destruct (trigger_is_on _); cbn; repeat split; auto;
        repeat (first [left; reflexivity | right]). }
    destruct (xorb _ _).
    { intros _. unfold reportable, keystroke_keys.
      destruct (trigger_is_on _); cbn; repeat split; auto;
        repeat (first [left; reflexivity | right]). }
    unfold check_joysticks.
    pose proof (check_joystick_keystroke_reportable LeftStick k
                  (sThumbLX (Gamepad (state c))) (sThumbLY (Gamepad (state c)))
                  (sThumbLX (last_keystroke c)) (sThumbLY (last_keystroke c)))
      as HL.
    pose proof (check_joystick_keystroke_code k
                  (sThumbLX (Gamepad (state c))) (sThumbLY (Gamepad (state c)))
                  (sThumbLX (last_keystroke c)) (sThumbLY (last_keystroke c))
                  VK_PAD_LTHUMB_UP) as HLc.
    cbn [stick_base_vk] in HL.
    destruct (check_joystick_keystroke k _ _ _ _ VK_PAD_LTHUMB_UP)
      as [[r1 k1] [lx ly]].
    simpl in HL, HLc. destruct HLc as [-> | [-> ->]]; [intros _; now apply HL|].
    cbn [Z.eqb ERROR_EMPTY ERROR_SUCCESS set_sThumbL sThumbRX sThumbRY].
    pose proof (check_joystick_keystroke_reportable RightStick k
                  (sThumbRX (Gamepad (state c))) (sThumbRY (Gamepad (state c)))
                  (sThumbRX (last_keystroke c)) (sThumbRY (last_keystroke c)))
      as HR.
    cbn [stick_base_vk] in HR.
    destruct (check_joystick_keystroke k _ _ _ _ VK_PAD_RTHUMB_UP)
      as [[r2 k2] [rx ry]].
    simpl in HR. simpl. exact HR.
Qed.

(** The left trigger pressed while everything else rests. *)
Lemma X17_reported_keystrokes_witness :
  let c := set_state controller0 (mkState 1 (mkGamepad 0 255 0 0 0 0 0)) in
  VirtualKey (snd (check_for_keystroke c (mkKeystroke 9 9 9 9 9)))
  = VK_PAD_LTRIGGER /\
  UserIndex (snd (check_for_keystroke c (mkKeystroke 9 9 9 9 9))) = 0.
Proof.
  intros c.
  destruct (X17_reported_keystrokes c (mkKeystroke 9 9 9 9 9) eq_refl)
    as (_ & H & _).
  split; [reflexivity | exact H].
Defined.



(** X19: a stick leaving the centre for a direction gives one KEYDOWN of
    that direction's key and remembers the raw axes; a stick returning to
    the centre gives one KEYUP of the old direction's key, remembers
    (0, 0), and the next examination reports nothing; a stick that moves
    without changing its quantized direction reports nothing and only
    refreshes the remembered axes. *)
Theorem X19_stick_press_release_hold s cur last k :
  (direction last = no_direction -> direction cur <> no_direction ->
   check_joystick_keystroke k (fst cur) (snd cur) (fst last) (snd last)
     (stick_base_vk s) =
   (ERROR_SUCCESS,
    mkKeystroke (direction_vk s (direction cur)) 0 XINPUT_KEYSTROKE_KEYDOWN 0 0,
    cur)) /\
  (direction last <> no_direction -> direction cur = no_direction ->
   check_joystick_keystroke k (fst cur) (snd cur) (fst last) (snd last)
     (stick_base_vk s) =
   (ERROR_SUCCESS,
    mkKeystroke (direction_vk s (direction last)) 0 XINPUT_KEYSTROKE_KEYUP 0 0,
    (0, 0)) /\
   forall k', check_joystick_keystroke k' (fst cur) (snd cur) 0 0
                (stick_base_vk s) = (ERROR_EMPTY, k', cur)) /\
  (direction last = direction cur ->
   check_joystick_keystroke k (fst cur) (snd cur) (fst last) (snd last)
     (stick_base_vk s) = (ERROR_EMPTY, k, cur)).
Proof.
  split; [|split; [|apply check_joystick_keystroke_same_direction]];
    destruct cur as [cx cy], last as [lx ly];
    unfold direction, no_direction, direction_vk, check_joystick_keystroke,
      joystick_vk; cbn [fst snd]; change (joystick_state 0) with JS_STATE_OFF;
    destruct (joystick_state_cases cx) as [-> | [-> | ->]];
    destruct (joystick_state_cases cy) as [-> | [-> | ->]];
    destruct (joystick_state_cases lx) as [-> | [-> | ->]];
    destruct (joystick_state_cases ly) as [-> | [-> | ->]];
    intros Ha Hb; try (exfalso; cbv in Ha, Hb; congruence);
    destruct s; try split; try intros k'; reflexivity.
Qed.

(** The left stick pushed up from rest, and the right stick let go. *)
Lemma X19_stick_press_release_hold_witness :
  check_joystick_keystroke (mkKeystroke 0 0 0 0 0) 0 25000 10 (-10)
    VK_PAD_LTHUMB_UP =
  (ERROR_SUCCESS,
   mkKeystroke VK_PAD_LTHUMB_UP 0 XINPUT_KEYSTROKE_KEYDOWN 0 0, (0, 25000)) /\
  fst (check_joystick_keystroke (mkKeystroke 0 0 0 0 0) 5 5 (-30000) 0
         VK_PAD_RTHUMB_UP) =
  (ERROR_SUCCESS, mkKeystroke 0x5833 0 XINPUT_KEYSTROKE_KEYUP 0 0).
Proof.
  destruct (X19_stick_press_release_hold LeftStick (0, 25000) (10, -10)
              (mkKeystroke 0 0 0 0 0)) as [H1 _].
  destruct (X19_stick_press_release_hold RightStick (5, 5) (-30000, 0)
              (mkKeystroke 0 0 0 0 0)) as (_ & H2 & _).
  split.
  - exact (H1 eq_refl ltac:(vm_compute; discriminate)).
  - destruct (H2 ltac:(vm_compute; discriminate) eq_refl) as [E _].
    cbn [fst snd stick_base_vk] in E. rewrite E. reflexivity.
Defined.

(** ** Polling drains the pending keystrokes *)

Lemma joystick_vk_centre base_vk : joystick_vk 0 0 base_vk = 0.
Proof. reflexivity. Qed.

(** One examination of a stick pays off one owed event, or finds none. *)
Lemma stick_step k cx cy lx ly base_vk :
  let r := check_joystick_keystroke k cx cy lx ly base_vk in
  let cv := joystick_vk cx cy base_vk in
  let lv := joystick_vk lx ly base_vk in
  let lv' := joystick_vk (fst (snd r)) (snd (snd r)) base_vk in
  (fst (fst r) = ERROR_SUCCESS /\ S (stick_cost cv lv') = stick_cost cv lv)
  \/ (fst (fst r) = ERROR_EMPTY /\ stick_cost cv lv = 0%nat /\
      stick_cost cv lv' = 0%nat /\ snd r = (cx, cy)).
Proof.
  unfold check_joystick_keystroke, stick_cost.
  destruct (Z.eqb_spec (joystick_vk cx cy base_vk) (joystick_vk lx ly base_vk))
    as [E | Hne]; simpl.
  - right. rewrite Z.eqb_refl. auto.
  - left. destruct (truthy (joystick_vk lx ly base_vk)) eqn:Et; simpl.
    + split; [reflexivity|]. rewrite joystick_vk_centre.
      unfold truthy. destruct (Z.eqb_spec (joystick_vk cx cy base_vk) 0);
        reflexivity.
    + split; [reflexivity|]. now rewrite Z.eqb_refl.
Qed.

Lemma changed_count_zero cur_w last_w tbl :
  Forall (fun e => button_changed cur_w last_w (fst e) = false) tbl ->
  changed_count cur_w last_w tbl = 0%nat.
Proof.
  unfold changed_count. induction 1 as [| e tbl He _ IH]; [reflexivity|].
  simpl. now rewrite He.
Qed.

(** The write-back of the button loop, bit by bit: the bit under the mask
    takes the current value, every other button bit is kept. *)
Lemma write_back_changed cur_w last_w b b' :
  0 <= b < 16 -> 0 <= b' < 16 ->
  button_changed cur_w last_w (2 ^ b) = true ->
  let nw := if truthy (Z.land cur_w (2 ^ b))
            then to_WORD (Z.lor last_w (2 ^ b))
            else to_WORD (Z.land last_w (Z.lnot (2 ^ b))) in
  button_changed cur_w nw (2 ^ b') =
  if b =? b' then false else button_changed cur_w last_w (2 ^ b').
Proof.
  intros Hb Hb' Hch nw. subst nw.
  rewrite button_changed_pow2 in Hch by lia.
  rewrite !button_changed_pow2, truthy_land_pow2 by lia.
  unfold to_WORD, to_unsigned.
  destruct (Z.testbit cur_w b) eqn:Ec; simpl in Hch;
    rewrite Z.mod_pow2_bits_low by lia;
    rewrite ?Z.lor_spec, ?Z.land_spec, ?Z.lnot_spec by lia;
    rewrite Z.pow2_bits_eqb by lia;
    destruct (Z.eqb_spec b b') as [<- | Hne];
    rewrite ?Ec, ?orb_true_r, ?orb_false_r, ?andb_true_r, ?andb_false_r;
    simpl; reflexivity.
Qed.

Lemma pow2_inj_word b b' : 0 <= b -> 0 <= b' -> 2 ^ b = 2 ^ b' -> b = b'.
Proof. intros Hb Hb' E. apply (Z.pow_inj_r 2); lia. Qed.

Lemma changed_count_write_back cur_w last_w b tbl :
  0 <= b < 16 -> button_changed cur_w last_w (2 ^ b) = true ->
  (forall e, In e tbl -> exists b', 0 <= b' < 16 /\ fst e = 2 ^ b') ->
  NoDup (map fst tbl) ->
  let nw := if truthy (Z.land cur_w (2 ^ b))
            then to_WORD (Z.lor last_w (2 ^ b))
            else to_WORD (Z.land last_w (Z.lnot (2 ^ b))) in
  (In (2 ^ b) (map fst tbl) ->
   S (changed_count cur_w nw tbl) = changed_count cur_w last_w tbl) /\
  (~ In (2 ^ b) (map fst tbl) ->
   changed_count cur_w nw tbl = changed_count cur_w last_w tbl).
Proof.
  intros Hb Hch Hbits Hnd nw. unfold changed_count.
  induction tbl as [| [m v] tbl IH]; [split; [intros []|reflexivity]|].
  inversion Hnd as [| ? ? Hnotin Hnd']; subst.
  destruct (Hbits (m, v) (or_introl eq_refl)) as (b' & Hb' & Hm).
  simpl in Hm. subst m.
  destruct IH as [IH1 IH2]; [intros e He; apply Hbits; now right | exact Hnd'|].
  pose proof (write_back_changed cur_w last_w b b' Hb Hb' Hch) as Hwb.
  simpl in Hwb. fold nw in Hwb.
  cbn [map fst filter]. rewrite Hwb.
  destruct (Z.eqb_spec b b') as [<- | Hne].
  - rewrite Hch. cbn [length]. split.
    + intros _. f_equal. now apply IH2.
    + intros Hn. exfalso. apply Hn. now left.
  - assert (Hm : 2 ^ b' <> 2 ^ b)
      by (intros E; apply Hne; symmetry; apply pow2_inj_word; lia).
    split.
    + intros [E | Hin]; [contradiction|].
      destruct (button_changed cur_w last_w (2 ^ b')); cbn [length];
        [f_equal|]; now apply IH1.
    + intros Hn.
      assert (Hn' : ~ In (2 ^ b) (map fst tbl)) by (intros H; apply Hn; now right).
      destruct (button_changed cur_w last_w (2 ^ b')); cbn [length];
        [f_equal|]; now apply IH2.
Qed.

Lemma buttons_masks_nodup : NoDup (map fst buttons).
Proof.
  cbn. repeat (constructor; [cbn; intuition discriminate|]). constructor.
Qed.

Lemma check_buttons_split tbl c c' k :
  check_buttons tbl c = Some (c', k) ->
  exists pre m v post,
    tbl = pre ++ (m, v) :: post /\
    Forall (fun e => button_changed (wButtons (Gamepad (state c)))
                       (wButtons (last_keystroke c)) (fst e) = false) pre /\
    button_changed (wButtons (Gamepad (state c)))
      (wButtons (last_keystroke c)) m = true.
Proof.
  induction tbl as [| [m v] tbl IH]; [discriminate|].
  simpl. destruct (button_changed _ _ m) eqn:E.
  - intros _. exists [], m, v, tbl. repeat split; auto.
  - intros H. destruct (IH H) as (pre & m' & v' & post & -> & Hpre & Hm).
    exists ((m, v) :: pre), m', v', post. repeat split; auto.
Qed.

Lemma trigger_pending_same v : trigger_pending v v = 0%nat.
Proof. unfold trigger_pending. now rewrite xorb_nilpotent. Qed.

(** One poll pays off exactly one owed keystroke, or finds none owed. *)
Lemma poll_step c k :
  let r := check_for_keystroke c k in
  let c' := snd (fst r) in
  state c' = state c /\
  ((fst (fst r) = ERROR_SUCCESS /\ S (pending c') = pending c)
   \/ (fst (fst r) = ERROR_EMPTY /\ pending c = 0%nat /\ pending c' = 0%nat)).
Proof.
  intros r c'. subst c' r. unfold check_for_keystroke.
  destruct (check_buttons buttons c) as [[c1 k1]|] eqn:Eb.
  - destruct (check_buttons_split _ _ _ _ Eb)
      as (pre & m & v & post & Htbl & Hpre & Hch).
    rewrite (check_buttons_first buttons pre m v post c Htbl Hpre Hch) in Eb.
    injection Eb as <- _.
    assert (Hin : In (m, v) buttons) by (rewrite Htbl; apply in_elt).
    destruct (buttons_entries m v Hin) as [(b & Hb & -> & _) _].
    destruct (changed_count_write_back (wButtons (Gamepad (state c)))
                (wButtons (last_keystroke c)) b buttons Hb Hch) as [Hcount _].
    { intros [m' v'] He. destruct (buttons_entries m' v' He)
        as [(b' & Hb' & -> & _) _]. now exists b'. }
    { exact buttons_masks_nodup. }
    specialize (Hcount ltac:(change (2 ^ b) with (fst (2 ^ b, v));
                             now apply in_map)).
    cbn [fst snd]. split; [reflexivity|]. left. split; [reflexivity|].
    unfold pending, set_last_keystroke, set_wButtons, set_bLeftTrigger,
      set_bRightTrigger, set_sThumbL, set_sThumbR.
    cbn [state last_keystroke set_last_keystroke set_wButtons wButtons
         bLeftTrigger bRightTrigger].
    unfold stick_vk.
    cbn [stick_axes fst snd sThumbLX sThumbLY sThumbRX sThumbRY].
    simpl in Hcount. lia.
  - apply check_buttons_none_inv in Eb.
    pose proof (changed_count_zero _ _ _ Eb) as Hz.
    destruct (xorb (trigger_is_on (bLeftTrigger (Gamepad (state c))))
                   (trigger_is_on (bLeftTrigger (last_keystroke c)))) eqn:El.
    { assert (Hl1 : trigger_pending (bLeftTrigger (Gamepad (state c)))
                        (bLeftTrigger (last_keystroke c)) = 1%nat)
        by (unfold trigger_pending; now rewrite El).
      cbn [fst snd]. split; [reflexivity|]. left. split; [reflexivity|].
      unfold pending, set_last_keystroke, set_wButtons, set_bLeftTrigger,
      set_bRightTrigger, set_sThumbL, set_sThumbR.
      cbn [state last_keystroke set_last_keystroke set_bLeftTrigger wButtons
           bLeftTrigger bRightTrigger].
      unfold stick_vk.
      cbn [stick_axes fst snd sThumbLX sThumbLY sThumbRX sThumbRY].
      rewrite Hz, trigger_pending_same, Hl1. lia. }
    assert (Hl : trigger_pending (bLeftTrigger (Gamepad (state c)))
                   (bLeftTrigger (last_keystroke c)) = 0%nat)
      by (unfold trigger_pending; now rewrite El).
    destruct (xorb (trigger_is_on (bRightTrigger (Gamepad (state c))))
                   (trigger_is_on (bRightTrigger (last_keystroke c)))) eqn:Er.
    { assert (Hr1 : trigger_pending (bRightTrigger (Gamepad (state c)))
                        (bRightTrigger (last_keystroke c)) = 1%nat)
        by (unfold trigger_pending; now rewrite Er).
      cbn [fst snd]. split; [reflexivity|]. left. split; [reflexivity|].
      unfold pending, set_last_keystroke, set_wButtons, set_bLeftTrigger,
      set_bRightTrigger, set_sThumbL, set_sThumbR.
      cbn [state last_keystroke set_last_keystroke set_bRightTrigger wButtons
           bLeftTrigger bRightTrigger].
      unfold stick_vk.
      cbn [stick_axes fst snd sThumbLX sThumbLY sThumbRX sThumbRY].
      rewrite Hz, Hl, trigger_pending_same, Hr1. lia. }
    assert (Hr : trigger_pending (bRightTrigger (Gamepad (state c)))
                   (bRightTrigger (last_keystroke c)) = 0%nat)
      by (unfold trigger_pending; now rewrite Er).
    unfold check_joysticks.
    pose proof (stick_step k
                  (sThumbLX (Gamepad (state c))) (sThumbLY (Gamepad (state c)))
                  (sThumbLX (last_keystroke c)) (sThumbLY (last_keystroke c))
                  VK_PAD_LTHUMB_UP) as HL.
    destruct (check_joystick_keystroke k _ _ _ _ VK_PAD_LTHUMB_UP)
      as [[r1 k1] [lx ly]].
    cbn [fst snd] in HL. unfold stick_vk.
    cbn [stick_axes fst snd stick_base_vk].
    destruct HL as [[-> HL] | (-> & HL0 & HL1 & [= -> ->])].
    + cbn [Z.eqb ERROR_SUCCESS fst snd]. split; [reflexivity|]. left.
      split; [reflexivity|].
      unfold pending, set_last_keystroke, set_wButtons, set_bLeftTrigger,
      set_bRightTrigger, set_sThumbL, set_sThumbR.
      cbn [state last_keystroke set_last_keystroke set_sThumbL wButtons
           bLeftTrigger bRightTrigger].
      unfold stick_vk.
      cbn [stick_axes fst snd stick_base_vk sThumbLX sThumbLY sThumbRX sThumbRY].
      rewrite Hz, Hl, Hr. lia.
    + cbn [Z.eqb ERROR_EMPTY ERROR_SUCCESS set_sThumbL sThumbRX sThumbRY].
      pose proof (stick_step k1
                  (sThumbRX (Gamepad (state c))) (sThumbRY (Gamepad (state c)))
                  (sThumbRX (last_keystroke c)) (sThumbRY (last_keystroke c))
                  VK_PAD_RTHUMB_UP) as HR.
      destruct (check_joystick_keystroke k1 _ _ _ _ VK_PAD_RTHUMB_UP)
        as [[r2 k2] [rx ry]].
      cbn [fst snd] in HR |- *. split; [reflexivity|].
      unfold pending, set_last_keystroke, set_wButtons, set_bLeftTrigger,
      set_bRightTrigger, set_sThumbL, set_sThumbR.
      cbn [state last_keystroke set_last_keystroke set_sThumbL set_sThumbR
           wButtons bLeftTrigger bRightTrigger].
      unfold stick_vk.
      cbn [stick_axes fst snd stick_base_vk sThumbLX sThumbLY sThumbRX sThumbRY].
      rewrite Hz, Hl, Hr, HL0, HL1.
      destruct HR as [[-> HR] | (-> & HR0 & HR1 & _)];
        [left | right]; (split; [reflexivity|]); lia.
Qed.

Lemma poll_codes_empty m : forall c k,
  pending c = 0%nat -> poll_codes m c k = repeat ERROR_EMPTY m.
Proof.
  induction m as [| m IH]; intros c k Hp; [reflexivity|].
  simpl. pose proof (poll_step c k) as H.
  destruct (check_for_keystroke c k) as [[ret c'] k']. simpl in H.
  destruct H as [_ [[_ H] | (-> & _ & H)]]; [lia|].
  f_equal. now apply IH.
Qed.

Lemma poll_codes_drain n m : forall c k,
  pending c = n ->
  poll_codes (n + m) c k = repeat ERROR_SUCCESS n ++ repeat ERROR_EMPTY m.
Proof.
  induction n as [| n IH]; intros c k Hp; [now apply poll_codes_empty|].
  simpl. pose proof (poll_step c k) as H.
  destruct (check_for_keystroke c k) as [[ret c'] k']. simpl in H.
  destruct H as [_ [[-> H] | (_ & H & _)]]; [|lia].
  f_equal. apply IH. lia.
Qed.

Lemma pending_bound c : (pending c <= 20)%nat.
Proof.
  unfold pending.
  assert (H1 : forall a b, (changed_count a b buttons <= 14)%nat).
  { intros a b. unfold changed_count.
    etransitivity; [apply filter_length_le|]. apply Nat.le_refl. }
  assert (H2 : forall a b, (trigger_pending a b <= 1)%nat)
    by (intros a b; unfold trigger_pending; destruct (xorb _ _); lia).
  assert (H3 : forall a b, (stick_cost a b <= 2)%nat).
  { intros a b. unfold stick_cost.
    destruct (a =? b); [lia|]. destruct (truthy b); [|lia].
    destruct (truthy a); lia. }
  pose proof (H1 (wButtons (Gamepad (state c))) (wButtons (last_keystroke c))).
  pose proof (H2 (bLeftTrigger (Gamepad (state c)))
                 (bLeftTrigger (last_keystroke c))).
  pose proof (H2 (bRightTrigger (Gamepad (state c)))
                 (bRightTrigger (last_keystroke c))).
  pose proof (H3 (stick_vk LeftStick (Gamepad (state c)))
                 (stick_vk LeftStick (last_keystroke c))).
  pose proof (H3 (stick_vk RightStick (Gamepad (state c)))
                 (stick_vk RightStick (last_keystroke c))).
  lia.
Qed.

(** X20: for a fixed pad sample the synthesizer owes a definite number of
    keystrokes, [pending c], at most 20: one per table button that
    differs, one per trigger whose on-state differs, and per stick a KEYUP
    of the old direction and a KEYDOWN of the new one as far as they
    exist. Polling returns SUCCESS exactly that many times and EMPTY ever
    after, each SUCCESS lowering the number by one and no poll touching the
    current sample; nothing is owed exactly when the pads are in sync. *)
Theorem X20_polling_drains c k m :
  (pending c <= 20)%nat /\
  poll_codes (pending c + m) c k =
  repeat ERROR_SUCCESS (pending c) ++ repeat ERROR_EMPTY m /\
  (pending c = 0%nat <-> in_sync c) /\
  state (snd (fst (check_for_keystroke c k))) = state c /\
  (fst (fst (check_for_keystroke c k)) = ERROR_SUCCESS ->
   S (pending (snd (fst (check_for_keystroke c k)))) = pending c).
Proof.
  pose proof (poll_step c k) as H. simpl in H. destruct H as [Hst H].
  split; [apply pending_bound|].
  split; [now apply poll_codes_drain|].
  split; [|split; [exact Hst|]].
  - split.
    + intros Hp. apply (check_for_keystroke_empty_inv c k).
      destruct H as [[_ H] | [H _]]; [lia | exact H].
    + intros Hs. pose proof (check_for_keystroke_empty c k Hs) as E.
      rewrite E in H. simpl in H.
      destruct H as [[H _] | (_ & H & _)]; [discriminate H | exact H].
  - intros Hs. destruct H as [[_ H] | [H _]]; [exact H|].
    rewrite Hs in H. discriminate H.
Qed.

(** ** Further instances *)

(** The d-pad byte 9 is neutral; 1 and 7 decode differently. *)
Lemma X2_dpad_decode_witness :
  decode_dpad 9 0 = 0 /\ decode_dpad 1 0 <> decode_dpad 7 0.
Proof.
  destruct X2_dpad_decode as (H & Hinj & _).
  split.
  - destruct (H 9) as (_ & [_ Hz] & _). apply Hz. lia.
  - intros E. specialize (Hinj 1 7 ltac:(lia) ltac:(lia) E). discriminate Hinj.
Defined.

(** Disable, then enable, on a controller that connected while the first
    call of the process waited for the worker. *)
Lemma X9_enable_last_write_wins_witness :
  let w := start_wait world0 [Provider.get_gamepad_reply 42] in
  init_once w = true /\ connected (controller w) = true /\
  enabled (controller (XInputEnable w false)) = false /\
  XInputEnable (XInputEnable w false) true = w.
Proof.
  intros w.
  destruct (X9_enable_last_write_wins w false true eq_refl)
    as (E & _ & Hen & _).
  split; [reflexivity|]. split; [reflexivity|]. split; [exact Hen|].
  rewrite E. reflexivity.
Defined.

(** A null buffer before anything else happened; a call on a connected
    controller after the start gate fired hands out the stored sample. *)
Lemma X11_get_state_error_behaviour_witness :
  xinput_get_state world0 0 None = (ERROR_BAD_ARGUMENTS, world0, None) /\
  let w := start_wait world0 [Provider.get_gamepad_reply 42;
                              Provider.gamepad_state 1 42 1 4 0 30000 0 0] in
  fst (fst (xinput_get_state w 0 (Some zero_state))) = ERROR_SUCCESS /\
  snd (xinput_get_state w 0 (Some zero_state)) = Some (state (controller w)) /\
  controller (snd (fst (xinput_get_state w 0 (Some zero_state)))) = controller w.
Proof.
  split.
  - destruct (X11_get_state_error_behaviour world0 0 None)
      as (_ & Hbuf & Hnull & _).
    destruct (Hnull eq_refl) as [Hret Hw].
    destruct (xinput_get_state world0 0 None) as [[ret w'] out].
    simpl in *. subst. rewrite Hbuf by discriminate. reflexivity.
  - intros w.
    destruct (X11_get_state_error_behaviour w 0 (Some zero_state))
      as (_ & _ & _ & _ & H).
    destruct (H eq_refl) as (Hc & _ & _ & Hok).
    assert (Hs : fst (fst (xinput_get_state w 0 (Some zero_state)))
                 = ERROR_SUCCESS) by reflexivity.
    split; [exact Hs|]. split; [exact (proj2 (Hok Hs)) | exact Hc].
Defined.

(** Index 7 is out of range for a keystroke poll. *)
Lemma X14_get_keystroke_error_behaviour_witness :
  fst (fst (XInputGetKeystroke world0 7 0 (mkKeystroke 0 0 0 0 0)))
  = ERROR_BAD_ARGUMENTS.
Proof.
  destruct (X14_get_keystroke_error_behaviour world0 7 0
              (mkKeystroke 0 0 0 0 0)) as (_ & _ & _ & _ & H & _).
  apply H; [vm_compute; discriminate | discriminate].
Defined.

(** Sticks held in their directions with slightly different raw values,
    the left trigger moved below the threshold: nothing to report. *)
Lemma X16_empty_iff_in_sync_witness :
  let c := mkController static_caps
             (mkState 9 (mkGamepad 0x1000 20 255 0 30000 (-25000) 0))
             (mkGamepad 0x1000 0 255 100 21000 (-32768) 5) true true 42 in
  check_for_keystroke c (mkKeystroke 1 2 3 4 5) =
  (ERROR_EMPTY,
   set_last_keystroke c (mkGamepad 0x1000 0 255 0 30000 (-25000) 0),
   mkKeystroke 1 2 3 4 5).
Proof.
  intros c.
  destruct (X16_empty_iff_in_sync c (mkKeystroke 1 2 3 4 5)) as [[_ H] _].
  assert (Hs : in_sync c).
  { split; [repeat constructor|]. split; [split; reflexivity|].
    split; reflexivity. }
  specialize (H Hs).
  reflexivity.
Defined.

(** A pressed, the left stick turned from UP to RIGHT: three keystrokes
    are owed, then silence. *)
Lemma X20_polling_drains_witness :
  let c := mkController static_caps
             (mkState 3 (mkGamepad XINPUT_GAMEPAD_A 0 0 25000 0 0 0))
             (mkGamepad 0 0 0 0 25000 0 0) true true 42 in
  pending c = 3%nat /\
  poll_codes 5 c (mkKeystroke 0 0 0 0 0) =
  [ERROR_SUCCESS; ERROR_SUCCESS; ERROR_SUCCESS; ERROR_EMPTY; ERROR_EMPTY].
Proof.
  intros c.
  assert (Hp : pending c = 3%nat) by (vm_compute; reflexivity).
  split; [exact Hp|].
  destruct (X20_polling_drains c (mkKeystroke 0 0 0 0 0) 2) as (_ & H & _).
  rewrite Hp in H. exact H.
Defined.
